(** * ChatDataLab: the predicate filter, the sampler and the text search

    A shallow embedding of [chatdatalab/get_random.py] ([filter_subset]) and
    [chatdatalab/search.py] ([search_text_matches]), together with the part of
    Python's [str], [re] and of pandas that the two functions call.

    Conventions of the embedding.
    - A Python [str] is a Rocq [string]; a character is the code point of the
      same number (0..255, the Latin-1 range).
    - A number is an integer; floating point values are not modelled.  A
      numeric column holds numbers ([Num]) and missing values ([NA], pandas'
      NaN); an object column holds strings ([Str]) and missing values ([NA],
      Python's [None]).  Column names are distinct.
    - A raised exception is an explicit [Raise e] outcome.
    - [random.choice] draws through an explicit number [rnd].
    - [print] calls are diagnostics and are left out.  The calls of
      [warnings.warn] in [search.py] are collected in a list returned next to
      the outcome; what pandas itself may warn about is not in that list.
    - [re] is modelled on patterns made of literal characters, escaped
      characters, [.], [^] and [$]; what [re.compile] does with any other
      pattern is a parameter ([re_beyond]) of the search, and every statement
      holds whatever that parameter is. *)

From Stdlib Require Import List String Ascii ZArith Bool Arith Lia.
Import ListNotations.
Open Scope string_scope.
Open Scope list_scope.
Open Scope Z_scope.

Set Implicit Arguments.

(* ================================================================= *)
(** ** Python strings *)

Module PyStr.

(** [str.lower] on one code point of the Latin-1 range: A-Z and the
    accented capitals 192..222 (without the multiplication sign 215) move
    up by 32. *)
Definition lower_char (c : ascii) : ascii :=
  let n := nat_of_ascii c in
  if ((65 <=? n) && (n <=? 90))%nat
     || ((192 <=? n) && (n <=? 222) && negb (n =? 215))%nat
  then ascii_of_nat (n + 32)
  else c.

Fixpoint lower (s : string) : string :=
  match s with
  | EmptyString => EmptyString
  | String c s' => String (lower_char c) (lower s')
  end.

(** [s.startswith(p)] *)
Fixpoint startswith (p s : string) : bool :=
  match p, s with
  | EmptyString, _ => true
  | String a p', String b s' => Ascii.eqb a b && startswith p' s'
  | String _ _, EmptyString => false
  end.

(** [p in s] *)
Fixpoint contains (p s : string) : bool :=
  startswith p s
  || match s with
     | EmptyString => false
     | String _ s' => contains p s'
     end.

(** [sep.join(l)] *)
Fixpoint join (sep : string) (l : list string) : string :=
  match l with
  | [] => ""
  | [x] => x
  | x :: rest => (x ++ sep ++ join sep rest)%string
  end.

(** [repr] of a string without quotes or backslashes in it, and of a list
    of such strings, as an f-string prints them. *)
Definition repr_str (s : string) : string := ("'" ++ s ++ "'")%string.

Definition repr_list (l : list string) : string :=
  ("[" ++ join ", " (map repr_str l) ++ "]")%string.

End PyStr.

(* ================================================================= *)
(** ** Python's [re], on the fragment the search relies on *)

Module Re.

(** The bytes of [re._special_chars_map]:
    [()[]{}?*+-|^$\.&~# \t\n\r\v\f]. *)
Definition special_codes : list nat :=
  [40; 41; 91; 93; 123; 125; 63; 42; 43; 45; 124; 94; 36; 92; 46; 38; 126;
   35; 32; 9; 10; 13; 11; 12]%nat.

Definition is_special (c : ascii) : bool :=
  existsb (Nat.eqb (nat_of_ascii c)) special_codes.

Definition backslash : ascii := ascii_of_nat 92.
Definition newline : ascii := ascii_of_nat 10.

(** [re.escape]: a backslash before every special character. *)
Fixpoint escape (s : string) : string :=
  match s with
  | EmptyString => EmptyString
  | String c s' =>
      if is_special c then String backslash (String c (escape s'))
      else String c (escape s')
  end.

(** Pattern items of the fragment: a literal character, [.], [^], [$]. *)
Inductive atom : Type :=
| Lit (c : ascii)
| Dot
| Bol
| Eol.

Inductive parsed : Type :=
| Parsed (r : list atom)
| BadPattern          (* [re.error] *)
| Beyond.             (* syntax outside the fragment *)

Definition is_ascii_alnum (c : ascii) : bool :=
  let n := nat_of_ascii c in
  (((48 <=? n) && (n <=? 57)) || ((65 <=? n) && (n <=? 90))
   || ((97 <=? n) && (n <=? 122)))%nat.

(** The operators the fragment leaves out: [* + ? { } [ ] ( ) |]. *)
Definition is_operator (c : ascii) : bool :=
  existsb (Nat.eqb (nat_of_ascii c))
          [42; 43; 63; 123; 125; 91; 93; 40; 41; 124]%nat.

Definition cons_atom (a : atom) (p : parsed) : parsed :=
  match p with
  | Parsed r => Parsed (a :: r)
  | other => other
  end.

(** The parser of [sre_parse] on the fragment.  A backslash followed by a
    character that is no ASCII letter or digit is that character taken
    literally; a backslash that ends the pattern is
    [bad escape (end of pattern)]; a backslash before a letter or digit
    (classes, back references, bad escapes) is outside the fragment. *)
Fixpoint parse (p : string) : parsed :=
  match p with
  | EmptyString => Parsed []
  | String c rest =>
      if Ascii.eqb c backslash then
        match rest with
        | EmptyString => BadPattern
        | String d rest' =>
            if is_ascii_alnum d then Beyond
            else cons_atom (Lit d) (parse rest')
        end
      else if Ascii.eqb c "." then cons_atom Dot (parse rest)
      else if Ascii.eqb c "^" then cons_atom Bol (parse rest)
      else if Ascii.eqb c "$" then cons_atom Eol (parse rest)
      else if is_operator c then Beyond
      else cons_atom (Lit c) (parse rest)
  end.

(** A literal under the flag [re.IGNORECASE] ([ic]) compares lowered code
    points. *)
Definition chr_eq (ic : bool) (c x : ascii) : bool :=
  if ic then Ascii.eqb (PyStr.lower_char c) (PyStr.lower_char x)
  else Ascii.eqb c x.

Definition at_end (s : string) : bool :=
  match s with
  | EmptyString => true
  | String c EmptyString => Ascii.eqb c newline
  | _ => false
  end.

(** Does [r] match at the current position?  [bos] says whether the
    position is the beginning of the subject; [s] is what is left of it. *)
Fixpoint match_here (ic : bool) (r : list atom) (bos : bool) (s : string)
  : bool :=
  match r with
  | [] => true
  | Lit c :: r' =>
      match s with
      | String x s' => chr_eq ic c x && match_here ic r' false s'
      | EmptyString => false
      end
  | Dot :: r' =>
      match s with
      | String x s' => negb (Ascii.eqb x newline) && match_here ic r' false s'
      | EmptyString => false
      end
  | Bol :: r' => bos && match_here ic r' bos s
  | Eol :: r' => at_end s && match_here ic r' bos s
  end.

(** Does [r] match at this or at a later position? *)
Fixpoint search_from (ic : bool) (r : list atom) (bos : bool) (s : string)
  : bool :=
  match_here ic r bos s
  || match s with
     | EmptyString => false
     | String _ s' => search_from ic r false s'
     end.

(** A compiled pattern: [p.match(s) is not None], [p.search(s) is not None]. *)
Record pattern : Type := mkPattern {
  re_match : string -> bool;
  re_search : string -> bool
}.

Section Compile.

(** What [re.compile] does with a pattern outside the fragment, with the
    flag [re.IGNORECASE] set or not: [None] stands for [re.error]. *)
Variable re_beyond : string -> bool -> option pattern.

(** [re.compile(p, flags)] *)
Definition compile (p : string) (ic : bool) : option pattern :=
  match parse p with
  | Parsed r => Some (mkPattern (match_here ic r true)
                                (search_from ic r true))
  | BadPattern => None
  | Beyond => re_beyond p ic
  end.

End Compile.

End Re.

(* ================================================================= *)
(** ** Exceptions *)

Inductive exn : Type :=
| ValueError (msg : string)
| TypeError (msg : string)
| KeyError (key : string)
| AttributeError (msg : string)
| IndexError
| ReError.

Inductive outcome (A : Type) : Type :=
| Return (a : A)
| Raise (e : exn).

Arguments Return {A} a.
Arguments Raise {A} e.

Definition bind {A B : Type} (m : outcome A) (k : A -> outcome B)
  : outcome B :=
  match m with
  | Return a => k a
  | Raise e => Raise e
  end.

Notation "x <- m ;; k" := (bind m (fun x => k))
  (at level 61, m at next level, right associativity).

(* ================================================================= *)
(** ** The part of pandas the two functions use *)

Module Pandas.

(** [pd.api.types.is_numeric_dtype(dtype)] is [true] on [Numeric]. *)
Inductive dtype : Type := Numeric | Object.

Inductive cell : Type :=
| NA
| Num (n : Z)
| Str (s : string).

(** A row keeps its index label, which is its identity. *)
Record row : Type := mkRow {
  label : Z;
  cells : list (string * cell)
}.

Record DataFrame : Type := mkDF {
  columns : list (string * dtype);
  rows : list row
}.

Fixpoint lookup {A : Type} (key : string) (l : list (string * A))
  : option A :=
  match l with
  | [] => None
  | (k, v) :: rest => if String.eqb k key then Some v else lookup key rest
  end.

(** The value of row [r] in column [key]. *)
Definition get (key : string) (r : row) : cell :=
  match lookup key (cells r) with
  | Some c => c
  | None => NA
  end.

(** [key in df.columns] *)
Definition has_column (df : DataFrame) (key : string) : bool :=
  match lookup key (columns df) with
  | Some _ => true
  | None => false
  end.

(** [df[key].dtype], for a column that exists. *)
Definition dtype_of (df : DataFrame) (key : string) : dtype :=
  match lookup key (columns df) with
  | Some d => d
  | None => Object
  end.

(** [df[key]] as the sequence of its values. *)
Definition column (key : string) (rs : list row) : list cell :=
  map (get key) rs.

(** [df.copy()]: a frame of its own with the same content. *)
Definition copy (df : DataFrame) : DataFrame := df.

(** [df[mask]]: the rows at which the mask holds, in their order. *)
Fixpoint boolean_index {A : Type} (rs : list A) (mask : list bool)
  : list A :=
  match rs, mask with
  | r :: rs', b :: mask' =>
      if b then r :: boolean_index rs' mask' else boolean_index rs' mask'
  | _, _ => []
  end.

(** [df.empty]: no rows or no columns. *)
Definition empty (df : DataFrame) : bool :=
  match rows df, columns df with
  | [], _ => true
  | _, [] => true
  | _, _ => false
  end.

(** Identity of values as [unique] sees it: all missing values are one. *)
Definition cell_same (a b : cell) : bool :=
  match a, b with
  | NA, NA => true
  | Num x, Num y => Z.eqb x y
  | Str x, Str y => String.eqb x y
  | _, _ => false
  end.

(** [Series.unique()]: distinct values in order of first occurrence. *)
Fixpoint unique_acc (seen : list cell) (l : list cell) : list cell :=
  match l with
  | [] => []
  | c :: l' =>
      if existsb (cell_same c) seen then unique_acc seen l'
      else c :: unique_acc (c :: seen) l'
  end.

Definition unique (l : list cell) : list cell := unique_acc [] l.

(** A scalar of a filter spec. *)
Inductive scalar : Type :=
| SInt (z : Z)
| SStr (s : string).

(** The value given for one keyword: [None], a scalar, a tuple whose
    elements are scalars or [None], or a list of scalars. *)
Inductive spec : Type :=
| SpNone
| SpScalar (v : scalar)
| SpTuple (t : list (option scalar))
| SpList (l : list scalar).

(** Python's [==] on two scalars. *)
Definition scalar_eq (a b : scalar) : bool :=
  match a, b with
  | SInt x, SInt y => Z.eqb x y
  | SStr x, SStr y => String.eqb x y
  | _, _ => false
  end.

(** One element of [series == v]: a missing value equals nothing. *)
Definition cell_eq_scalar (v : scalar) (c : cell) : bool :=
  match c, v with
  | Num n, SInt z => Z.eqb n z
  | Str s, SStr t => String.eqb s t
  | _, _ => false
  end.

(** One element of [series >= z] and of [series <= z]: a missing value
    compares false. *)
Definition cell_ge (z : Z) (c : cell) : bool :=
  match c with
  | Num n => Z.leb z n
  | _ => false
  end.

Definition cell_le (z : Z) (c : cell) : bool :=
  match c with
  | Num n => Z.leb n z
  | _ => false
  end.

Definition is_int (v : scalar) : bool :=
  match v with
  | SInt _ => true
  | SStr _ => false
  end.

(** The errors of pandas, their texts shortened. *)
Definition lengths_msg : string := "Lengths must match to compare".
Definition invalid_msg : string := "Invalid comparison".

(** Element by element comparison against a list of the same length. *)
Fixpoint zip_with {A B C : Type} (f : A -> B -> C) (l : list A)
  (m : list B) : list C :=
  match l, m with
  | a :: l', b :: m' => f a b :: zip_with f l' m'
  | _, _ => []
  end.

(** [series == v].  [None] equals no value; a scalar is compared element
    by element (a string equals no number); a tuple is compared as one
    object with each value and equals none of them; a list is turned into
    an array, which must have the length of the series and is compared
    element by element when it holds numbers only (on a numeric column an
    array of strings equals no number). *)
Definition series_eq (col : list cell) (v : spec)
  : outcome (list bool) :=
  match v with
  | SpNone => Return (map (fun _ => false) col)
  | SpScalar s => Return (map (cell_eq_scalar s) col)
  | SpTuple _ => Return (map (fun _ => false) col)
  | SpList l =>
      if negb (Nat.eqb (List.length l) (List.length col))
      then Raise (ValueError lengths_msg)
      else if forallb is_int l
           then Return (zip_with (fun c s => cell_eq_scalar s c) col l)
           else Return (map (fun _ => false) col)
  end.

(** [series >= v] and [series <= v] on a numeric column: ordering a number
    against a string is a [TypeError].  The loop asks for neither [None]
    (the guards [is not None]) nor a tuple ([parse_range] hands back none),
    and for a list only in [series_eq]. *)
Definition series_cmp (op : Z -> cell -> bool) (col : list cell) (v : spec)
  : outcome (list bool) :=
  match v with
  | SpNone => Return (map (fun _ => false) col)
  | SpScalar (SInt z) => Return (map (op z) col)
  | SpScalar (SStr _) => Raise (TypeError invalid_msg)
  | SpTuple _ => Raise (TypeError invalid_msg)
  | SpList l =>
      if negb (Nat.eqb (List.length l) (List.length col))
      then Raise (ValueError lengths_msg)
      else if forallb is_int l
           then Return (zip_with
                          (fun c s => match s with
                                      | SInt z => op z c
                                      | SStr _ => false
                                      end) col l)
           else Raise (TypeError invalid_msg)
  end.

Definition series_ge := series_cmp cell_ge.
Definition series_le := series_cmp cell_le.

(** [series.isin(l)] *)
Definition isin (col : list cell) (l : list scalar) : list bool :=
  map (fun c => existsb (fun s => cell_eq_scalar s c) l) col.

(** What [series.str.match] and [series.str.contains] do with [na=False]
    once the pattern is compiled: a value that is no string gives
    [False]. *)
Definition str_map (f : string -> bool) (col : list cell) : list bool :=
  map (fun c => match c with
                | Str s => f s
                | _ => false
                end) col.

Definition str_accessor_msg : string :=
  "Can only use .str accessor with string values!".

Section StringMethods.

Variable re_beyond : string -> bool -> option Re.pattern.

(** [series.str.match(pat, case=case, na=False)]: the accessor [.str]
    exists on object columns only; the pattern is compiled with
    [re.IGNORECASE] when [case] is off and matched at the beginning of
    each value. *)
Definition str_match (dt : dtype) (col : list cell) (pat : string)
  (case : bool) : outcome (list bool) :=
  match dt with
  | Numeric => Raise (AttributeError str_accessor_msg)
  | Object =>
      match Re.compile re_beyond pat (negb case) with
      | None => Raise ReError
      | Some p => Return (str_map (Re.re_match p) col)
      end
  end.

(** [series.str.contains(pat, case=case, na=False)]: [regex=True] is the
    default, so [pat] is compiled as a regular expression and searched
    for in each value. *)
Definition str_contains (dt : dtype) (col : list cell) (pat : string)
  (case : bool) : outcome (list bool) :=
  match dt with
  | Numeric => Raise (AttributeError str_accessor_msg)
  | Object =>
      match Re.compile re_beyond pat (negb case) with
      | None => Raise ReError
      | Some p => Return (str_map (Re.re_search p) col)
      end
  end.

End StringMethods.

(** A value taken out of a column, as the right-hand side of [==]. *)
Definition cell_value (c : cell) : spec :=
  match c with
  | NA => SpNone
  | Num n => SpScalar (SInt n)
  | Str s => SpScalar (SStr s)
  end.

(** [random.choice(seq)] with the draw [rnd]. *)
Definition choice (rnd : nat) (seq : list cell) : outcome cell :=
  match seq with
  | [] => Raise IndexError
  | _ => Return (nth (rnd mod List.length seq) seq NA)
  end.

End Pandas.

Import Pandas.

(* ================================================================= *)
(** ** The predicate filter

    The body of the loop over the keyword arguments is the same text in
    [get_random.py] (lines 92-115, with [parse_range] at 54-81) and in
    [search.py] (lines 109-132, with [parse_range] at 58-74). *)

Module Filter.

Definition is_none (v : spec) : bool :=
  match v with
  | SpNone => true
  | _ => false
  end.

(** An element of a tuple as a value of its own. *)
Definition elem (x : option scalar) : spec :=
  match x with
  | None => SpNone
  | Some v => SpScalar v
  end.

Fixpoint list_eq {A : Type} (eq : A -> A -> bool) (l m : list A) : bool :=
  match l, m with
  | [], [] => true
  | a :: l', b :: m' => eq a b && list_eq eq l' m'
  | _, _ => false
  end.

Definition opt_scalar_eq (a b : option scalar) : bool :=
  match a, b with
  | None, None => true
  | Some x, Some y => scalar_eq x y
  | _, _ => false
  end.

(** Python's [==] on two spec values. *)
Definition py_eq (a b : spec) : bool :=
  match a, b with
  | SpNone, SpNone => true
  | SpScalar x, SpScalar y => scalar_eq x y
  | SpTuple t, SpTuple u => list_eq opt_scalar_eq t u
  | SpList l, SpList m => list_eq scalar_eq l m
  | _, _ => false
  end.

(** [parse_range]: [None]; a number; a tuple of length 0, 1, 2 or more; and
    anything else (a string, a list) as an exact value. *)
Definition parse_range (range_input : spec) : spec * spec :=
  match range_input with
  | SpNone => (SpNone, SpNone)
  | SpScalar (SInt _) => (range_input, range_input)
  | SpTuple [] => (SpNone, SpNone)
  | SpTuple [a] => (elem a, SpNone)
  | SpTuple (a :: b :: _) => (elem a, elem b)
  | _ => (range_input, range_input)
  end.

Definition set_rows (df : DataFrame) (rs : list row) : DataFrame :=
  mkDF (columns df) rs.

(** [filtered_df[mask]] for a mask that may have raised. *)
Definition select (filtered_df : DataFrame) (mask : outcome (list bool))
  : outcome DataFrame :=
  m <- mask ;;
  Return (set_rows filtered_df (boolean_index (rows filtered_df) m)).

(** The numeric branch. *)
Definition filter_numeric (key : string) (value : spec)
  (filtered_df : DataFrame) : outcome DataFrame :=
  let (min_val, max_val) := parse_range value in
  if negb (is_none min_val) && negb (is_none max_val)
     && py_eq min_val max_val
  then select filtered_df
              (series_eq (column key (rows filtered_df)) min_val)
  else
    filtered_df1 <-
      (if negb (is_none min_val)
       then select filtered_df
                   (series_ge (column key (rows filtered_df)) min_val)
       else Return filtered_df) ;;
    if negb (is_none max_val)
    then select filtered_df1
                (series_le (column key (rows filtered_df1)) max_val)
    else Return filtered_df1.

(** The string/object branch. *)
Definition filter_object (key : string) (value : spec)
  (filtered_df : DataFrame) : outcome DataFrame :=
  match value with
  | SpList l =>
      Return (set_rows filtered_df
                (boolean_index (rows filtered_df)
                   (isin (column key (rows filtered_df)) l)))
  | _ => select filtered_df
                (series_eq (column key (rows filtered_df)) value)
  end.

(** One turn of the loop for a column that exists: the dtype is read from
    [df], the rows are taken from [filtered_df]. *)
Definition apply_spec (df : DataFrame) (key : string) (value : spec)
  (filtered_df : DataFrame) : outcome DataFrame :=
  match dtype_of df key with
  | Numeric => filter_numeric key value filtered_df
  | Object => filter_object key value filtered_df
  end.

End Filter.

(** What the two functions hand back. *)
Inductive result : Type :=
| RNone                                     (* [None] *)
| ROne (conv : cell)                        (* one group key *)
| RAll (convs : list cell)                  (* a list of group keys *)
| RPair (conv : cell) (turns : list cell).  (* a group key and its turns *)

(* ================================================================= *)
(** ** [get_random.py] *)

Module GetRandom.

Import Filter.

(** [for key, value in kwargs.items()], lines 87-115. *)
Fixpoint filter_loop (df : DataFrame) (kwargs : list (string * spec))
  (filtered_df : DataFrame) : outcome DataFrame :=
  match kwargs with
  | [] => Return filtered_df
  | (key, value) :: rest =>
      if negb (has_column df key) then filter_loop df rest filtered_df
      else
        filtered_df' <- apply_spec df key value filtered_df ;;
        filter_loop df rest filtered_df'
  end.

(** [filtered_df[conv_id_colname].unique()] *)
Definition unique_convs (filtered_df : DataFrame) (conv_id_colname : string)
  : outcome (list cell) :=
  if has_column filtered_df conv_id_colname
  then Return (unique (column conv_id_colname (rows filtered_df)))
  else Raise (KeyError conv_id_colname).

Definition filter_subset (df : DataFrame) (return_all : bool)
  (conv_id_colname : string) (rnd : nat) (kwargs : list (string * spec))
  : outcome result :=
  filtered_df <- filter_loop df kwargs (copy df) ;;
  if empty filtered_df then Return RNone
  else
    convs <- unique_convs filtered_df conv_id_colname ;;
    if return_all then Return (RAll convs)
    else
      conv <- choice rnd convs ;;
      Return (ROne conv).

End GetRandom.

(* ================================================================= *)
(** ** [search.py] *)

Module Search.

Import Filter.

Definition required_columns : list string :=
  ["message"; "conv_id"; "turn_num"].

Definition missing_msg : string :=
  ("DataFrame is missing one or more required columns: "
   ++ PyStr.repr_list required_columns)%string.

Definition warning_msg (key : string) : string :=
  ("Column '" ++ key
   ++ "' not found in DataFrame. This filter will be ignored.")%string.

(** [for key, value in kwargs.items()], lines 103-132: the warnings issued
    and how the loop ends. *)
Fixpoint filter_loop (df : DataFrame) (kwargs : list (string * spec))
  (filtered_df : DataFrame) : list string * outcome DataFrame :=
  match kwargs with
  | [] => ([], Return filtered_df)
  | (key, value) :: rest =>
      if negb (has_column df key) then
        let (warned, r) := filter_loop df rest filtered_df in
        (warning_msg key :: warned, r)
      else
        match apply_spec df key value filtered_df with
        | Return filtered_df' => filter_loop df rest filtered_df'
        | Raise e => ([], Raise e)
        end
  end.

Section WithRe.

Variable re_beyond : string -> bool -> option Re.pattern.

(** Lines 85-100: the mask of the text match. *)
Definition text_mask (filtered_df : DataFrame) (text : string)
  (case_sensitive from_start : bool) : outcome (list bool) :=
  let message := column "message" (rows filtered_df) in
  let dt := dtype_of filtered_df "message" in
  if from_start then
    let pattern := ("^" ++ Re.escape text)%string in
    str_match re_beyond dt message pattern case_sensitive
  else
    str_contains re_beyond dt message text case_sensitive.

Definition text_stage (filtered_df : DataFrame) (text : string)
  (case_sensitive from_start : bool) : outcome DataFrame :=
  select filtered_df
         (text_mask filtered_df text case_sensitive from_start).

(** Lines 134-152. *)
Definition conclude (filtered_df : DataFrame) (return_all : bool)
  (rnd : nat) : outcome result :=
  if empty filtered_df then Return RNone
  else
    let unique_convs := unique (column "conv_id" (rows filtered_df)) in
    if return_all then Return (RAll unique_convs)
    else
      random_conv <- choice rnd unique_convs ;;
      matching <-
        select filtered_df
          (series_eq (column "conv_id" (rows filtered_df))
                     (cell_value random_conv)) ;;
      Return (RPair random_conv (column "turn_num" (rows matching))).

(** The warnings issued and the outcome of the call. *)
Definition search_text_matches (df : DataFrame) (text : string)
  (case_sensitive from_start return_all : bool) (rnd : nat)
  (kwargs : list (string * spec)) : list string * outcome result :=
  if negb (forallb (has_column df) required_columns)
  then ([], Raise (ValueError missing_msg))
  else
    match text_stage (copy df) text case_sensitive from_start with
    | Raise e => ([], Raise e)
    | Return filtered_df =>
        let (warned, r) := filter_loop df kwargs filtered_df in
        (warned, filtered_df' <- r ;; conclude filtered_df' return_all rnd)
    end.

End WithRe.

End Search.

(* ================================================================= *)
(** ** The sampler over a store of frames

    [df.copy()] and every indexing expression [filtered_df[mask]] build a new
    frame; the local variable [filtered_df] is rebound to it.  A frame is an
    object of the store, a variable holds a reference; the store keeps the
    copy and the frame that each filtering turn of the loop ends with. *)

Module Store.

Definition heap : Type := list DataFrame.
Definition ref : Type := nat.

Definition deref (h : heap) (p : ref) : DataFrame :=
  nth p h (mkDF [] []).

Definition alloc (h : heap) (d : DataFrame) : heap * ref :=
  (h ++ [d], List.length h).

Import Filter.

Fixpoint filter_loop (h : heap) (df : ref) (kwargs : list (string * spec))
  (filtered_df : ref) : heap * outcome ref :=
  match kwargs with
  | [] => (h, Return filtered_df)
  | (key, value) :: rest =>
      if negb (has_column (deref h df) key)
      then filter_loop h df rest filtered_df
      else
        match apply_spec (deref h df) key value (deref h filtered_df) with
        | Return d =>
            let (h', filtered_df') := alloc h d in
            filter_loop h' df rest filtered_df'
        | Raise e => (h, Raise e)
        end
  end.

Definition filter_subset (h : heap) (df : ref) (return_all : bool)
  (conv_id_colname : string) (rnd : nat) (kwargs : list (string * spec))
  : heap * outcome result :=
  let (h0, filtered_df) := alloc h (copy (deref h df)) in
  let (h1, r) := filter_loop h0 df kwargs filtered_df in
  (h1,
   p <- r ;;
   if empty (deref h1 p) then Return RNone
   else
     convs <- GetRandom.unique_convs (deref h1 p) conv_id_colname ;;
     if return_all then Return (RAll convs)
     else
       conv <- choice rnd convs ;;
       Return (ROne conv)).

End Store.

(* ================================================================= *)
(** ** Vocabulary of the statements *)

(** [l] is [m] with some elements left out, the others in their order. *)
Inductive sublist {A : Type} : list A -> list A -> Prop :=
| sublist_nil : sublist [] []
| sublist_skip : forall x l m, sublist l m -> sublist l (x :: m)
| sublist_keep : forall x l m, sublist l m -> sublist (x :: l) (x :: m).

(** The entries of a filter set whose column the frame has, and the keys of
    the others. *)
Definition known (df : DataFrame) (kwargs : list (string * spec))
  : list (string * spec) :=
  filter (fun kv => has_column df (fst kv)) kwargs.

Definition unknown_keys (df : DataFrame) (kwargs : list (string * spec))
  : list string :=
  map fst (filter (fun kv => negb (has_column df (fst kv))) kwargs).

(** An error message names a column when it holds the column's [repr]. *)
Definition mentions (msg name : string) : bool :=
  PyStr.contains (PyStr.repr_str name) msg.

(** A bound of a numeric range that is a number or absent. *)
Definition bound_ok (b : option scalar) : bool :=
  match b with
  | None => true
  | Some v => is_int v
  end.

(** A spec for a numeric column that is [None], a scalar, or a tuple whose
    first two elements are numbers or [None]. *)
Definition numeric_spec_ok (value : spec) : bool :=
  match value with
  | SpNone => true
  | SpScalar _ => true
  | SpTuple t => forallb bound_ok (firstn 2 t)
  | SpList _ => false
  end.

Definition entry_ok (df : DataFrame) (kv : string * spec) : bool :=
  match lookup (fst kv) (columns df) with
  | Some Numeric => numeric_spec_ok (snd kv)
  | _ => true
  end.

Definition kwargs_ok (df : DataFrame) (kwargs : list (string * spec)) : bool :=
  forallb (entry_ok df) kwargs.

(** A spec value as a bare value: [None] or a scalar. *)
Definition bare (v : option scalar) : spec := Filter.elem v.

(** The cell that equals a scalar. *)
Definition scalar_cell (v : scalar) : cell :=
  match v with
  | SInt z => Num z
  | SStr s => Str s
  end.

(** Case folding of the statements: [str.lower] unless the comparison is
    case sensitive. *)
Definition fold_case (case_sensitive : bool) (s : string) : string :=
  if case_sensitive then s else PyStr.lower s.

(** The text of row [r] begins with [text], resp. holds it somewhere. *)
Definition begins_with (case_sensitive : bool) (text : string) (c : cell)
  : Prop :=
  exists s rest, c = Str s
    /\ fold_case case_sensitive s
       = (fold_case case_sensitive text ++ rest)%string.

Definition holds (case_sensitive : bool) (text : string) (c : cell) : Prop :=
  exists s before rest, c = Str s
    /\ fold_case case_sensitive s
       = (before ++ fold_case case_sensitive text ++ rest)%string.

(** The same two tests as functions. *)
Definition begins_withb (case_sensitive : bool) (text : string) (c : cell)
  : bool :=
  match c with
  | Str s => PyStr.startswith (fold_case case_sensitive text)
                              (fold_case case_sensitive s)
  | _ => false
  end.

Definition holdsb (case_sensitive : bool) (text : string) (c : cell) : bool :=
  match c with
  | Str s => PyStr.contains (fold_case case_sensitive text)
                            (fold_case case_sensitive s)
  | _ => false
  end.


(** The errors of a comparison. *)
Definition comparison_error (e : exn) : Prop :=
  e = ValueError lengths_msg \/ e = TypeError invalid_msg.

(** The rows of a group, as [series == conv] picks them: a missing key
    equals nothing, itself included. *)
Definition in_group (conv : cell) (r : row) : bool :=
  match cell_value conv with
  | SpScalar v => cell_eq_scalar v (get "conv_id" r)
  | _ => false
  end.

(** The pattern that matches [text] character by character. *)
Definition lits (text : string) : list Re.atom :=
  map Re.Lit (list_ascii_of_string text).

(** ** Frames of the examples *)

Module Examples.

(** No pattern outside the fragment compiles. *)
Definition no_re : string -> bool -> option Re.pattern := fun _ _ => None.

Definition schema : list (string * dtype) :=
  [("conv_id", Object); ("message", Object); ("turn_num", Numeric);
   ("turns", Numeric); ("role", Object)].

Definition mk (i : Z) (conv msg : cell) (turn turns : Z) (role : string)
  : row :=
  mkRow i [("conv_id", conv); ("message", msg); ("turn_num", Num turn);
           ("turns", Num turns); ("role", Str role)].

Definition row0 := mk 0 (Str "a") (Str "I like Python") 0 3 "user".
Definition row1 := mk 1 (Str "b") (Str "no match") 0 10 "assistant".
Definition row2 := mk 2 (Str "b") (Str "abc") 1 10 "user".
Definition row3 := mk 3 (Str "c") NA 0 1 "user".

Definition chats : DataFrame := mkDF schema [row0; row1; row2; row3].

(** Greetings, for the prefix search. *)
Definition greetings : DataFrame :=
  mkDF schema
    [mk 0 (Str "a") (Str "Hi there") 0 1 "user";
     mk 1 (Str "b") (Str "oh Hi") 0 1 "user";
     mk 2 (Str "c") (Str "hi there") 0 1 "user"].

(** A frame without the column [turn_num]. *)
Definition no_turn_num : DataFrame :=
  mkDF [("message", Object); ("conv_id", Object)]
    [mkRow 0 [("message", Str "hello"); ("conv_id", Str "a")]].


(** A frame in which one message has no group key. *)
Definition orphan : DataFrame :=
  mkDF schema [mk 0 NA (Str "hi") 0 1 "user"].

End Examples.

(* ================================================================= *)
(** ** Vocabulary of the further statements *)

From Stdlib Require Import Permutation.

(** A number within two bounds, each of which may be absent; without a
    bound every value is within. *)
Definition within (lo hi : option Z) (c : cell) : bool :=
  match lo, hi with
  | None, None => true
  | _, _ =>
      match c with
      | Num n =>
          match lo with Some l => Z.leb l n | None => true end
          && match hi with Some h => Z.leb n h | None => true end
      | _ => false
      end
  end.

(** A bound of a range as an element of a tuple. *)
Definition bound (b : option Z) : option scalar := option_map SInt b.

(** What one entry of a filter set does to one row: the turn of the loop
    run on the frame that holds this row only. *)
Definition keeps (df : DataFrame) (kv : string * spec) (r : row) : bool :=
  if has_column df (fst kv) then
    match Filter.apply_spec df (fst kv) (snd kv) (mkDF (columns df) [r]) with
    | Return g => negb (Nat.eqb (List.length (rows g)) 0)
    | Raise _ => false
    end
  else true.

Definition keeps_all (df : DataFrame) (kwargs : list (string * spec))
  (r : row) : bool :=
  forallb (fun kv => keeps df kv r) kwargs.

(** The group key of what the search hands back, as the sampler hands it
    back. *)
Definition key_only (v : result) : result :=
  match v with
  | RPair conv _ => ROne conv
  | other => other
  end.


(** The rows of a frame that a test keeps, as a frame. *)
Definition restrict (df : DataFrame) (p : row -> bool) : DataFrame :=
  Filter.set_rows df (filter p (rows df)).

(** A value that is one of the scalars of a list. *)
Definition member (l : list scalar) (c : cell) : bool :=
  existsb (fun x => cell_eq_scalar x c) l.


(* ================================================================= *)
(** ** [visualize.py]

    [format_duration] is modelled on whole numbers of seconds: [//] and [%]
    are the floor division and the remainder of Python, which are [Z.div]
    and [Z.modulo]; [int] is then the identity.  Time stamps are whole
    seconds as well.  What the libraries do that the module calls
    ([base64], [json], [markdown], [pd.to_datetime], [pd.json_normalize],
    the expansion of a replacement template of [re.sub] that holds a
    backslash, the printing of a number of a frame) is a parameter of the
    functions that call them, and the statements hold whatever these
    parameters are. *)

From Stdlib Require Import DecimalString DecimalZ DecimalPos.

Module Visualize.

Definition dq : string := String (ascii_of_nat 34) "".

(** An f-string: its pieces, one after the other. *)
Fixpoint cat (pieces : list string) : string :=
  match pieces with
  | [] => ""
  | piece :: rest => (piece ++ cat rest)%string
  end.

(** [str(n)] for an integer: the decimal digits, a minus sign in front of a
    negative number. *)
Definition str_int (n : Z) : string :=
  NilZero.string_of_int (Z.to_int n).

(** [duration_parts.append(...)] under the test [n > 0]. *)
Definition append_part (duration_parts : list string) (n : Z)
  (suffix : string) : list string :=
  if Z.ltb 0 n then duration_parts ++ [(str_int n ++ suffix)%string]
  else duration_parts.

(** Lines 10-31, for a whole number of seconds, where [int] is the
    identity.  A number of seconds with a fraction, which the float of
    [total_seconds()] can be, is outside the model. *)
Definition format_duration (seconds : Z) : string :=
  let days := seconds / 86400 in
  let seconds := seconds mod 86400 in
  let hours := seconds / 3600 in
  let seconds := seconds mod 3600 in
  let minutes := seconds / 60 in
  let seconds := seconds mod 60 in
  let duration_parts := [] in
  let duration_parts := append_part duration_parts days "d" in
  let duration_parts := append_part duration_parts hours "h" in
  let duration_parts := append_part duration_parts minutes "m" in
  let duration_parts := append_part duration_parts seconds "s" in
  PyStr.join ", " duration_parts.

(** *** Errors *)

Inductive error : Type :=
| Builtin (e : exn)
| OSError (path : string)         (* a file that cannot be opened *)
| LibraryError (what : string).   (* an error raised inside a library *)

Inductive res (A : Type) : Type :=
| Ok (a : A)
| Err (e : error).

Arguments Ok {A} a.
Arguments Err {A} e.

Definition bindr {A B : Type} (m : res A) (k : A -> res B) : res B :=
  match m with
  | Ok a => k a
  | Err e => Err e
  end.

Notation "x <~ m ;; k" := (bindr m (fun x => k))
  (at level 61, m at next level, right associativity).

Definition lift {A : Type} (m : outcome A) : res A :=
  match m with
  | Return a => Ok a
  | Raise e => Err (Builtin e)
  end.

Definition nan_msg : string := "cannot convert float NaN to integer".

(** [format_duration((a - b).total_seconds())] for two time stamps, [None]
    standing for [NaT]: the difference with [NaT] is NaN, on which [int]
    raises. *)
Definition duration_between (a b : option Z) : res string :=
  match a, b with
  | Some x, Some y => Ok (format_duration (x - y))
  | _, _ => Err (Builtin (ValueError nan_msg))
  end.

(** *** Values of a conversation frame *)

Inductive value : Type :=
| VNone
| VNaN
| VBool (b : bool)
| VInt (z : Z)
| VStr (s : string).

(** [bool(v)] *)
Definition truthy (v : value) : bool :=
  match v with
  | VNone => false
  | VNaN => true
  | VBool b => b
  | VInt z => negb (Z.eqb z 0)
  | VStr s => negb (String.eqb s "")
  end.

(** [role == 'assistant'] *)
Definition is_assistant (role : value) : bool :=
  match role with
  | VStr s => String.eqb s "assistant"
  | _ => false
  end.

(** A conversation as [pd.json_normalize] hands it over: the columns, and
    the rows in their order, which have their positions 0, 1, ... for
    labels. *)
Record ConvFrame : Type := mkConv {
  conv_columns : list string;
  conv_rows : list (list (string * value))
}.

Definition in_columns (conv : ConvFrame) (key : string) : bool :=
  existsb (String.eqb key) (conv_columns conv).

(** The value of a row under a column of the frame. *)
Definition at_key (r : list (string * value)) (key : string) : value :=
  match lookup key r with
  | Some v => v
  | None => VNaN
  end.

(** [row[key]] *)
Definition item (conv : ConvFrame) (r : list (string * value))
  (key : string) : res value :=
  if in_columns conv key then Ok (at_key r key)
  else Err (Builtin (KeyError key)).

(** [row.get(key)] and [row.get(key, None)] *)
Definition get_or_none (conv : ConvFrame) (r : list (string * value))
  (key : string) : value :=
  if in_columns conv key then at_key r key else VNone.

(** [s.replace(old, new)] for a one-character [old]. *)
Fixpoint replace_char (old : ascii) (new : string) (s : string) : string :=
  match s with
  | EmptyString => EmptyString
  | String c s' =>
      if Ascii.eqb c old then (new ++ replace_char old new s')%string
      else String c (replace_char old new s')
  end.

(** [s.replace(old, new)] for an [old] that is not empty: the occurrences
    of [old] from left to right, none overlapping another; [skip] counts
    the characters of an occurrence that are still to be passed. *)
Fixpoint replace_from (old new : string) (skip : nat) (s : string)
  : string :=
  match s with
  | EmptyString => EmptyString
  | String c s' =>
      match skip with
      | S k => replace_from old new k s'
      | O =>
          if PyStr.startswith old s
          then (new ++ replace_from old new (String.length old - 1) s')%string
          else String c (replace_from old new 0 s')
      end
  end.

Definition replace (old new s : string) : string :=
  replace_from old new 0 s.

(** The pattern [re.escape(phrase)], which is in the fragment. *)
Definition escaped (phrase : string) : list Re.atom :=
  match Re.parse (Re.escape phrase) with
  | Re.Parsed r => r
  | _ => []
  end.

(** [re.search(re.escape(phrase), message, re.IGNORECASE)] is not [None]. *)
Definition found (phrase message : string) : bool :=
  Re.search_from true (escaped phrase) true message.

(** [re.sub] for a pattern of single characters and a replacement that is
    expanded already: the matches from left to right, none overlapping
    another. *)
Fixpoint sub_from (r : list Re.atom) (new : string) (skip : nat)
  (s : string) : string :=
  match s with
  | EmptyString => EmptyString
  | String c s' =>
      match skip with
      | S k => sub_from r new k s'
      | O =>
          if Re.match_here true r false s
          then (new ++ sub_from r new (List.length r - 1) s')%string
          else String c (sub_from r new 0 s')
      end
  end.

Definition has_backslash (s : string) : bool :=
  existsb (Ascii.eqb Re.backslash) (list_ascii_of_string s).

(** A search phrase that is given: neither [None] nor empty. *)
Definition given (search_phrase : option string) : option string :=
  match search_phrase with
  | Some p => if String.eqb p "" then None else Some p
  | None => None
  end.

(** *** The texts *)

Definition assistant_avatar_path : string :=
  "/content/drive/MyDrive/Lab rotation 1/avatars/avatar-chatgpt.svg".
Definition user_avatar_path : string :=
  "/content/drive/MyDrive/Lab rotation 1/avatars/avatar-human.svg".

Definition toxic_span : string :=
  "<span style='color: red; font-weight: bold; float: right;'>(TOXIC)</span>".
Definition pii_span : string :=
  "<span style='color: orange; font-weight: bold; float: right;'>(PII)</span>".

Definition red_border : string := "border: 2px solid red;".

Definition not_found_html : string := "<p>No conversation found.</p>".

(** Lines 216 and 222. *)
Definition avatar_img (avatar_base64 : string) : string :=
  cat ["<img src=";
  dq;
  avatar_base64;
  dq;
  " style=";
  dq;
  "width: 40px; height: 40px; margin-right: 10px; border-radius: 50%;";
  dq;
  ">"].

(** Line 217. *)
Definition timing_div (timing_info : string) : string :=
  cat ["<div style='font-size: 0.8em; color: #a0a0a0;'>";
  timing_info;
  "</div>"].

(** Line 192. *)
Definition language_div (language : string) : string :=
  cat ["<div style='text-align: center; color: #FFD700; font-weight: bold;'>";
  language;
  "</div>"].

(** Line 202: the replacement handed to [re.sub]. *)
Definition strong (search_phrase : string) : string :=
  cat ["<strong style='color: red;'>";
  search_phrase;
  "</strong>"].

(** Lines 228-239. *)
Definition bubble (bubble_class turn_number avatar_html bubble_color
  border_style timing_html language_label flags message_html : string)
  : string :=
  cat ["
        <div class=";
  dq;
  bubble_class;
  " clearfix";
  dq;
  " style=";
  dq;
  "display: flex; align-items: flex-start; margin-bottom: 10px;";
  dq;
  ">
            <div style=";
  dq;
  "margin-right: 10px; font-weight: bold;";
  dq;
  ">";
  turn_number;
  "</div>
            ";
  avatar_html;
  "
            <div class=";
  dq;
  "message";
  dq;
  " style=";
  dq;
  "background-color: ";
  bubble_color;
  "; color: #ececec; padding: 15px; border-radius: 10px; flex-grow: 0; width: auto; max-width: 60%; font-family: sans-serif; line-height: 1.6; word-wrap: break-word; ";
  border_style;
  dq;
  ">
                ";
  timing_html;
  "
                ";
  language_label;
  "
                <p style=";
  dq;
  "margin: 0; padding: 0;";
  dq;
  ">";
  flags;
  "</p>
                <div style=";
  dq;
  "margin: 0; padding: 5px 0;";
  dq;
  ">";
  message_html;
  "</div>
            </div>
        </div>
        "].

(** Lines 82-86 and 91-93. *)
Definition common_text (conv_id user_id user_freq model : string) : string :=
  cat ["
    <p><b>Conversation ID:</b> ";
  conv_id;
  "</p>
    <p><b>User ID:</b> ";
  user_id;
  " (";
  user_freq;
  " conversations)</p>
    <p><b>Model:</b> ";
  model;
  "</p>
    "].

Definition search_text (search_phrase search_count turn_numbers : string)
  : string :=
  cat ["
        <p><b>Number of messages with ";
  dq;
  search_phrase;
  dq;
  ":</b> ";
  search_count;
  " (Turns ";
  turn_numbers;
  ")</p>
        "].

(** Lines 101 and 119, 132. *)
Definition turns_wc (turns code_turns toxic_turns redacted_turns : string)
  : string :=
  cat [turns;
  " (<span style='color:#C678DD;'>";
  code_turns;
  " code</span>, <span style='color:red;'>";
  toxic_turns;
  " toxic</span>, <span style='color:orange;'>";
  redacted_turns;
  " redacted</span>)"].

Definition turns_plain (turns code_turns : string) : string :=
  cat [turns;
  " (<span style='color:#C678DD;'>";
  code_turns;
  " code</span>)"].

(** Lines 104, 120, 133. *)
Definition languages_text (n_languages language : string) : string :=
  cat [n_languages;
  " (";
  language;
  ")"].

(** Lines 107-117, 122-130 and 135-142. *)
Definition details_wc (common_metadata turns_info languages_str time_first
  time_last duration_str : string) : string :=
  cat ["
        <div style=";
  dq;
  "background-color: #1e1e1e; color: #ececec; padding: 10px; border-radius: 5px; margin-bottom: 10px; font-family: sans-serif;";
  dq;
  ">
            <h1 style=";
  dq;
  "font-size: 1.5em; margin-bottom: 10px;";
  dq;
  ">Conversation Details</h1>
            ";
  common_metadata;
  "
            <p><b>Turns:</b> ";
  turns_info;
  "</p>
            <p><b>Languages:</b> ";
  languages_str;
  "</p>
            <p><b>Start:</b> ";
  time_first;
  "</p>
            <p><b>End:</b> ";
  time_last;
  "</p>
            <p><b>Duration:</b> ";
  duration_str;
  "</p>
        </div>
        "].

Definition details_sg (common_metadata turns_info languages_str views
  : string) : string :=
  cat ["
        <div style=";
  dq;
  "background-color: #1e1e1e; color: #ececec; padding: 10px; border-radius: 5px; margin-bottom: 10px; font-family: sans-serif;";
  dq;
  ">
            <h1 style=";
  dq;
  "font-size: 1.5em; margin-bottom: 10px;";
  dq;
  ">Conversation Details</h1>
            ";
  common_metadata;
  "
            <p><b>Turns:</b> ";
  turns_info;
  "</p>
            <p><b>Languages:</b> ";
  languages_str;
  "</p>
            <p><b>Views:</b> ";
  views;
  "</p>
        </div>
        "].

Definition details_other (common_metadata turns_info languages_str : string)
  : string :=
  cat ["
        <div style=";
  dq;
  "background-color: #1e1e1e; color: #ececec; padding: 10px; border-radius: 5px; margin-bottom: 10px; font-family: sans-serif;";
  dq;
  ">
            <h1 style=";
  dq;
  "font-size: 1.5em; margin-bottom: 10px;";
  dq;
  ">Conversation Details</h1>
            ";
  common_metadata;
  "
            <p><b>Turns:</b> ";
  turns_info;
  "</p>
            <p><b>Languages:</b> ";
  languages_str;
  "</p>
        </div>
        "].

(** Lines 282-334. *)
Definition page (info_html chat_html : string) : string :=
  cat ["
    <html>
    <head>
        <style>
            body {
                background-color: #2A2A2A;
                color: #ececec;
                font-family: sans-serif;
            }
            table {
                width: 100%;
                border-collapse: collapse;
            }
            table, th, td {
                border: 1px solid #7f8082;
            }
            th, td {
                padding: 8px;
                text-align: left;
                color: #ececec;
            }
            th {
                background-color: #3E3F4B;
            }
            td {
                background-color: #2C2C2F;
            }
            pre {
                background-color: #000000;
                padding: 10px;
                border-radius: 5px;
                color: #ececec;
                font-family: monospace;
                white-space: pre-wrap;
                margin: 0; /* Remove extra margins */
            }
            code {
                color: #ececec;
                font-family: monospace;
                padding: 2px 4px;
                border-radius: 4px;
                white-space: pre-wrap;
                margin: 0; /* Remove extra margins */
                font-weight: bold;
            }
        </style>
    </head>
    <body>
        ";
  info_html;
  "
        <div class='conversation'>";
  chat_html;
  "</div>
    </body>
    </html>
    "].

(** *** The table of conversations *)

(** What a cell of the column [conversation] holds: a text, a list of
    turns (dicts), or something else. *)
Inductive conv_data : Type :=
| JText (s : string)
| JList (l : list (list (string * value)))
| JOther.

(** The table: the frame of its plain columns, and for the column
    [conversation], whose cells are nested, the cell of each row, found by
    the label of the row. *)
Record ChatTable : Type := mkChat {
  table : DataFrame;
  conversation_of : Z -> conv_data
}.

(** [str(conv_id)] for the [conv_id] that the caller passes. *)
Definition str_py (v : cell) : string :=
  match v with
  | NA => "None"
  | Num n => str_int n
  | Str s => s
  end.

(** [df[df['conv_id'] == conv_id]] *)
Definition rows_of (df : DataFrame) (conv_id : cell) : res DataFrame :=
  if has_column df "conv_id"
  then lift (Filter.select df
               (series_eq (column "conv_id" (rows df)) (cell_value conv_id)))
  else Err (Builtin (KeyError "conv_id")).

(** [row[key]] for a row of the table. *)
Definition row_item (df : DataFrame) (r : row) (key : string) : res cell :=
  if has_column df key then Ok (get key r)
  else Err (Builtin (KeyError key)).

(** [source == name] *)
Definition is_source (source : cell) (name : string) : bool :=
  cell_eq_scalar (SStr name) source.

(** What is shown and written by a call. *)
Record effects : Type := mkEffects {
  displayed : list string;             (* [display(HTML(...))] *)
  written : list (string * string);    (* a file opened for writing: its
                                          path and what it holds *)
  printed : list string                (* [print(...)] *)
}.

Definition no_effects : effects := mkEffects [] [] [].

Section Libraries.

(** The files that [open(path, 'rb')] finds, with their content, and
    [base64.b64encode(...).decode('utf-8')]. *)
Variable read_file : string -> option string.
Variable b64encode : string -> string.

(** Lines 33-40. *)
Definition svg_to_base64 (svg_path : string) : res string :=
  match read_file svg_path with
  | None => Err (OSError svg_path)
  | Some content =>
      let encoded_string := b64encode content in
      Ok (cat ["data:image/svg+xml;base64,";
  encoded_string])
  end.

(** [json.loads] and [pd.json_normalize]. *)
Variable json_loads : string -> res conv_data.
Variable json_normalize : list (list (string * value)) -> ConvFrame.

(** Lines 43-63. *)
Definition unpack_conversation (df : ChatTable) (conv_id : cell)
  : res ConvFrame :=
  row <~ rows_of (table df) conv_id ;;
  if empty row then
    Err (Builtin (ValueError (cat ["No conversation found with conv_id: ";
  str_py conv_id])))
  else
    match rows row with
    | [] => Err (Builtin IndexError)
    | first :: _ =>
        if negb (has_column row "conversation")
        then Err (Builtin (KeyError "conversation"))
        else
          conversation_data <~
            (match conversation_of df (label first) with
             | JText s => json_loads s
             | other => Ok other
             end) ;;
          match conversation_data with
          | JList l => Ok (json_normalize l)
          | _ =>
              Err (Builtin (ValueError (cat ["Unexpected data format in conversation for conv_id: ";
  str_py conv_id])))
          end
    end.

(** [pd.to_datetime] on a cell of the table, [None] standing for [NaT],
    and the text of a cell of the table that is no string, in an
    f-string. *)
Variable to_datetime_cell : cell -> res (option Z).
Variable format_cell : DataFrame -> string -> cell -> string.

(** [f"{row[key]}"] *)
Definition show (df : DataFrame) (key : string) (c : cell) : string :=
  match c with
  | Str s => s
  | _ => format_cell df key c
  end.

(** [row[key]], shown. *)
Definition shown (df : DataFrame) (r : row) (key : string) : res string :=
  c <~ row_item df r key ;; Ok (show df key c).

(** Lines 104, 120 and 133. *)
Definition languages_str (df : DataFrame) (r : row) : res string :=
  n_languages <~ row_item df r "n_languages" ;;
  if cell_eq_scalar (SInt 1) n_languages
  then shown df r "language"
  else
    language <~ shown df r "language" ;;
    Ok (languages_text (show df "n_languages" n_languages) language).

(** Lines 66-142. *)
Definition format_conversation_metadata (df : DataFrame) (conv_id : cell)
  (source : cell) (search_phrase : option string) (search_count : Z)
  (search_turns : list Z) : res string :=
  matching <~ rows_of df conv_id ;;
  match rows matching with
  | [] => Err (Builtin IndexError)
  | row :: _ =>
      user_id <~ shown df row "user_id" ;;
      user_freq <~ shown df row "user_freq" ;;
      model <~ shown df row "model" ;;
      let common_metadata :=
        common_text (str_py conv_id) user_id user_freq model in
      let common_metadata :=
        match given search_phrase with
        | Some phrase =>
            if Z.ltb 0 search_count then
              let turn_numbers :=
                PyStr.join ", " (map (fun t => str_int (t + 1)) search_turns)
              in
              (common_metadata
               ++ search_text phrase (str_int search_count) turn_numbers)%string
            else common_metadata
        | None => common_metadata
        end in
      if is_source source "wc" then
        time_last <~ row_item df row "time_last" ;;
        last <~ to_datetime_cell time_last ;;
        time_first <~ row_item df row "time_first" ;;
        first <~ to_datetime_cell time_first ;;
        duration_str <~ duration_between last first ;;
        turns <~ shown df row "turns" ;;
        code_turns <~ shown df row "code_turns" ;;
        toxic_turns <~ shown df row "toxic_turns" ;;
        redacted_turns <~ shown df row "redacted_turns" ;;
        let turns_info :=
          turns_wc turns code_turns toxic_turns redacted_turns in
        languages <~ languages_str df row ;;
        Ok (details_wc common_metadata turns_info languages
              (show df "time_first" time_first)
              (show df "time_last" time_last) duration_str)
      else if is_source source "sg" then
        turns <~ shown df row "turns" ;;
        code_turns <~ shown df row "code_turns" ;;
        let turns_info := turns_plain turns code_turns in
        languages <~ languages_str df row ;;
        views <~ shown df row "views" ;;
        Ok (details_sg common_metadata turns_info languages views)
      else
        turns <~ shown df row "turns" ;;
        code_turns <~ shown df row "code_turns" ;;
        let turns_info := turns_plain turns code_turns in
        languages <~ languages_str df row ;;
        Ok (details_other common_metadata turns_info languages)
  end.

(** [pd.to_datetime] on a value of a conversation, [markdown.markdown] with
    the two extensions, and the expansion by [re.sub] of a replacement that
    holds a backslash. *)
Variable to_datetime : value -> res (option Z).
Variable markdown : value -> res string.
Variable re_template : string -> res string.

(** The time stamps that the loop keeps: [None] before the first one. *)
Record clock : Type := mkClock {
  initial_timestamp : option (option Z);
  last_timestamp : option (option Z)
}.

(** Lines 176-183: the new clock and [timing_info]. *)
Definition timing (conv : ConvFrame) (r : list (string * value))
  (role : value) (now : clock) : res (clock * string) :=
  if is_assistant role && in_columns conv "timestamp" then
    current_timestamp <~ to_datetime (at_key r "timestamp") ;;
    match initial_timestamp now, last_timestamp now with
    | None, _ =>
        Ok (mkClock (Some current_timestamp) (Some current_timestamp), "")
    | Some initial, Some last =>
        text <~ duration_between current_timestamp last ;;
        Ok (mkClock (Some initial) (Some current_timestamp),
            cat [text;
  " since last turn"])
    | Some initial, None => Err (Builtin (TypeError "unsupported operand"))
    end
  else Ok (now, "").

(** Lines 185-187. *)
Definition flags_of (conv : ConvFrame) (r : list (string * value))
  : string :=
  let toxic := if truthy (get_or_none conv r "toxic") then toxic_span
               else "" in
  let pii := if truthy (get_or_none conv r "redacted") then pii_span
             else "" in
  PyStr.join " "
    (filter (fun s => negb (String.eqb s "")) [pii; toxic]).

Definition no_lower_msg : string := "object has no attribute 'lower'".
Definition no_replace_msg : string := "object has no attribute 'replace'".
Definition not_text_msg : string := "expected string or bytes-like object".

(** Lines 190-192. *)
Definition language_label_of (language : value) : res string :=
  if truthy language then
    match language with
    | VStr s =>
        if negb (String.eqb (PyStr.lower s) "english")
        then Ok (language_div s)
        else Ok ""
    | _ => Err (Builtin (AttributeError no_lower_msg))
    end
  else Ok "".

(** Lines 195-205: [contains_search] and the message, highlighted. *)
Definition highlight (search_phrase : option string) (message : value)
  : res (bool * value) :=
  match given search_phrase with
  | None => Ok (false, message)
  | Some phrase =>
      match message with
      | VStr text =>
          if found phrase text then
            new <~ (if has_backslash (strong phrase)
                    then re_template (strong phrase)
                    else Ok (strong phrase)) ;;
            Ok (true, VStr (sub_from (escaped phrase) new 0 text))
          else Ok (false, message)
      | _ => Err (Builtin (TypeError not_text_msg))
      end
  end.

(** Line 219. *)
Definition escape_text (message : string) : string :=
  replace_char Re.newline "<br>"
    (replace_char ">" "&gt;" (replace_char "<" "&lt;" message)).

(** One turn of the loop, lines 166-241: the new clock and [bubble_html]. *)
Definition turn (conv : ConvFrame) (source : cell)
  (search_phrase : option string)
  (assistant_avatar_base64 user_avatar_base64 : string) (now : clock)
  (turn_number : Z) (r : list (string * value)) : res (clock * string) :=
  role <~ item conv r "role" ;;
  message <~ item conv r "message" ;;
  let language := get_or_none conv r "language" in
  timed <~ (if is_source source "wc" then timing conv r role now
            else Ok (now, "")) ;;
  let (now', timing_info) := timed : clock * string in
  let flags := if is_source source "wc" then flags_of conv r else "" in
  language_label <~ language_label_of language ;;
  marked <~ highlight search_phrase message ;;
  let (contains_search, message) := marked : bool * value in
  let border_style := if contains_search then red_border else "" in
  if is_assistant role then
    message_html <~ markdown message ;;
    let timing_html :=
      if String.eqb timing_info "" then "" else timing_div timing_info in
    Ok (now',
        bubble "agent-turn" (str_int turn_number)
          (avatar_img assistant_avatar_base64) "#2A2A2A" border_style
          timing_html language_label flags message_html)
  else
    match message with
    | VStr text =>
        Ok (now',
            bubble "human-turn" (str_int turn_number)
              (avatar_img user_avatar_base64) "#474747" border_style
              "" language_label flags (escape_text text))
    | _ => Err (Builtin (AttributeError no_replace_msg))
    end.

(** [for idx, row in conversation_df.iterrows()]: the list [chat_html]. *)
Fixpoint turns_from (conv : ConvFrame) (source : cell)
  (search_phrase : option string)
  (assistant_avatar_base64 user_avatar_base64 : string) (now : clock)
  (turn_number : Z) (rs : list (list (string * value)))
  : res (list string) :=
  match rs with
  | [] => Ok []
  | r :: rest =>
      done <~ turn conv source search_phrase assistant_avatar_base64
                user_avatar_base64 now turn_number r ;;
      let (now', bubble_html) := done : clock * string in
      chat_html <~ turns_from conv source search_phrase
                     assistant_avatar_base64 user_avatar_base64 now'
                     (turn_number + 1) rest ;;
      Ok (bubble_html :: chat_html)
  end.

(** Lines 144-243: the bubbles, and their texts joined. *)
Definition chat_bubbles (conversation_df : ConvFrame) (source : cell)
  (search_phrase : option string) : res (list string) :=
  assistant_avatar_base64 <~ svg_to_base64 assistant_avatar_path ;;
  user_avatar_base64 <~ svg_to_base64 user_avatar_path ;;
  turns_from conversation_df source search_phrase assistant_avatar_base64
    user_avatar_base64 (mkClock None None) 1 (conv_rows conversation_df).

Definition generate_chat_bubbles (conversation_df : ConvFrame)
  (source : cell) (search_phrase : option string) : res string :=
  chat_html <~ chat_bubbles conversation_df source search_phrase ;;
  Ok (PyStr.join "" chat_html).

(** Whether pandas grants the accessor [.str] on a column of these values,
    and whether [open(path, 'w')] succeeds. *)
Variable str_accessor : list value -> bool.
Variable can_write : string -> bool.

(** What [file.write(text)] and the closing of the file do once [open] has
    created or emptied the file at a path: [None] when the text is written,
    or the error that is raised and what the file holds then. *)
Variable write_file : string -> string -> option (error * string).

(** [conv_df['message'].str.contains(re.escape(search_phrase), case=False,
    na=False)] *)
Definition contains_search_mask (conv_df : ConvFrame)
  (search_phrase : string) : res (list bool) :=
  if in_columns conv_df "message" then
    let message := map (fun r => at_key r "message") (conv_rows conv_df) in
    if str_accessor message then
      Ok (map (fun v => match v with
                        | VStr text => found search_phrase text
                        | _ => false
                        end) message)
    else Err (Builtin (AttributeError str_accessor_msg))
  else Err (Builtin (KeyError "message")).

(** [conv_df['contains_search'] = mask] *)
Definition set_contains_search (conv_df : ConvFrame) (mask : list bool)
  : ConvFrame :=
  mkConv
    (if in_columns conv_df "contains_search" then conv_columns conv_df
     else conv_columns conv_df ++ ["contains_search"])
    (zip_with (fun r b => ("contains_search", VBool b) :: r)
       (conv_rows conv_df) mask).

(** The positions at which a mask holds. *)
Fixpoint positions (from : Z) (mask : list bool) : list Z :=
  match mask with
  | [] => []
  | b :: rest =>
      if b then from :: positions (from + 1) rest
      else positions (from + 1) rest
  end.

(** Lines 264-273: the frame, [search_count] and [search_turns]. *)
Definition search_marks (conv_df : ConvFrame)
  (search_phrase : option string) : res (ConvFrame * Z * list Z) :=
  match given search_phrase with
  | None => Ok (conv_df, 0, [])
  | Some phrase =>
      mask <~ contains_search_mask conv_df phrase ;;
      Ok (set_contains_search conv_df mask,
          Z.of_nat (List.length (filter (fun b => b) mask)),
          positions 0 mask)
  end.

(** Lines 281-334: the page, or the error met on the way to it. *)
Definition full_html_of (df : ChatTable) (conv_id : cell)
  (row : DataFrame) (search_phrase : option string) : res string :=
  match rows row with
  | [] => Err (Builtin IndexError)
  | first :: _ =>
      source <~ row_item row first "source" ;;
      conv_df <~ unpack_conversation df conv_id ;;
      marks <~ search_marks conv_df search_phrase ;;
      let '(conv_df, search_count, search_turns) :=
        marks : ConvFrame * Z * list Z in
      info_html <~ format_conversation_metadata (table df) conv_id source
                     search_phrase search_count search_turns ;;
      chat_html <~ generate_chat_bubbles conv_df source search_phrase ;;
      Ok (page info_html chat_html)
  end.

Definition not_str_msg : string := "replace() argument 2 must be str".

(** Lines 340-346: the file written and the line printed, or the error.
    [open] fails before there is a file; writing fails after [open] has
    created or emptied it. *)
Definition save_to (save_path : string) (conv_id : cell)
  (full_html : string) (shown_so_far : list string) : effects * res unit :=
  match conv_id with
  | Str id =>
      let save_path := replace "[conv_id]" id save_path in
      if can_write save_path then
        match write_file save_path full_html with
        | None =>
            (mkEffects shown_so_far [(save_path, full_html)]
               [cat ["Conversation saved as ";
  save_path]],
             Ok tt)
        | Some (e, remains) =>
            (mkEffects shown_so_far [(save_path, remains)] [], Err e)
        end
      else (mkEffects shown_so_far [] [], Err (OSError save_path))
  | _ =>
      (mkEffects shown_so_far [] [], Err (Builtin (TypeError not_str_msg)))
  end.

(** Lines 246-346. *)
Definition print_or_save_convo (df : ChatTable) (conv_id : cell)
  (do_print save : bool) (save_path : string)
  (search_phrase : option string) : effects * res unit :=
  match rows_of (table df) conv_id with
  | Err e => (no_effects, Err e)
  | Ok row =>
      if empty row then (mkEffects [not_found_html] [] [], Ok tt)
      else
        match full_html_of df conv_id row search_phrase with
        | Err e => (no_effects, Err e)
        | Ok full_html =>
            let shown_so_far := if do_print then [full_html] else [] in
            if save then save_to save_path conv_id full_html shown_so_far
            else (mkEffects shown_so_far [] [], Ok tt)
        end
  end.

End Libraries.

(** The default of [save_path]. *)
Definition default_save_path : string :=
  "/content/drive/MyDrive/Lab rotation 1/html_convos/[conv_id].html".

End Visualize.

(** Reading a duration back: the digits met are collected, and a letter
    adds the number they spell, times the length of the unit it names. *)
Definition is_digit (c : ascii) : bool :=
  let n := nat_of_ascii c in ((48 <=? n) && (n <=? 57))%nat.

Definition unit_seconds (c : ascii) : Z :=
  if Ascii.eqb c "d" then 86400
  else if Ascii.eqb c "h" then 3600
  else if Ascii.eqb c "m" then 60
  else if Ascii.eqb c "s" then 1
  else 0.

Definition number (digits : string) : Z :=
  match NilEmpty.uint_of_string digits with
  | Some d => Z.of_uint d
  | None => 0
  end.

Fixpoint read_duration (s digits : string) (total : Z) : Z :=
  match s with
  | EmptyString => total
  | String c s' =>
      if is_digit c
      then read_duration s' (digits ++ String c "") total
      else read_duration s' "" (total + number digits * unit_seconds c)
  end.

(** A part of a duration: a number and the letter of its unit. *)
Definition render_part (p : Z * ascii) : string :=
  (Visualize.str_int (fst p) ++ String (snd p) "")%string.

Definition parts_seconds (l : list (Z * ascii)) : Z :=
  fold_right (fun p acc => fst p * unit_seconds (snd p) + acc) 0 l.

(** A text in which every [<] and every [>] is part of a tag [<br>], and
    which has no line break. *)
Inductive escaped_html : string -> Prop :=
| escaped_nil : escaped_html ""
| escaped_char : forall c s,
    c <> "<"%char -> c <> ">"%char -> c <> Re.newline ->
    escaped_html s -> escaped_html (String c s)
| escaped_br : forall s, escaped_html s -> escaped_html ("<br>" ++ s)%string.

(** A message that holds the search phrase: a phrase is given, and the
    message is a text in which it is found, whatever the case. *)
Definition marked (search_phrase : option string) (message : Visualize.value)
  : bool :=
  match Visualize.given search_phrase, message with
  | Some phrase, Visualize.VStr text => Visualize.found phrase text
  | _, _ => false
  end.

(** The columns that [format_conversation_metadata] reads for a source that
    is neither [wc] nor [sg], in the order in which it reads them, and the
    ones it reads for [sg]. *)
Definition plain_columns : list string :=
  ["user_id"; "user_freq"; "model"; "turns"; "code_turns"; "n_languages";
   "language"].

Definition sg_columns : list string := plain_columns ++ ["views"].

Definition wc_columns : list string :=
  ["user_id"; "user_freq"; "model"; "time_last"; "time_first"; "turns";
   "code_turns"; "toxic_turns"; "redacted_turns"; "n_languages"; "language"].

(** The first column of a list that a frame lacks. *)
Definition first_missing (df : DataFrame) (keys : list string)
  : option string :=
  find (fun key => negb (has_column df key)) keys.

(** The bubble of a turn, given whether it is framed in red, the avatars,
    the number of the turn, and the three texts that the turn computes on
    its way: the line of the timing, the label of the language and the
    message as HTML. *)
Definition bubble_with (red : bool) (conv : Visualize.ConvFrame)
  (source : cell) (assistant_avatar user_avatar : string) (turn_number : Z)
  (r : list (string * Visualize.value))
  (timing_html language_label message_html : string) : string :=
  let role := Visualize.at_key r "role" in
  Visualize.bubble
    (if Visualize.is_assistant role then "agent-turn" else "human-turn")
    (Visualize.str_int turn_number)
    (Visualize.avatar_img
       (if Visualize.is_assistant role then assistant_avatar
        else user_avatar))
    (if Visualize.is_assistant role then "#2A2A2A" else "#474747")
    (if red then Visualize.red_border else "")
    timing_html language_label
    (if Visualize.is_source source "wc" then Visualize.flags_of conv r
     else "")
    message_html.

(** The same, framed in red when the message holds the search phrase. *)
Definition bubble_of (conv : Visualize.ConvFrame) (source : cell)
  (search_phrase : option string) (assistant_avatar user_avatar : string)
  (turn_number : Z) (r : list (string * Visualize.value))
  (timing_html language_label message_html : string) : string :=
  bubble_with (marked search_phrase (Visualize.at_key r "message")) conv
    source assistant_avatar user_avatar turn_number r timing_html
    language_label message_html.

(** Whether a number is among the turns found by the search. *)
Definition counted (search_turns : list Z) (i : nat) : bool :=
  existsb (Z.eqb (Z.of_nat i)) search_turns.

(** ** Libraries and tables of the examples *)

Module Demo.

Import Visualize.

(** Stand-ins for the libraries: every file is found, texts are encoded as
    they are, a time stamp is a number of seconds, Markdown leaves a text as
    it is. *)
Definition read_file : string -> option string := fun _ => Some "svg".
Definition no_file : string -> option string := fun _ => None.
Definition b64encode : string -> string := fun s => s.
Definition json_loads : string -> res conv_data :=
  fun s => if String.eqb s "[]" then Ok (JList [])
           else Err (LibraryError "JSONDecodeError").
Definition json_normalize (l : list (list (string * value))) : ConvFrame :=
  mkConv (match l with [] => [] | r :: _ => map fst r end) l.
Definition to_datetime_cell (c : cell) : res (option Z) :=
  match c with
  | Num z => Ok (Some z)
  | _ => Ok None
  end.
Definition format_cell : DataFrame -> string -> cell -> string :=
  fun _ _ c => str_py c.
Definition to_datetime (v : value) : res (option Z) :=
  match v with
  | VInt z => Ok (Some z)
  | _ => Ok None
  end.
Definition markdown (v : value) : res string :=
  match v with
  | VStr s => Ok s
  | _ => Err (Builtin (AttributeError "'int' object has no attribute 'strip'"))
  end.
Definition re_template : string -> res string := fun s => Ok s.
Definition str_accessor : list value -> bool := fun _ => true.
Definition can_write : string -> bool := fun _ => true.
Definition write_file : string -> string -> option (error * string) :=
  fun _ _ => None.

(** A conversation of four turns. *)
Definition said (role message : string) (timestamp : Z)
  : list (string * value) :=
  [("role", VStr role); ("message", VStr message);
   ("timestamp", VInt timestamp)].

Definition talk : ConvFrame :=
  mkConv ["role"; "message"; "timestamp"]
    [said "user" "<b>Hi</b> there" 0; said "assistant" "Hello" 10;
     said "user" "say hi again" 20; said "assistant" "Hi!" 75].

(** A table of two conversations, the first of which is the one above. *)
Definition plain_schema : list (string * dtype) :=
  [("conv_id", Object); ("source", Object); ("user_id", Object);
   ("user_freq", Numeric); ("model", Object); ("turns", Numeric);
   ("code_turns", Numeric); ("n_languages", Numeric); ("language", Object);
   ("conversation", Object)].

Definition entry (i : Z) (conv source : string) : row :=
  mkRow i [("conv_id", Str conv); ("source", Str source);
           ("user_id", Str "u1"); ("user_freq", Num 2);
           ("model", Str "gpt-4"); ("turns", Num 3); ("code_turns", Num 0);
           ("n_languages", Num 1); ("language", Str "English");
           ("conversation", NA)].

Definition chat_table : ChatTable :=
  mkChat (mkDF plain_schema [entry 0 "a" "lm"; entry 1 "b" "lm";
                             entry 2 "a" "wc"])
    (fun i => if Z.eqb i 0 then JList (conv_rows talk)
              else if Z.eqb i 1 then JText "[]" else JOther).

(** The functions of the module with these libraries. *)
Definition bubbles : ConvFrame -> cell -> option string -> res (list string)
  := chat_bubbles read_file b64encode to_datetime markdown re_template.

Definition metadata
  : DataFrame -> cell -> cell -> option string -> Z -> list Z -> res string
  := format_conversation_metadata to_datetime_cell format_cell.

Definition unpack : ChatTable -> cell -> res ConvFrame :=
  unpack_conversation json_loads json_normalize.

Definition print_or_save
  : ChatTable -> cell -> bool -> bool -> string -> option string ->
    effects * res unit :=
  print_or_save_convo read_file b64encode json_loads json_normalize
    to_datetime_cell format_cell to_datetime markdown re_template
    str_accessor can_write write_file.

End Demo.


(* ================================================================= *)
(** * Properties *)

(** ** Strings *)

Lemma startswith_append (p r : string) :
  PyStr.startswith p (p ++ r)%string = true.
Proof.
  induction p as [|a p IH]; simpl; [reflexivity|].
  now rewrite Ascii.eqb_refl, IH.
Qed.

Lemma startswith_iff (p s : string) :
  PyStr.startswith p s = true <-> exists r, s = (p ++ r)%string.
Proof.
  split.
  - revert s; induction p as [|a p IH]; intros s H.
    + now exists s.
    + destruct s as [|b s]; simpl in H; [discriminate|].
      apply andb_true_iff in H as [Hab Hrest].
      apply Ascii.eqb_eq in Hab; subst b.
      destruct (IH _ Hrest) as [r ->].
      now exists r.
  - intros [r ->]. apply startswith_append.
Qed.

Lemma contains_startswith (p s : string) :
  PyStr.startswith p s = true -> PyStr.contains p s = true.
Proof.
  intros H. destruct s; cbn [PyStr.contains]; now rewrite H.
Qed.

Lemma contains_iff (p s : string) :
  PyStr.contains p s = true
  <-> exists b r, s = (b ++ p ++ r)%string.
Proof.
  split.
  - induction s as [|c s IH]; simpl; intros H.
    + rewrite orb_false_r in H.
      apply startswith_iff in H as [r Hr]. now exists ""%string, r.
    + apply orb_true_iff in H as [H|H].
      * apply startswith_iff in H as [r Hr]. now exists ""%string, r.
      * destruct (IH H) as (b & r & ->). now exists (String c b), r.
  - intros (b & r & ->).
    induction b as [|c b IH].
    + cbn [String.append]. apply contains_startswith, startswith_append.
    + cbn [String.append PyStr.contains]. rewrite IH. apply orb_true_r.
Qed.

(** ** The pattern of a prefix search is a sequence of literals *)

Lemma special_not_alnum (c : ascii) :
  Re.is_special c = true -> Re.is_ascii_alnum c = false.
Proof.
  destruct c as [[] [] [] [] [] [] [] []]; vm_compute; congruence.
Qed.

Lemma plain_char (c : ascii) :
  Re.is_special c = false ->
  Ascii.eqb c Re.backslash = false /\ Ascii.eqb c "." = false
  /\ Ascii.eqb c "^" = false /\ Ascii.eqb c "$" = false
  /\ Re.is_operator c = false.
Proof.
  destruct c as [[] [] [] [] [] [] [] []]; vm_compute; intuition congruence.
Qed.

Lemma parse_plain_char (c : ascii) (rest : string) :
  Re.is_special c = false ->
  Re.parse (String c rest) = Re.cons_atom (Re.Lit c) (Re.parse rest).
Proof.
  intros H. destruct (plain_char c H) as (H1 & H2 & H3 & H4 & H5).
  simpl. now rewrite H1, H2, H3, H4, H5.
Qed.

Lemma parse_escaped_char (c : ascii) (rest : string) :
  Re.is_special c = true ->
  Re.parse (String Re.backslash (String c rest))
  = Re.cons_atom (Re.Lit c) (Re.parse rest).
Proof.
  intros H. apply special_not_alnum in H.
  cbn [Re.parse]. rewrite Ascii.eqb_refl. now rewrite H.
Qed.

Lemma parse_escape (text : string) :
  Re.parse (Re.escape text) = Re.Parsed (lits text).
Proof.
  unfold lits.
  induction text as [|c text IH]; [reflexivity|].
  cbn [Re.escape]. destruct (Re.is_special c) eqn:E.
  - rewrite parse_escaped_char, IH by exact E. reflexivity.
  - rewrite parse_plain_char, IH by exact E. reflexivity.
Qed.

Lemma parse_prefix_pattern (text : string) :
  Re.parse ("^" ++ Re.escape text) = Re.Parsed (Re.Bol :: lits text).
Proof.
  change ("^" ++ Re.escape text)%string with (String "^" (Re.escape text)).
  cbn [Re.parse].
  replace (Ascii.eqb "^" Re.backslash) with false by reflexivity.
  replace (Ascii.eqb "^" ".") with false by reflexivity.
  rewrite Ascii.eqb_refl, parse_escape. reflexivity.
Qed.


(** ** Matching a sequence of literals *)

Lemma fold_case_cons (cs : bool) (c : ascii) (s : string) :
  fold_case cs (String c s)
  = String (if cs then c else PyStr.lower_char c) (fold_case cs s).
Proof. destruct cs; reflexivity. Qed.

Lemma match_here_lits (cs bos : bool) (text s : string) :
  Re.match_here (negb cs) (lits text) bos s
  = PyStr.startswith (fold_case cs text) (fold_case cs s).
Proof.
  unfold lits. revert bos s.
  induction text as [|c text IH]; intros bos s.
  - destruct cs; reflexivity.
  - cbn [list_ascii_of_string map Re.match_here].
    rewrite fold_case_cons.
    destruct s as [|x s].
    + destruct cs; reflexivity.
    + rewrite fold_case_cons. cbn [PyStr.startswith].
      rewrite IH. destruct cs; reflexivity.
Qed.

Lemma search_from_lits (cs bos : bool) (text s : string) :
  Re.search_from (negb cs) (lits text) bos s
  = PyStr.contains (fold_case cs text) (fold_case cs s).
Proof.
  revert bos. induction s as [|x s IH]; intros bos.
  - cbn [Re.search_from]. rewrite match_here_lits.
    destruct cs; reflexivity.
  - cbn [Re.search_from]. rewrite match_here_lits, IH.
    rewrite fold_case_cons. reflexivity.
Qed.

Lemma begins_withb_iff (cs : bool) (text : string) (c : cell) :
  begins_withb cs text c = true <-> begins_with cs text c.
Proof.
  unfold begins_withb, begins_with. destruct c as [|n|s].
  - split; [discriminate|]. intros (s & r & H & _). discriminate.
  - split; [discriminate|]. intros (s & r & H & _). discriminate.
  - rewrite startswith_iff. split.
    + intros [r Hr]. now exists s, r.
    + intros (s' & r & H & Hr). injection H as <-. now exists r.
Qed.

Lemma holdsb_iff (cs : bool) (text : string) (c : cell) :
  holdsb cs text c = true <-> holds cs text c.
Proof.
  unfold holdsb, holds. destruct c as [|n|s].
  - split; [discriminate|]. intros (s & b & r & H & _). discriminate.
  - split; [discriminate|]. intros (s & b & r & H & _). discriminate.
  - rewrite contains_iff. split.
    + intros (b & r & Hr). now exists s, b, r.
    + intros (s' & b & r & H & Hr). injection H as <-. now exists b, r.
Qed.

(** ** Sublists and masks *)

Lemma sublist_refl {A : Type} (l : list A) : sublist l l.
Proof. induction l; constructor; assumption. Qed.

Lemma sublist_trans {A : Type} (l m n : list A) :
  sublist l m -> sublist m n -> sublist l n.
Proof.
  intros Hlm Hmn. revert l Hlm.
  induction Hmn as [|x m n _ IH|x m n _ IH]; intros l Hlm.
  - exact Hlm.
  - apply sublist_skip, IH, Hlm.
  - inversion Hlm; subst.
    + apply sublist_skip, IH. assumption.
    + apply sublist_keep, IH. assumption.
Qed.

Lemma sublist_In {A : Type} (l m : list A) (x : A) :
  sublist l m -> In x l -> In x m.
Proof.
  induction 1; simpl; intuition.
Qed.

Lemma boolean_index_sublist {A : Type} (rs : list A) (mask : list bool) :
  sublist (boolean_index rs mask) rs.
Proof.
  revert mask. induction rs as [|r rs IH]; intros mask.
  - destruct mask; constructor.
  - destruct mask as [|[] mask]; cbn [boolean_index].
    + clear IH. induction (r :: rs); constructor; assumption.
    + apply sublist_keep, IH.
    + apply sublist_skip, IH.
Qed.

Lemma boolean_index_map {A B : Type} (f : A -> B) (p : B -> bool)
  (rs : list A) :
  boolean_index rs (map p (map f rs)) = filter (fun r => p (f r)) rs.
Proof.
  induction rs as [|r rs IH]; [reflexivity|].
  cbn [map boolean_index filter]. rewrite IH. reflexivity.
Qed.

Lemma boolean_index_column (key : string) (p : cell -> bool)
  (rs : list row) :
  boolean_index rs (map p (column key rs))
  = filter (fun r => p (get key r)) rs.
Proof. apply boolean_index_map. Qed.

Lemma boolean_index_none {A B : Type} (rs : list A) (col : list B) :
  boolean_index rs (map (fun _ => false) col) = [].
Proof.
  revert col. induction rs as [|r rs IH]; intros [|c col]; try reflexivity.
  cbn [map boolean_index]. apply IH.
Qed.

(** ** One turn of the loop *)

Import Filter.

Lemma select_inv (f f' : DataFrame) (mask : outcome (list bool)) :
  select f mask = Return f' ->
  columns f' = columns f /\ sublist (rows f') (rows f).
Proof.
  destruct mask as [m|e]; cbn; [|discriminate].
  intros H. injection H as <-. split; [reflexivity|].
  apply boolean_index_sublist.
Qed.

Lemma filter_numeric_inv (key : string) (value : spec) (f f' : DataFrame) :
  filter_numeric key value f = Return f' ->
  columns f' = columns f /\ sublist (rows f') (rows f).
Proof.
  unfold filter_numeric. destruct (parse_range value) as [lo hi].
  destruct (negb (is_none lo) && negb (is_none hi) && py_eq lo hi).
  - apply select_inv.
  - destruct (negb (is_none lo)).
    + destruct (select f (series_ge (column key (rows f)) lo)) as [f1|e] eqn:E1;
        cbn [bind]; [|discriminate].
      apply select_inv in E1 as [Hc1 Hs1].
      destruct (negb (is_none hi)).
      * intros H. apply select_inv in H as [Hc2 Hs2].
        split; [congruence|]. eapply sublist_trans; eassumption.
      * intros H. injection H as <-. now split.
    + cbn [bind]. destruct (negb (is_none hi)).
      * apply select_inv.
      * intros H. injection H as <-. split; [reflexivity|apply sublist_refl].
Qed.

Lemma filter_object_inv (key : string) (value : spec) (f f' : DataFrame) :
  filter_object key value f = Return f' ->
  columns f' = columns f /\ sublist (rows f') (rows f).
Proof.
  unfold filter_object. destruct value; try apply select_inv.
  intros H. injection H as <-. split; [reflexivity|].
  apply boolean_index_sublist.
Qed.

Lemma apply_spec_inv (df : DataFrame) (key : string) (value : spec)
  (f f' : DataFrame) :
  apply_spec df key value f = Return f' ->
  columns f' = columns f /\ sublist (rows f') (rows f).
Proof.
  unfold apply_spec. destruct (dtype_of df key).
  - apply filter_numeric_inv.
  - apply filter_object_inv.
Qed.

(** ** The two loops *)

Lemma sampler_loop_inv (df : DataFrame) (kwargs : list (string * spec))
  (f f' : DataFrame) :
  GetRandom.filter_loop df kwargs f = Return f' ->
  columns f' = columns f /\ sublist (rows f') (rows f).
Proof.
  revert f. induction kwargs as [|[key value] rest IH]; intros f.
  - cbn. intros H. injection H as <-. split; [reflexivity|apply sublist_refl].
  - cbn [GetRandom.filter_loop]. destruct (negb (has_column df key)).
    + apply IH.
    + destruct (apply_spec df key value f) as [f1|e] eqn:E; cbn [bind];
        [|discriminate].
      intros H. apply IH in H as [Hc Hs].
      apply apply_spec_inv in E as [Hc1 Hs1].
      split; [congruence|]. eapply sublist_trans; eassumption.
Qed.

(** The search loop filters as the sampler loop does. *)
Lemma search_loop_outcome (df : DataFrame) (kwargs : list (string * spec))
  (f : DataFrame) :
  snd (Search.filter_loop df kwargs f) = GetRandom.filter_loop df kwargs f.
Proof.
  revert f. induction kwargs as [|[key value] rest IH]; intros f.
  - reflexivity.
  - cbn [GetRandom.filter_loop Search.filter_loop].
    destruct (negb (has_column df key)).
    + rewrite <- IH. destruct (Search.filter_loop df rest f). reflexivity.
    + destruct (apply_spec df key value f) as [f1|e]; cbn [bind].
      * apply IH.
      * reflexivity.
Qed.

(** Entries that name no column of the frame change nothing. *)
Lemma sampler_loop_known (df : DataFrame) (kwargs : list (string * spec))
  (f : DataFrame) :
  GetRandom.filter_loop df kwargs f
  = GetRandom.filter_loop df (known df kwargs) f.
Proof.
  unfold known. revert f.
  induction kwargs as [|[key value] rest IH]; intros f; [reflexivity|].
  cbn [GetRandom.filter_loop filter fst].
  destruct (has_column df key) eqn:E; cbn [negb].
  - cbn [GetRandom.filter_loop]. rewrite E. cbn [negb].
    destruct (apply_spec df key value f); cbn [bind]; [apply IH|reflexivity].
  - apply IH.
Qed.

Lemma search_loop_known_silent (df : DataFrame)
  (kwargs : list (string * spec)) (f : DataFrame) :
  fst (Search.filter_loop df (known df kwargs) f) = [].
Proof.
  unfold known. revert f.
  induction kwargs as [|[key value] rest IH]; intros f; [reflexivity|].
  cbn [filter fst]. destruct (has_column df key) eqn:E.
  - cbn [Search.filter_loop]. rewrite E. cbn [negb].
    destruct (apply_spec df key value f); [apply IH|reflexivity].
  - apply IH.
Qed.

(** The warnings of a loop that ends normally: one for each entry that names
    no column, in the order of the entries. *)
Lemma search_loop_warnings (df : DataFrame) (kwargs : list (string * spec))
  (f f' : DataFrame) :
  snd (Search.filter_loop df kwargs f) = Return f' ->
  fst (Search.filter_loop df kwargs f)
  = map Search.warning_msg (unknown_keys df kwargs).
Proof.
  unfold unknown_keys. revert f.
  induction kwargs as [|[key value] rest IH]; intros f; [reflexivity|].
  cbn [Search.filter_loop filter fst].
  destruct (has_column df key) eqn:E; cbn [negb].
  - destruct (apply_spec df key value f); [apply IH|discriminate].
  - specialize (IH f). destruct (Search.filter_loop df rest f) as [w r].
    cbn [fst snd map] in *. intros H. now rewrite IH.
Qed.

(** Whatever way the loop ends, a warning is about an entry that names no
    column. *)
Lemma search_loop_warnings_incl (df : DataFrame)
  (kwargs : list (string * spec)) (f : DataFrame) :
  incl (fst (Search.filter_loop df kwargs f))
       (map Search.warning_msg (unknown_keys df kwargs)).
Proof.
  unfold unknown_keys. revert f.
  induction kwargs as [|[key value] rest IH]; intros f.
  - apply incl_refl.
  - cbn [Search.filter_loop filter fst].
    destruct (has_column df key) eqn:E; cbn [negb].
    + destruct (apply_spec df key value f); [apply IH|].
      intros x [].
    + specialize (IH f). destruct (Search.filter_loop df rest f) as [w r].
      cbn [fst map] in *. intros x [<-|Hx]; [now left|right; now apply IH].
Qed.

(** ** Specs under which no comparison raises *)

Lemma scalar_eq_refl (v : scalar) : scalar_eq v v = true.
Proof. destruct v; cbn; [apply Z.eqb_refl|apply String.eqb_refl]. Qed.

Lemma series_eq_not_list (col : list cell) (v : spec) :
  (forall l, v <> SpList l) -> exists m, series_eq col v = Return m.
Proof.
  destruct v; cbn; eauto. intros H. now destruct (H l).
Qed.

Lemma series_cmp_bound (op : Z -> cell -> bool) (col : list cell)
  (b : option scalar) :
  bound_ok b = true -> is_none (elem b) = false ->
  exists m, series_cmp op col (elem b) = Return m.
Proof.
  destruct b as [[z|s]|]; cbn; try discriminate; eauto.
Qed.

Lemma select_total (f : DataFrame) (mask : outcome (list bool)) :
  (exists m, mask = Return m) -> exists f', select f mask = Return f'.
Proof. intros [m ->]. cbn. eauto. Qed.

Lemma elem_not_list (b : option scalar) (l : list scalar) :
  elem b <> SpList l.
Proof. destruct b; discriminate. Qed.

(** The range branch on two bounds that are numbers or absent. *)
Lemma range_total (key : string) (lo hi : option scalar) (f : DataFrame) :
  bound_ok lo = true -> bound_ok hi = true ->
  exists f',
    (filtered_df1 <-
       (if negb (is_none (elem lo))
        then select f (series_ge (column key (rows f)) (elem lo))
        else Return f) ;;
     if negb (is_none (elem hi))
     then select filtered_df1
            (series_le (column key (rows filtered_df1)) (elem hi))
     else Return filtered_df1) = Return f'.
Proof.
  intros Hlo Hhi.
  assert (Hstep : forall (op : Z -> cell -> bool) (b : option scalar)
                         (g : DataFrame),
             bound_ok b = true ->
             exists g',
               (if negb (is_none (elem b))
                then select g (series_cmp op (column key (rows g)) (elem b))
                else Return g) = Return g').
  { intros op b g Hb. destruct (is_none (elem b)) eqn:E; cbn [negb].
    - eauto.
    - apply select_total, series_cmp_bound; assumption. }
  destruct (Hstep cell_ge lo f Hlo) as [f1 H1].
  unfold series_ge. rewrite H1. cbn [bind].
  apply (Hstep cell_le hi f1 Hhi).
Qed.

Lemma filter_numeric_bounds (key : string) (lo hi : option scalar)
  (f : DataFrame) :
  bound_ok lo = true -> bound_ok hi = true ->
  exists f',
    (if negb (is_none (elem lo)) && negb (is_none (elem hi))
        && py_eq (elem lo) (elem hi)
     then select f (series_eq (column key (rows f)) (elem lo))
     else
       filtered_df1 <-
         (if negb (is_none (elem lo))
          then select f (series_ge (column key (rows f)) (elem lo))
          else Return f) ;;
       if negb (is_none (elem hi))
       then select filtered_df1
              (series_le (column key (rows filtered_df1)) (elem hi))
       else Return filtered_df1) = Return f'.
Proof.
  intros Hlo Hhi.
  destruct (negb (is_none (elem lo)) && negb (is_none (elem hi))
            && py_eq (elem lo) (elem hi)).
  - apply select_total, series_eq_not_list. intros l. apply elem_not_list.
  - apply range_total; assumption.
Qed.

Lemma filter_numeric_total (key : string) (value : spec) (f : DataFrame) :
  numeric_spec_ok value = true ->
  exists f', filter_numeric key value f = Return f'.
Proof.
  unfold filter_numeric.
  destruct value as [|v|t|l]; cbn [numeric_spec_ok]; intros H.
  - cbn. eauto.
  - assert (E : parse_range (SpScalar v) = (SpScalar v, SpScalar v))
      by (destruct v; reflexivity).
    rewrite E. cbn [is_none negb andb py_eq]. rewrite scalar_eq_refl.
    apply select_total, series_eq_not_list. discriminate.
  - destruct t as [|lo [|hi t]].
    + cbn. eauto.
    + cbn [firstn forallb] in H. rewrite andb_true_r in H.
      change (parse_range (SpTuple [lo])) with (elem lo, elem None).
      now apply filter_numeric_bounds.
    + cbn [firstn forallb] in H.
      apply andb_true_iff in H as [Hlo H].
      apply andb_true_iff in H as [Hhi _].
      change (parse_range (SpTuple (lo :: hi :: t))) with (elem lo, elem hi).
      now apply filter_numeric_bounds.
  - discriminate.
Qed.

Lemma filter_object_total (key : string) (value : spec) (f : DataFrame) :
  exists f', filter_object key value f = Return f'.
Proof.
  destruct value; cbn [filter_object]; eauto;
    apply select_total, series_eq_not_list; discriminate.
Qed.

Lemma sampler_loop_total (df : DataFrame) (kwargs : list (string * spec))
  (f : DataFrame) :
  kwargs_ok df kwargs = true ->
  exists f', GetRandom.filter_loop df kwargs f = Return f'.
Proof.
  unfold kwargs_ok. revert f.
  induction kwargs as [|[key value] rest IH]; intros f H.
  - cbn. eauto.
  - cbn [forallb] in H. apply andb_true_iff in H as [Hkv Hrest].
    cbn [GetRandom.filter_loop].
    unfold has_column, apply_spec, dtype_of, entry_ok in *. cbn [fst snd] in Hkv.
    destruct (lookup key (columns df)) as [[]|]; cbn [negb].
    + destruct (filter_numeric_total key value f Hkv) as [f1 ->].
      cbn [bind]. now apply IH.
    + destruct (filter_object_total key value f) as [f1 ->].
      cbn [bind]. now apply IH.
    + now apply IH.
Qed.

(** ** The store *)

Lemma deref_alloc_old (h : Store.heap) (d : DataFrame) (p : Store.ref) :
  (p < List.length h)%nat ->
  Store.deref (fst (Store.alloc h d)) p = Store.deref h p.
Proof. intros H. unfold Store.deref. cbn. now rewrite app_nth1. Qed.

Lemma deref_alloc_new (h : Store.heap) (d : DataFrame) :
  Store.deref (fst (Store.alloc h d)) (snd (Store.alloc h d)) = d.
Proof. unfold Store.deref. cbn. apply nth_middle. Qed.

Lemma store_loop_refines (kwargs : list (string * spec)) :
  forall (h : Store.heap) (df q : Store.ref),
    (df < List.length h)%nat -> (q < List.length h)%nat ->
    (forall p, (p < List.length h)%nat ->
       Store.deref (fst (Store.filter_loop h df kwargs q)) p
       = Store.deref h p)
    /\ match snd (Store.filter_loop h df kwargs q) with
       | Return q' =>
           GetRandom.filter_loop (Store.deref h df) kwargs (Store.deref h q)
           = Return (Store.deref (fst (Store.filter_loop h df kwargs q)) q')
       | Raise e =>
           GetRandom.filter_loop (Store.deref h df) kwargs (Store.deref h q)
           = Raise e
       end.
Proof.
  induction kwargs as [|[key value] rest IH]; intros h df q Hdf Hq.
  - cbn. split; reflexivity.
  - cbn [Store.filter_loop GetRandom.filter_loop].
    destruct (negb (has_column (Store.deref h df) key)).
    + now apply IH.
    + destruct (apply_spec (Store.deref h df) key value (Store.deref h q))
        as [d|e]; cbn [bind].
      * pose proof (deref_alloc_new h d) as Hnew.
        pose proof (fun p => @deref_alloc_old h d p) as Hold.
        cbn [Store.alloc fst snd] in Hnew, Hold |- *.
        assert (Hlen : List.length (h ++ [d]) = S (List.length h))
          by (rewrite length_app; cbn; lia).
        destruct (IH (h ++ [d]) df (List.length h)) as [Hkeep Hres];
          [lia|lia|].
        split.
        -- intros p Hp. rewrite Hkeep by lia. now apply Hold.
        -- rewrite (Hold df Hdf), Hnew in Hres. exact Hres.
      * cbn. split; reflexivity.
Qed.

Lemma store_filter_subset_refines (h : Store.heap) (df : Store.ref)
  (return_all : bool) (conv_id_colname : string) (rnd : nat)
  (kwargs : list (string * spec)) :
  (df < List.length h)%nat ->
  (forall p, (p < List.length h)%nat ->
     Store.deref
       (fst (Store.filter_subset h df return_all conv_id_colname rnd kwargs))
       p = Store.deref h p)
  /\ snd (Store.filter_subset h df return_all conv_id_colname rnd kwargs)
     = GetRandom.filter_subset (Store.deref h df) return_all conv_id_colname
         rnd kwargs.
Proof.
  intros Hdf. unfold Store.filter_subset, GetRandom.filter_subset, copy.
  pose proof (deref_alloc_new h (Store.deref h df)) as Hnew.
  pose proof (fun p => @deref_alloc_old h (Store.deref h df) p) as Hold.
  cbn [Store.alloc fst snd] in Hnew, Hold |- *.
  set (h0 := h ++ [Store.deref h df]) in *.
  assert (Hlen : List.length h0 = S (List.length h))
    by (unfold h0; rewrite length_app; cbn; lia).
  destruct (@store_loop_refines kwargs h0 df (List.length h))
    as [Hkeep Hres]; [lia|lia|].
  rewrite (Hold df Hdf), Hnew in Hres.
  destruct (Store.filter_loop h0 df kwargs (List.length h)) as [h1 r].
  cbn [fst snd] in *. split.
  - intros p Hp. rewrite Hkeep by lia. now apply Hold.
  - destruct r as [q'|e]; rewrite Hres; reflexivity.
Qed.

(** ** Two specs that filter alike can stand for one another *)

Section Congruence.

Variable df : DataFrame.
Variable key : string.
Variables v1 v2 : spec.
Hypothesis same_turn :
  forall f, apply_spec df key v1 f = apply_spec df key v2 f.

Lemma sampler_loop_congr (pre post : list (string * spec))
  (f : DataFrame) :
  GetRandom.filter_loop df (pre ++ (key, v1) :: post) f
  = GetRandom.filter_loop df (pre ++ (key, v2) :: post) f.
Proof.
  revert f. induction pre as [|[k v] pre IH]; intros f.
  - cbn [app GetRandom.filter_loop]. now rewrite same_turn.
  - cbn [app GetRandom.filter_loop].
    destruct (negb (has_column df k)); [apply IH|].
    destruct (apply_spec df k v f); cbn [bind]; [apply IH|reflexivity].
Qed.

Lemma search_loop_congr (pre post : list (string * spec))
  (f : DataFrame) :
  Search.filter_loop df (pre ++ (key, v1) :: post) f
  = Search.filter_loop df (pre ++ (key, v2) :: post) f.
Proof.
  revert f. induction pre as [|[k v] pre IH]; intros f.
  - cbn [app Search.filter_loop]. now rewrite same_turn.
  - cbn [app Search.filter_loop].
    destruct (negb (has_column df k)); [now rewrite IH|].
    destruct (apply_spec df k v f); [apply IH|reflexivity].
Qed.

Lemma filter_subset_congr (return_all : bool) (conv_id_colname : string)
  (rnd : nat) (pre post : list (string * spec)) :
  GetRandom.filter_subset df return_all conv_id_colname rnd
    (pre ++ (key, v1) :: post)
  = GetRandom.filter_subset df return_all conv_id_colname rnd
      (pre ++ (key, v2) :: post).
Proof.
  unfold GetRandom.filter_subset, copy. now rewrite sampler_loop_congr.
Qed.

Lemma search_congr (re_beyond : string -> bool -> option Re.pattern)
  (text : string) (case_sensitive from_start return_all : bool)
  (rnd : nat) (pre post : list (string * spec)) :
  Search.search_text_matches re_beyond df text case_sensitive from_start
    return_all rnd (pre ++ (key, v1) :: post)
  = Search.search_text_matches re_beyond df text case_sensitive from_start
      return_all rnd (pre ++ (key, v2) :: post).
Proof.
  unfold Search.search_text_matches, copy.
  destruct (negb (forallb (has_column df) Search.required_columns));
    [reflexivity|].
  destruct (Search.text_stage re_beyond df text case_sensitive from_start);
    [|reflexivity].
  now rewrite search_loop_congr.
Qed.

End Congruence.

Lemma dtype_of_lookup (df : DataFrame) (key : string) (d : dtype) :
  lookup key (columns df) = Some d ->
  has_column df key = true /\ dtype_of df key = d.
Proof. unfold has_column, dtype_of. intros ->. now split. Qed.

(** The loop on a single entry for a column of the frame. *)
Lemma sampler_loop_single (df : DataFrame) (key : string) (value : spec)
  (f : DataFrame) :
  has_column df key = true ->
  GetRandom.filter_loop df [(key, value)] f = apply_spec df key value f.
Proof.
  intros H. cbn [GetRandom.filter_loop]. rewrite H. cbn [negb].
  destruct (apply_spec df key value f); reflexivity.
Qed.

Lemma cell_eq_scalar_iff (x : scalar) (c : cell) :
  cell_eq_scalar x c = true <-> c = scalar_cell x.
Proof.
  destruct c as [|n|s], x as [z|t]; cbn; split; try discriminate.
  - intros H. apply Z.eqb_eq in H. now subst.
  - intros H. injection H as ->. apply Z.eqb_refl.
  - intros H. apply String.eqb_eq in H. now subst.
  - intros H. injection H as ->. apply String.eqb_refl.
Qed.

(** ** The text match *)

Lemma str_map_column (f : string -> bool) (p : cell -> bool) (key : string)
  (rs : list row) :
  (forall s, f s = p (Str s)) -> p NA = false ->
  (forall n, p (Num n) = false) ->
  boolean_index rs (str_map f (column key rs))
  = filter (fun r => p (get key r)) rs.
Proof.
  intros Hs Hna Hnum. rewrite <- boolean_index_column. f_equal.
  unfold str_map. apply map_ext. intros [|n|s]; auto.
Qed.

(** From the start: the pattern compiles, whatever the text, and matches
    the values that begin with the text. *)
Lemma text_stage_from_start
  (re_beyond : string -> bool -> option Re.pattern) (df : DataFrame)
  (text : string) (case_sensitive : bool) :
  dtype_of df "message" = Object ->
  Search.text_stage re_beyond df text case_sensitive true
  = Return (set_rows df
      (filter (fun r => begins_withb case_sensitive text (get "message" r))
              (rows df))).
Proof.
  intros Hdt. unfold Search.text_stage, Search.text_mask, str_match.
  rewrite Hdt. unfold Re.compile. rewrite parse_prefix_pattern.
  cbn [Re.re_match]. unfold select. cbn [bind]. do 2 f_equal.
  apply str_map_column; try reflexivity.
  intros s. cbn [Re.match_here andb begins_withb].
  apply match_here_lits.
Qed.


(** ** Which errors can come out *)

Lemma series_eq_raise (col : list cell) (v : spec) (e : exn) :
  series_eq col v = Raise e -> comparison_error e.
Proof.
  destruct v as [|x|t|l]; cbn; try discriminate.
  destruct (negb _); [|destruct (forallb _ _); discriminate].
  intros H. injection H as <-. now left.
Qed.

Lemma series_cmp_raise (op : Z -> cell -> bool) (col : list cell) (v : spec)
  (e : exn) :
  series_cmp op col v = Raise e -> comparison_error e.
Proof.
  destruct v as [|[z|x]|t|l]; cbn; try discriminate;
    try (intros H; injection H as <-; now right).
  destruct (negb _); [intros H; injection H as <-; now left|].
  destruct (forallb _ _); [discriminate|].
  intros H; injection H as <-; now right.
Qed.

Lemma select_raise (f : DataFrame) (mask : outcome (list bool)) (e : exn) :
  select f mask = Raise e -> mask = Raise e.
Proof. destruct mask; cbn; [discriminate|intros H; now injection H as <-]. Qed.

Lemma apply_spec_raise (df : DataFrame) (key : string) (value : spec)
  (f : DataFrame) (e : exn) :
  apply_spec df key value f = Raise e -> comparison_error e.
Proof.
  unfold apply_spec, filter_numeric, filter_object.
  destruct (dtype_of df key).
  - destruct (parse_range value) as [lo hi].
    destruct (negb (is_none lo) && negb (is_none hi) && py_eq lo hi).
    + intros H. apply select_raise in H. eapply series_eq_raise, H.
    + destruct (negb (is_none lo)).
      * destruct (select f (series_ge (column key (rows f)) lo))
          as [f1|e1] eqn:E1; cbn [bind].
        -- destruct (negb (is_none hi)); [|discriminate].
           intros H. apply select_raise in H. eapply series_cmp_raise, H.
        -- intros H. injection H as <-.
           apply select_raise in E1. eapply series_cmp_raise, E1.
      * cbn [bind]. destruct (negb (is_none hi)); [|discriminate].
        intros H. apply select_raise in H. eapply series_cmp_raise, H.
  - destruct value; try discriminate;
      intros H; apply select_raise in H; eapply series_eq_raise, H.
Qed.

Lemma sampler_loop_raise (df : DataFrame) (kwargs : list (string * spec))
  (f : DataFrame) (e : exn) :
  GetRandom.filter_loop df kwargs f = Raise e -> comparison_error e.
Proof.
  revert f. induction kwargs as [|[key value] rest IH]; intros f.
  - discriminate.
  - cbn [GetRandom.filter_loop]. destruct (negb (has_column df key)).
    + apply IH.
    + destruct (apply_spec df key value f) as [f1|e1] eqn:E; cbn [bind].
      * apply IH.
      * intros H. injection H as <-. eapply apply_spec_raise, E.
Qed.

Lemma text_stage_raise (re_beyond : string -> bool -> option Re.pattern)
  (df : DataFrame) (text : string) (case_sensitive from_start : bool)
  (e : exn) :
  Search.text_stage re_beyond df text case_sensitive from_start = Raise e ->
  e = AttributeError str_accessor_msg \/ e = ReError.
Proof.
  unfold Search.text_stage. intros H. apply select_raise in H.
  unfold Search.text_mask, str_match, str_contains in H.
  destruct from_start, (dtype_of df "message");
    try (injection H as <-; now left);
    destruct (Re.compile _ _ _); try discriminate;
    injection H as <-; now right.
Qed.

(** ** The end of the two functions *)

Lemma unique_nonempty (c : cell) (l : list cell) :
  unique (c :: l) = c :: unique_acc [c] l.
Proof. reflexivity. Qed.

Lemma choice_total (rnd : nat) (c : cell) (l : list cell) :
  exists conv, choice rnd (c :: l) = Return conv.
Proof. cbn [choice]. eauto. Qed.

Lemma empty_false_rows (f : DataFrame) :
  empty f = false -> exists r rs, rows f = r :: rs.
Proof.
  unfold empty. destruct (rows f) as [|r rs]; [discriminate|eauto].
Qed.

Lemma empty_no_rows (f : DataFrame) : rows f = [] -> empty f = true.
Proof. unfold empty. now intros ->. Qed.

Lemma cell_value_not_list (c : cell) (l : list scalar) :
  cell_value c <> SpList l.
Proof. destruct c; discriminate. Qed.

Lemma conclude_total (f : DataFrame) (return_all : bool) (rnd : nat) :
  exists v, Search.conclude f return_all rnd = Return v.
Proof.
  unfold Search.conclude. destruct (empty f) eqn:E; [eauto|].
  destruct return_all; [eauto|].
  destruct (empty_false_rows f E) as (r & rs & Hrows).
  rewrite Hrows. cbn [column map]. rewrite unique_nonempty.
  destruct (choice_total rnd (get "conv_id" r)
              (unique_acc [get "conv_id" r] (map (get "conv_id") rs)))
    as [conv ->].
  cbn [bind].
  destruct (@select_total f
              (series_eq (get "conv_id" r :: map (get "conv_id") rs)
                         (cell_value conv))) as [m Hm].
  { apply series_eq_not_list. intros l. apply cell_value_not_list. }
  rewrite Hm. cbn [bind]. eauto.
Qed.


Lemma has_column_same (f g : DataFrame) (key : string) :
  columns f = columns g -> has_column f key = has_column g key.
Proof. unfold has_column. now intros ->. Qed.

Lemma search_unfold_present
  (re_beyond : string -> bool -> option Re.pattern) (df : DataFrame)
  (text : string) (case_sensitive from_start return_all : bool) (rnd : nat)
  (kwargs : list (string * spec)) :
  forallb (has_column df) Search.required_columns = true ->
  snd (Search.search_text_matches re_beyond df text case_sensitive from_start
         return_all rnd kwargs)
  = (f0 <- Search.text_stage re_beyond df text case_sensitive from_start ;;
     f <- GetRandom.filter_loop df kwargs f0 ;;
     Search.conclude f return_all rnd).
Proof.
  intros H. unfold Search.search_text_matches, copy. rewrite H. cbn [negb].
  destruct (Search.text_stage re_beyond df text case_sensitive from_start)
    as [f0|e]; cbn [bind snd]; [|reflexivity].
  rewrite <- search_loop_outcome.
  destruct (Search.filter_loop df kwargs f0). reflexivity.
Qed.

Lemma search_raise_present
  (re_beyond : string -> bool -> option Re.pattern) (df : DataFrame)
  (text : string) (case_sensitive from_start return_all : bool) (rnd : nat)
  (kwargs : list (string * spec)) (e : exn) :
  forallb (has_column df) Search.required_columns = true ->
  snd (Search.search_text_matches re_beyond df text case_sensitive from_start
         return_all rnd kwargs) = Raise e ->
  e = AttributeError str_accessor_msg \/ e = ReError \/ comparison_error e.
Proof.
  intros Hreq. rewrite search_unfold_present by exact Hreq.
  destruct (Search.text_stage re_beyond df text case_sensitive from_start)
    as [f0|e0] eqn:E0; cbn [bind].
  - destruct (GetRandom.filter_loop df kwargs f0) as [f|e1] eqn:E1;
      cbn [bind].
    + destruct (conclude_total f return_all rnd) as [v ->]. discriminate.
    + intros H. injection H as <-. right; right.
      eapply sampler_loop_raise, E1.
  - intros H. injection H as <-.
    apply text_stage_raise in E0 as [->| ->]; auto.
Qed.


Lemma missing_msg_not_comparison : ~ comparison_error (ValueError Search.missing_msg).
Proof. intros [H|H]; vm_compute in H; discriminate. Qed.

Lemma required_present_iff (df : DataFrame) :
  forallb (has_column df) Search.required_columns = true
  <-> forall c, In c Search.required_columns -> has_column df c = true.
Proof. apply forallb_forall. Qed.

Lemma required_missing_iff (df : DataFrame) :
  forallb (has_column df) Search.required_columns = false
  <-> exists c, In c Search.required_columns /\ has_column df c = false.
Proof.
  split.
  - intros H. destruct (forallb (has_column df) Search.required_columns) eqn:E;
      [discriminate|]. clear H.
    unfold Search.required_columns in *. cbn [forallb] in E.
    destruct (has_column df "message") eqn:E1;
      [|exists "message"; cbn; auto].
    destruct (has_column df "conv_id") eqn:E2;
      [|exists "conv_id"; cbn; auto].
    destruct (has_column df "turn_num") eqn:E3;
      [discriminate|exists "turn_num"; cbn; auto].
  - intros (c & Hin & Hc).
    destruct (forallb (has_column df) Search.required_columns) eqn:E;
      [|reflexivity].
    rewrite forallb_forall in E. rewrite (E c Hin) in Hc. discriminate.
Qed.


(** ** The turns of the chosen group *)

Lemma unique_acc_In (seen l : list cell) (x : cell) :
  In x (unique_acc seen l) -> In x l.
Proof.
  revert seen. induction l as [|c l IH]; intros seen; cbn [unique_acc].
  - intros [].
  - destruct (existsb (cell_same c) seen).
    + intros H. right. eapply IH, H.
    + intros [<-|H]; [now left|right; eapply IH, H].
Qed.

Lemma choice_In (rnd : nat) (l : list cell) (c : cell) :
  choice rnd l = Return c -> In c l.
Proof.
  destruct l as [|x l]; [discriminate|].
  unfold choice. intros H.
  assert (E : c = nth (rnd mod List.length (x :: l)) (x :: l) NA)
    by congruence.
  rewrite E. apply nth_In, Nat.mod_upper_bound. discriminate.
Qed.

Lemma series_eq_cell_value (conv : cell) (rs : list row) :
  boolean_index rs
    (match series_eq (column "conv_id" rs) (cell_value conv) with
     | Return m => m
     | Raise _ => []
     end)
  = filter (in_group conv) rs.
Proof.
  unfold in_group. destruct conv as [|n|s]; cbn [cell_value series_eq].
  - rewrite boolean_index_none. induction rs; [reflexivity|assumption].
  - apply boolean_index_column.
  - apply boolean_index_column.
Qed.

Lemma in_group_iff (conv : cell) (r : row) :
  conv <> NA -> (in_group conv r = true <-> get "conv_id" r = conv).
Proof.
  unfold in_group. intros Hna.
  destruct conv as [|n|s]; [now destruct Hna| |]; cbn [cell_value];
    apply cell_eq_scalar_iff.
Qed.

(** What the search hands back with [return_all] off: the chosen key is the
    key of a surviving row, the turns are the turns of the surviving rows of
    its group, in their order, and there is at least one when the key is not
    missing. *)
Lemma conclude_pair (f : DataFrame) (rnd : nat) (conv : cell)
  (turns : list cell) :
  Search.conclude f false rnd = Return (RPair conv turns) ->
  In conv (column "conv_id" (rows f))
  /\ turns = column "turn_num" (filter (in_group conv) (rows f))
  /\ (conv <> NA -> turns <> []).
Proof.
  unfold Search.conclude. destruct (empty f); [discriminate|].
  destruct (choice rnd (unique (column "conv_id" (rows f))))
    as [c|e] eqn:Ec; cbn [bind]; [|discriminate].
  apply choice_In, unique_acc_In in Ec.
  pose proof (series_eq_cell_value c (rows f)) as Hsel.
  destruct (@series_eq_not_list (column "conv_id" (rows f)) (cell_value c))
    as [m Hm]; [intros l; apply cell_value_not_list|].
  rewrite Hm in Hsel |- *. unfold select. cbn [bind set_rows rows].
  intros H. injection H as <- <-. rewrite Hsel.
  split; [exact Ec|]. split; [reflexivity|].
  intros Hna Hnil.
  apply in_map_iff in Ec as (r & Hr & Hin).
  assert (Hkept : In r (filter (in_group c) (rows f))).
  { apply filter_In. split; [exact Hin|]. now apply in_group_iff. }
  destruct (filter (in_group c) (rows f)); [destruct Hkept|discriminate].
Qed.

(* ================================================================= *)
(** * The claims *)

(** C4.  Filtering never changes the input table: after a call of the sampler
    every frame of the store, the input among them, is what it was before,
    and the call computes what [filter_subset] computes on the input.  The
    rows that come out of the filter loop, of the sampler and of the search,
    are rows of the frame that went in, in the order they had there, under
    the same columns; the loop ends normally on every filter set whose specs
    for numeric columns are numbers, bounds or [None]; and with an empty
    filter set the loop hands back exactly the input table. *)
Theorem filter_is_pure_ordered_subset (h : Store.heap) (df : Store.ref)
  (return_all : bool) (conv_id_colname : string) (rnd : nat)
  (kwargs : list (string * spec)) :
  (df < List.length h)%nat ->
  let table := Store.deref h df in
  (forall p, (p < List.length h)%nat ->
     Store.deref
       (fst (Store.filter_subset h df return_all conv_id_colname rnd kwargs))
       p = Store.deref h p)
  /\ snd (Store.filter_subset h df return_all conv_id_colname rnd kwargs)
     = GetRandom.filter_subset table return_all conv_id_colname rnd kwargs
  /\ (forall f f',
        GetRandom.filter_loop table kwargs f = Return f' ->
        columns f' = columns f /\ sublist (rows f') (rows f)
        /\ forall r, In r (rows f') -> In r (rows f))
  /\ (forall f f',
        snd (Search.filter_loop table kwargs f) = Return f' ->
        columns f' = columns f /\ sublist (rows f') (rows f)
        /\ forall r, In r (rows f') -> In r (rows f))
  /\ (kwargs_ok table kwargs = true ->
      exists f', GetRandom.filter_loop table kwargs table = Return f')
  /\ GetRandom.filter_loop table [] table = Return table
  /\ Search.filter_loop table [] table = ([], Return table).
Proof.
  intros Hdf table.
  destruct (store_filter_subset_refines h return_all conv_id_colname rnd
              kwargs Hdf) as [Hkeep Hres].
  assert (Hloop : forall f f',
             GetRandom.filter_loop table kwargs f = Return f' ->
             columns f' = columns f /\ sublist (rows f') (rows f)
             /\ forall r, In r (rows f') -> In r (rows f)).
  { intros f f' H. apply sampler_loop_inv in H as [Hc Hs].
    repeat split; try assumption.
    intros r. now apply sublist_In. }
  split; [exact Hkeep|]. split; [exact Hres|]. split; [exact Hloop|].
  split; [|split; [|split; reflexivity]].
  - intros f f' H. rewrite search_loop_outcome in H. now apply Hloop.
  - intros Hok. now apply sampler_loop_total.
Qed.

Lemma filter_is_pure_ordered_subset_witness :
  let h := [Examples.chats] in
  let kwargs := [("turns", SpTuple [Some (SInt 5); None]);
                 ("role", SpList [SStr "user"])] in
  Store.deref (fst (Store.filter_subset h 0%nat true "conv_id" 0 kwargs))
    0%nat
  = Examples.chats
  /\ snd (Store.filter_subset h 0%nat true "conv_id" 0 kwargs)
     = Return (RAll [Str "b"])
  /\ exists f',
       GetRandom.filter_loop Examples.chats kwargs Examples.chats = Return f'
       /\ sublist (rows f') (rows Examples.chats).
Proof.
  intros h kwargs.
  assert (Hdf : (0 < List.length h)%nat) by (cbn; lia).
  destruct (@filter_is_pure_ordered_subset h 0%nat true "conv_id" 0%nat
              kwargs Hdf)
    as (Hkeep & Hres & Hloop & _ & Htotal & _).
  split; [apply (Hkeep 0%nat Hdf)|].
  split; [rewrite Hres; reflexivity|].
  destruct (Htotal eq_refl) as [f' Hf'].
  exists f'. split; [exact Hf'|].
  apply (Hloop _ _ Hf').
Defined.

(** C8.  Entries of the filter set that name no column of the table change
    no result: the sampler returns what it returns without them (it has no
    warning to give), and the search ends the way it ends without them.  The
    search warns about such entries only: without them it is silent, every
    warning it gives is the warning of one of them, and a call that returns
    has given exactly one warning for each, in the order of the entries.  An
    unknown column is therefore never the cause of an error. *)
Theorem unknown_columns_are_skipped
  (re_beyond : string -> bool -> option Re.pattern) (df : DataFrame)
  (text : string) (case_sensitive from_start return_all : bool)
  (conv_id_colname : string) (rnd : nat) (kwargs : list (string * spec)) :
  let search := Search.search_text_matches re_beyond df text case_sensitive
                  from_start return_all rnd in
  GetRandom.filter_subset df return_all conv_id_colname rnd kwargs
  = GetRandom.filter_subset df return_all conv_id_colname rnd
      (known df kwargs)
  /\ snd (search kwargs) = snd (search (known df kwargs))
  /\ fst (search (known df kwargs)) = []
  /\ incl (fst (search kwargs))
          (map Search.warning_msg (unknown_keys df kwargs))
  /\ (forall v, snd (search kwargs) = Return v ->
        fst (search kwargs)
        = map Search.warning_msg (unknown_keys df kwargs)).
Proof.
  intros search. subst search. unfold Search.search_text_matches, copy.
  split.
  { unfold GetRandom.filter_subset, copy. now rewrite <- sampler_loop_known. }
  destruct (negb (forallb (has_column df) Search.required_columns)).
  { cbn. repeat split; try reflexivity.
    - intros x [].
    - intros v H. discriminate. }
  destruct (Search.text_stage re_beyond df text case_sensitive from_start)
    as [f|e].
  2:{ cbn. repeat split; try reflexivity.
      - intros x [].
      - intros v H. discriminate. }
  pose proof (search_loop_outcome df kwargs f) as Hall.
  pose proof (search_loop_outcome df (known df kwargs) f) as Hknown.
  pose proof (search_loop_known_silent df kwargs f) as Hsilent.
  pose proof (search_loop_warnings_incl df kwargs f) as Hincl.
  pose proof (search_loop_warnings df kwargs f) as Hwarn.
  rewrite <- sampler_loop_known in Hknown.
  destruct (Search.filter_loop df kwargs f) as [w r].
  destruct (Search.filter_loop df (known df kwargs) f) as [w' r'].
  cbn [fst snd] in *. subst r r' w'.
  repeat split; try assumption.
  intros v H.
  destruct (GetRandom.filter_loop df kwargs f) as [f'|e]; [|discriminate].
  now apply (Hwarn f').
Qed.

Lemma unknown_columns_are_skipped_witness :
  let kwargs := [("bogus", SpScalar (SInt 1)); ("role", SpScalar (SStr "user"));
                 ("nope", SpNone)] in
  fst (Search.search_text_matches Examples.no_re Examples.chats "abc" true
         false false 0 kwargs)
  = [Search.warning_msg "bogus"; Search.warning_msg "nope"].
Proof.
  intros kwargs.
  destruct (unknown_columns_are_skipped Examples.no_re Examples.chats "abc"
              true false false "conv_id" 0 kwargs)
    as (_ & _ & _ & _ & Hwarn).
  apply (Hwarn (RPair (Str "b") [Num 1])).
  reflexivity.
Defined.

(** C5.  On a numeric column the bare value [v] and the range [(v, v)]
    filter alike: one turn of the loop gives the same frame (or the same
    error) for both, so the sampler and the search return the same for two
    filter sets that differ in this entry only, the filter sets [{column: v}]
    and [{column: (v, v)}] among them. *)
Theorem exact_value_is_degenerate_range
  (re_beyond : string -> bool -> option Re.pattern) (df : DataFrame)
  (key : string) (v : option scalar) (text : string)
  (case_sensitive from_start return_all : bool) (conv_id_colname : string)
  (rnd : nat) (pre post : list (string * spec)) :
  lookup key (columns df) = Some Numeric ->
  let exact := pre ++ (key, bare v) :: post in
  let range := pre ++ (key, SpTuple [v; v]) :: post in
  (forall f, apply_spec df key (bare v) f
             = apply_spec df key (SpTuple [v; v]) f)
  /\ (forall f, GetRandom.filter_loop df [(key, bare v)] f
                = GetRandom.filter_loop df [(key, SpTuple [v; v])] f)
  /\ (forall f, GetRandom.filter_loop df exact f
                = GetRandom.filter_loop df range f)
  /\ GetRandom.filter_subset df return_all conv_id_colname rnd exact
     = GetRandom.filter_subset df return_all conv_id_colname rnd range
  /\ Search.search_text_matches re_beyond df text case_sensitive from_start
       return_all rnd exact
     = Search.search_text_matches re_beyond df text case_sensitive from_start
         return_all rnd range.
Proof.
  intros Hnum exact range.
  apply dtype_of_lookup in Hnum as [Hcol Hdt].
  assert (Hturn : forall f, apply_spec df key (bare v) f
                            = apply_spec df key (SpTuple [v; v]) f).
  { intros f. unfold apply_spec. rewrite Hdt. unfold filter_numeric.
    destruct v as [[z|s]|]; reflexivity. }
  split; [exact Hturn|].
  split; [intros f; apply (@sampler_loop_congr df key _ _ Hturn [] [] f)|].
  split; [intros f; now apply sampler_loop_congr|].
  split; [now apply filter_subset_congr|now apply search_congr].
Qed.

Lemma exact_value_is_degenerate_range_witness :
  GetRandom.filter_subset Examples.chats true "conv_id" 0
    [("turns", SpScalar (SInt 10))]
  = Return (RAll [Str "b"])
  /\ GetRandom.filter_subset Examples.chats true "conv_id" 0
       [("turns", SpTuple [Some (SInt 10); Some (SInt 10)])]
     = Return (RAll [Str "b"]).
Proof.
  assert (Hnum : lookup "turns" (columns Examples.chats) = Some Numeric)
    by reflexivity.
  destruct (exact_value_is_degenerate_range Examples.no_re Examples.chats
              "turns" (Some (SInt 10)) "" true false true "conv_id" 0 [] []
              Hnum)
    as (_ & _ & _ & Hsame & _).
  split; [reflexivity|].
  cbn [app] in Hsame. rewrite <- Hsame. reflexivity.
Defined.

(** C3.  With [from_start] on, and a message column of strings, the text
    match keeps exactly the rows whose message begins with the query, every
    character of the query taken literally, in their order; with
    [case_sensitive] off both sides are compared in lower case.  A row whose
    message is missing is not kept.  The query [Hi] keeps the message
    [Hi there] and neither [oh Hi] nor [hi there]; with [case_sensitive] off
    it keeps [hi there] as well. *)
Theorem prefix_match_is_literal
  (re_beyond : string -> bool -> option Re.pattern) (df : DataFrame)
  (text : string) (case_sensitive : bool) :
  lookup "message" (columns df) = Some Object ->
  let kept :=
    filter (fun r => begins_withb case_sensitive text (get "message" r))
           (rows df) in
  Search.text_stage re_beyond df text case_sensitive true
  = Return (set_rows df kept)
  /\ (forall r, In r kept
                <-> In r (rows df)
                    /\ begins_with case_sensitive text (get "message" r))
  /\ (forall r, In r kept -> get "message" r <> NA)
  /\ Search.search_text_matches re_beyond Examples.greetings "Hi" true true
       true 0 []
     = ([], Return (RAll [Str "a"]))
  /\ Search.search_text_matches re_beyond Examples.greetings "Hi" false true
       true 0 []
     = ([], Return (RAll [Str "a"; Str "c"])).
Proof.
  intros Hobj kept. apply dtype_of_lookup in Hobj as [_ Hdt].
  split; [now apply text_stage_from_start|].
  assert (Hkept : forall r, In r kept
                    <-> In r (rows df)
                        /\ begins_with case_sensitive text (get "message" r)).
  { intros r. unfold kept. rewrite filter_In, begins_withb_iff.
    reflexivity. }
  split; [exact Hkept|].
  split; [|split; reflexivity].
  intros r Hr. apply Hkept in Hr as [_ (s & rest & -> & _)]. discriminate.
Qed.

Lemma prefix_match_is_literal_witness :
  Search.text_stage Examples.no_re Examples.chats "no (" true true
  = Return (set_rows Examples.chats [])
  /\ Search.text_stage Examples.no_re Examples.chats "NO M" false true
     = Return (set_rows Examples.chats [Examples.row1]).
Proof.
  assert (Hobj : lookup "message" (columns Examples.chats) = Some Object)
    by reflexivity.
  split.
  - destruct (prefix_match_is_literal Examples.no_re Examples.chats "no ("
                true Hobj) as [Hrun _].
    rewrite Hrun. reflexivity.
  - destruct (prefix_match_is_literal Examples.no_re Examples.chats "NO M"
                false Hobj) as [Hrun _].
    rewrite Hrun. reflexivity.
Defined.

(** C2, at an input on which the code departs from it.  With [from_start]
    off the query is handed to [str.contains] as it is, and [str.contains]
    reads it as a regular expression: the query [a.c] keeps the messages
    [no match] and [abc], neither of which holds [a.c], and the query that
    is one backslash raises [re.error].  The text is matched literally when
    it has no special character (lemma [text_stage_plain]). *)
Theorem substring_match_reads_query_as_pattern
  (re_beyond : string -> bool -> option Re.pattern) :
  Search.text_stage re_beyond Examples.chats "a.c" true false
  = Return (set_rows Examples.chats [Examples.row1; Examples.row2])
  /\ get "message" Examples.row2 = Str "abc"
  /\ ~ holds true "a.c" (get "message" Examples.row2)
  /\ ~ holds true "a.c" (get "message" Examples.row1)
  /\ Search.search_text_matches re_beyond Examples.chats "a.c" true false
       true 0 []
     = ([], Return (RAll [Str "b"]))
  /\ Search.search_text_matches re_beyond Examples.chats "\" true false
       true 0 []
     = ([], Raise ReError).
Proof.
  split; [reflexivity|]. split; [reflexivity|].
  split; [|split; [|split; reflexivity]];
    intros H; apply holdsb_iff in H; discriminate.
Qed.

(** C1, as the code has it.  On a table that lacks one of the columns
    [message], [conv_id], [turn_num] the search raises a [ValueError] (the
    SchemaError of the specification), gives no warning and raises nothing
    else, whatever the other arguments are; the message of the error is the
    same for every such table and names all three required columns, those
    that the table has among them.  On a table that has the three columns
    this error is not raised. *)
Theorem missing_columns_raise_value_error
  (re_beyond : string -> bool -> option Re.pattern) (df : DataFrame)
  (text : string) (case_sensitive from_start return_all : bool) (rnd : nat)
  (kwargs : list (string * spec)) :
  let search := Search.search_text_matches re_beyond df text case_sensitive
                  from_start return_all rnd kwargs in
  ((exists c, In c Search.required_columns /\ has_column df c = false) ->
   search = ([], Raise (ValueError Search.missing_msg)))
  /\ (forall c, In c Search.required_columns ->
        mentions Search.missing_msg c = true)
  /\ ((forall c, In c Search.required_columns -> has_column df c = true) ->
      snd search <> Raise (ValueError Search.missing_msg)).
Proof.
  intros search. split; [|split].
  - intros H. apply required_missing_iff in H.
    unfold search, Search.search_text_matches. now rewrite H.
  - intros c [<-|[<-|[<-|[]]]]; reflexivity.
  - intros H Hraise. apply required_present_iff in H.
    apply (@search_raise_present _ _ _ _ _ _ _ _ _ H) in Hraise.
    destruct Hraise as [Hr|[Hr|Hr]]; try discriminate.
    now apply missing_msg_not_comparison.
Qed.

Lemma missing_columns_raise_value_error_witness :
  Search.search_text_matches Examples.no_re Examples.no_turn_num "hello" true
    false false 0 [("bogus", SpNone)]
  = ([], Raise (ValueError Search.missing_msg))
  /\ snd (Search.search_text_matches Examples.no_re Examples.chats "hello"
            true false false 0 [])
     <> Raise (ValueError Search.missing_msg).
Proof.
  split.
  - apply (missing_columns_raise_value_error Examples.no_re
             Examples.no_turn_num "hello" true false false 0
             [("bogus", SpNone)]).
    exists "turn_num". split; [cbn; auto|reflexivity].
  - apply (missing_columns_raise_value_error Examples.no_re Examples.chats
             "hello" true false false 0 []).
    intros c [<-|[<-|[<-|[]]]]; reflexivity.
Defined.

(** C1 as it is written fails: the table [no_turn_num] lacks [turn_num]
    only, and the error names [message] and [conv_id] as well, so the names
    in the error are not exactly the names of the missing columns. *)
Lemma missing_columns_not_listed_exactly :
  Search.search_text_matches Examples.no_re Examples.no_turn_num "hello" true
    false false 0 []
  = ([], Raise (ValueError Search.missing_msg))
  /\ has_column Examples.no_turn_num "message" = true
  /\ mentions Search.missing_msg "message" = true
  /\ ~ (forall c, In c Search.required_columns ->
          (mentions Search.missing_msg c = true
           <-> has_column Examples.no_turn_num c = false)).
Proof.
  split; [reflexivity|]. split; [reflexivity|]. split; [reflexivity|].
  intros H. specialize (H "message" (or_introl eq_refl)).
  destruct H as [H _]. specialize (H eq_refl). discriminate.
Qed.

(** C10, at an input on which the code departs from it.  The one message of
    the table [orphan] has no group key.  It matches the query, [unique]
    lists the missing key, [random.choice] can only choose it, and the
    comparison of the group key column with a missing value holds at no row:
    the search hands back the missing key with an empty list of turns,
    whatever is drawn.  (For a key that is not missing the list has an
    element: lemma [conclude_pair].) *)
Theorem missing_group_key_has_no_turns
  (re_beyond : string -> bool -> option Re.pattern) (rnd : nat) :
  Search.search_text_matches re_beyond Examples.orphan "hi" true false false
    rnd []
  = ([], Return (RPair NA []))
  /\ Search.text_stage re_beyond Examples.orphan "hi" true false
     = Return Examples.orphan
  /\ map (get "turn_num") (rows Examples.orphan) = [Num 0].
Proof.
  split; [|split; reflexivity].
  unfold Search.search_text_matches, copy.
  replace (negb (forallb (has_column Examples.orphan)
                   Search.required_columns)) with false by reflexivity.
  replace (Search.text_stage re_beyond Examples.orphan "hi" true false)
    with (Return Examples.orphan) by reflexivity.
  cbn [Search.filter_loop bind]. unfold Search.conclude.
  replace (empty Examples.orphan) with false by reflexivity.
  replace (unique (column "conv_id" (rows Examples.orphan))) with [NA]
    by reflexivity.
  cbn [choice List.length]. rewrite Nat.mod_1_r. reflexivity.
Qed.

(* ================================================================= *)
(** * Further properties of the filter, the sampler and the search *)

Lemma filter_filter {A : Type} (p q : A -> bool) (l : list A) :
  filter p (filter q l) = filter (fun x => q x && p x) l.
Proof.
  induction l as [|x l IH]; [reflexivity|].
  cbn [filter]. destruct (q x); cbn [filter andb]; now rewrite IH.
Qed.

Lemma filter_true {A : Type} (l : list A) : filter (fun _ => true) l = l.
Proof. induction l as [|x l IH]; [reflexivity|cbn; now rewrite IH]. Qed.

Lemma filter_false {A : Type} (l : list A) : filter (fun _ => false) l = [].
Proof. induction l as [|x l IH]; [reflexivity|exact IH]. Qed.

Lemma set_rows_same (f : DataFrame) : Filter.set_rows f (rows f) = f.
Proof. now destruct f. Qed.

Lemma select_map (f : DataFrame) (key : string) (p : cell -> bool) :
  Filter.select f (Return (map p (column key (rows f))))
  = Return (Filter.set_rows f (filter (fun r => p (get key r)) (rows f))).
Proof. unfold Filter.select. cbn [bind]. now rewrite boolean_index_column. Qed.

(** The numeric branch on a range of numbers. *)
Lemma filter_numeric_range (key : string) (lo hi : option Z) (f : DataFrame) :
  Filter.filter_numeric key (SpTuple [bound lo; bound hi]) f
  = Return (Filter.set_rows f
      (filter (fun r => within lo hi (get key r)) (rows f))).
Proof.
  unfold Filter.filter_numeric.
  destruct lo as [l|], hi as [h|]; cbn [bound option_map Filter.parse_range
    Filter.elem Filter.is_none negb andb Filter.py_eq scalar_eq].
  - destruct (Z.eqb l h) eqn:E.
    + apply Z.eqb_eq in E. subst h. cbn [series_eq].
      rewrite select_map. do 2 f_equal. apply filter_ext. intros r.
      unfold within, cell_eq_scalar. destruct (get key r) as [|n|s];
        try reflexivity.
      destruct (Z.eqb_spec n l) as [->|Hne].
      * now rewrite Z.leb_refl.
      * symmetry. apply andb_false_iff.
        destruct (Z.leb_spec l n), (Z.leb_spec n l); auto. lia.
    + unfold series_ge, series_le. cbn [series_cmp].
      rewrite select_map. cbn [bind Filter.set_rows rows].
      unfold Filter.select, column. cbn [series_cmp bind].
      rewrite boolean_index_map, filter_filter.
      unfold Filter.set_rows. cbn [columns]. do 2 f_equal.
      apply filter_ext. intros r. unfold within, cell_ge, cell_le.
      destruct (get key r); reflexivity.
  - unfold series_ge. cbn [series_cmp]. rewrite select_map. cbn [bind].
    do 2 f_equal. apply filter_ext. intros r. unfold within, cell_ge.
    destruct (get key r); try reflexivity. now rewrite andb_true_r.
  - unfold series_le. cbn [series_cmp bind]. rewrite select_map.
    reflexivity.
  - cbn [bind]. rewrite filter_true; try rewrite set_rows_same; reflexivity.
Qed.

Lemma within_iff (lo hi : option Z) (c : cell) :
  within lo hi c = true
  <-> (lo = None /\ hi = None)
      \/ exists n, c = Num n
           /\ (forall l, lo = Some l -> l <= n)
           /\ (forall h, hi = Some h -> n <= h).
Proof.
  unfold within. split.
  - destruct lo as [l|], hi as [h|]; try (intros _; now left);
      (destruct c as [|n|s]; [discriminate| |discriminate]);
      intros H; apply andb_true_iff in H as [H1 H2]; right; exists n;
      (split; [reflexivity|]); split; intros x Hx; try discriminate;
      injection Hx as <-; now apply Z.leb_le.
  - intros [[-> ->]|(n & -> & Hlo & Hhi)]; [reflexivity|].
    destruct lo as [l|], hi as [h|]; try reflexivity;
      apply andb_true_iff; split; try reflexivity; apply Z.leb_le; auto.
Qed.

(** X1.  On a numeric column a range [(lo, hi)] of numbers, either of which
    may be [None], keeps exactly the rows whose value is a number with
    [lo <= value <= hi], both ends included and an absent bound not tested,
    in their order; a row with a missing value is dropped as soon as one
    bound is given.  The range with [lo = hi] keeps the rows with that very
    value, and a range with [lo > hi] keeps none. *)
Theorem numeric_range_is_inclusive (df : DataFrame) (key : string)
  (lo hi : option Z) (f : DataFrame) :
  lookup key (columns df) = Some Numeric ->
  let kept := filter (fun r => within lo hi (get key r)) (rows f) in
  GetRandom.filter_loop df [(key, SpTuple [bound lo; bound hi])] f
  = Return (Filter.set_rows f kept)
  /\ snd (Search.filter_loop df [(key, SpTuple [bound lo; bound hi])] f)
     = Return (Filter.set_rows f kept)
  /\ (forall r, In r kept
                <-> In r (rows f)
                    /\ ((lo = None /\ hi = None)
                        \/ exists n, get key r = Num n
                             /\ (forall l, lo = Some l -> l <= n)
                             /\ (forall h, hi = Some h -> n <= h)))
  /\ (forall l h, lo = Some l -> hi = Some h -> h < l -> kept = []).
Proof.
  intros Hnum kept. apply dtype_of_lookup in Hnum as [Hcol Hdt].
  assert (Hrun : GetRandom.filter_loop df
                   [(key, SpTuple [bound lo; bound hi])] f
                 = Return (Filter.set_rows f kept)).
  { rewrite sampler_loop_single by exact Hcol.
    unfold Filter.apply_spec. rewrite Hdt. apply filter_numeric_range. }
  split; [exact Hrun|]. split; [now rewrite search_loop_outcome|].
  split.
  - intros r. unfold kept. rewrite filter_In, within_iff. reflexivity.
  - intros l h -> -> Hlt. unfold kept.
    rewrite <- (filter_false (rows f)). apply filter_ext. intros r.
    unfold within. destruct (get key r) as [|n|s]; try reflexivity.
    apply andb_false_iff.
    destruct (Z.leb_spec l n), (Z.leb_spec n h); auto. lia.
Qed.

Lemma numeric_range_is_inclusive_witness :
  GetRandom.filter_loop Examples.chats
    [("turns", SpTuple [Some (SInt 2); Some (SInt 5)])] Examples.chats
  = Return (Filter.set_rows Examples.chats [Examples.row0])
  /\ GetRandom.filter_loop Examples.chats
       [("turns", SpTuple [None; Some (SInt 3)])] Examples.chats
     = Return (Filter.set_rows Examples.chats [Examples.row0; Examples.row3]).
Proof.
  assert (Hnum : lookup "turns" (columns Examples.chats) = Some Numeric)
    by reflexivity.
  split.
  - destruct (@numeric_range_is_inclusive Examples.chats "turns" (Some 2)
                (Some 5) Examples.chats Hnum) as [Hrun _].
    cbn [bound option_map] in Hrun. rewrite Hrun. reflexivity.
  - destruct (@numeric_range_is_inclusive Examples.chats "turns" None
                (Some 3) Examples.chats Hnum) as [Hrun _].
    cbn [bound option_map] in Hrun. rewrite Hrun. reflexivity.
Defined.

(** ** Filtering row by row *)

Lemma bound_ok_bound (a : option scalar) :
  bound_ok a = true -> exists lo, a = bound lo.
Proof.
  destruct a as [[z|s]|]; cbn; intros H; try discriminate.
  - now exists (Some z).
  - now exists None.
Qed.

Lemma filter_numeric_parse (key : string) (v w : spec) (f : DataFrame) :
  Filter.parse_range v = Filter.parse_range w ->
  Filter.filter_numeric key v f = Filter.filter_numeric key w f.
Proof. unfold Filter.filter_numeric. now intros ->. Qed.

(** A spec that raises nothing filters by a test on the value of the row. *)
Lemma apply_spec_pointwise (df : DataFrame) (key : string) (value : spec) :
  entry_ok df (key, value) = true ->
  exists p : cell -> bool,
    forall f, Filter.apply_spec df key value f
              = Return (Filter.set_rows f
                  (filter (fun r => p (get key r)) (rows f))).
Proof.
  unfold entry_ok, Filter.apply_spec, dtype_of. cbn [fst snd].
  destruct (lookup key (columns df)) as [[]|].
  - (* numeric *)
    destruct value as [|v|t|l]; cbn [numeric_spec_ok]; intros H.
    + exists (fun _ => true). intros f. cbn.
      now rewrite filter_true, set_rows_same.
    + exists (cell_eq_scalar v). intros f.
      unfold Filter.filter_numeric.
      replace (Filter.parse_range (SpScalar v))
        with (SpScalar v, SpScalar v) by (destruct v; reflexivity).
      cbn [Filter.is_none negb andb Filter.py_eq].
      rewrite scalar_eq_refl. cbn [series_eq]. apply select_map.
    + assert (Hr : exists lo hi,
                 Filter.parse_range (SpTuple t)
                 = Filter.parse_range (SpTuple [bound lo; bound hi])).
      { destruct t as [|a [|b t]].
        - now exists None, None.
        - cbn [firstn forallb] in H. rewrite andb_true_r in H.
          destruct (bound_ok_bound a H) as [lo ->]. now exists lo, None.
        - cbn [firstn forallb] in H.
          apply andb_true_iff in H as [Ha H].
          apply andb_true_iff in H as [Hb _].
          destruct (bound_ok_bound a Ha) as [lo ->].
          destruct (bound_ok_bound b Hb) as [hi ->].
          now exists lo, hi. }
      destruct Hr as (lo & hi & Hr).
      exists (within lo hi). intros f.
      rewrite (filter_numeric_parse key _ _ f Hr).
      apply filter_numeric_range.
    + discriminate.
  - (* object *)
    intros _. destruct value as [|v|t|l]; cbn [Filter.filter_object series_eq].
    + exists (fun _ => false). intros f. apply select_map.
    + exists (cell_eq_scalar v). intros f. apply select_map.
    + exists (fun _ => false). intros f. apply select_map.
    + exists (fun c => existsb (fun s => cell_eq_scalar s c) l). intros f.
      unfold isin. now rewrite boolean_index_column.
  - (* no such column: the dtype defaults to object *)
    intros _. destruct value as [|v|t|l]; cbn [Filter.filter_object series_eq].
    + exists (fun _ => false). intros f. apply select_map.
    + exists (cell_eq_scalar v). intros f. apply select_map.
    + exists (fun _ => false). intros f. apply select_map.
    + exists (fun c => existsb (fun s => cell_eq_scalar s c) l). intros f.
      unfold isin. now rewrite boolean_index_column.
Qed.

Lemma apply_spec_keeps (df : DataFrame) (key : string) (value : spec)
  (f : DataFrame) :
  has_column df key = true -> entry_ok df (key, value) = true ->
  Filter.apply_spec df key value f
  = Return (Filter.set_rows f (filter (keeps df (key, value)) (rows f))).
Proof.
  intros Hcol Hok. destruct (apply_spec_pointwise df key value Hok) as [p Hp].
  rewrite Hp. do 2 f_equal. apply filter_ext. intros r.
  unfold keeps. cbn [fst snd]. rewrite Hcol, Hp. cbn [rows filter Filter.set_rows].
  destruct (p (get key r)); reflexivity.
Qed.

Lemma set_rows_set_rows (f : DataFrame) (a b : list row) :
  Filter.set_rows (Filter.set_rows f a) b = Filter.set_rows f b.
Proof. reflexivity. Qed.

Lemma sampler_loop_rowwise (df : DataFrame) (kwargs : list (string * spec))
  (f : DataFrame) :
  kwargs_ok df kwargs = true ->
  GetRandom.filter_loop df kwargs f
  = Return (Filter.set_rows f (filter (keeps_all df kwargs) (rows f))).
Proof.
  unfold kwargs_ok, keeps_all. revert f.
  induction kwargs as [|[key value] rest IH]; intros f Hok.
  - cbn [GetRandom.filter_loop forallb]. now rewrite filter_true, set_rows_same.
  - cbn [forallb] in Hok |- *. apply andb_true_iff in Hok as [Hkv Hrest].
    cbn [GetRandom.filter_loop].
    destruct (has_column df key) eqn:Hcol; cbn [negb].
    + rewrite (apply_spec_keeps df key value f Hcol Hkv). cbn [bind].
      rewrite (IH _ Hrest). cbn [rows Filter.set_rows columns].
      now rewrite filter_filter.
    + rewrite (IH _ Hrest). do 2 f_equal. apply filter_ext. intros r.
      unfold keeps at 2. cbn [fst]. now rewrite Hcol.
Qed.

(** X2.  A filter set whose specs for numeric columns are [None], scalars or
    tuples of numbers and [None]s decides on every row by itself: the loop,
    of the sampler and of the search, keeps a row exactly when each entry
    alone, run on the frame that holds this row only, keeps it.  A row's fate
    does not depend on the other rows. *)
Theorem filter_decides_row_by_row (df : DataFrame)
  (kwargs : list (string * spec)) (f : DataFrame) :
  kwargs_ok df kwargs = true ->
  let kept := filter (keeps_all df kwargs) (rows f) in
  GetRandom.filter_loop df kwargs f = Return (Filter.set_rows f kept)
  /\ snd (Search.filter_loop df kwargs f) = Return (Filter.set_rows f kept)
  /\ forall r, In r kept
               <-> In r (rows f)
                   /\ forall kv, In kv kwargs -> keeps df kv r = true.
Proof.
  intros Hok kept.
  pose proof (sampler_loop_rowwise df kwargs f Hok) as Hrun.
  split; [exact Hrun|]. split; [now rewrite search_loop_outcome|].
  intros r. unfold kept, keeps_all. rewrite filter_In, forallb_forall.
  reflexivity.
Qed.

Lemma filter_decides_row_by_row_witness :
  let kwargs := [("turns", SpTuple [Some (SInt 5)]);
                 ("role", SpScalar (SStr "user")); ("bogus", SpList [])] in
  GetRandom.filter_loop Examples.chats kwargs Examples.chats
  = Return (Filter.set_rows Examples.chats [Examples.row2])
  /\ keeps_all Examples.chats kwargs Examples.row2 = true
  /\ keeps_all Examples.chats kwargs Examples.row1 = false.
Proof.
  intros kwargs.
  destruct (@filter_decides_row_by_row Examples.chats kwargs Examples.chats
              eq_refl) as (Hrun & _ & _).
  split; [rewrite Hrun; reflexivity|]. split; reflexivity.
Defined.

(** ** The order of the entries *)

Lemma forallb_permutation {A : Type} (p : A -> bool) (l m : list A) :
  Permutation l m -> forallb p l = forallb p m.
Proof.
  induction 1 as [|x l m _ IH|x y l|l m n _ IH1 _ IH2]; cbn [forallb].
  - reflexivity.
  - now rewrite IH.
  - destruct (p x), (p y); reflexivity.
  - now rewrite IH1.
Qed.

Lemma filter_permutation {A : Type} (p : A -> bool) (l m : list A) :
  Permutation l m -> Permutation (filter p l) (filter p m).
Proof.
  induction 1 as [|x l m _ IH|x y l|l m n _ IH1 _ IH2]; cbn [filter].
  - constructor.
  - destruct (p x); [now constructor|assumption].
  - destruct (p x), (p y); try apply Permutation_refl. constructor.
  - eapply Permutation_trans; eassumption.
Qed.

Lemma search_warnings_returned
  (re_beyond : string -> bool -> option Re.pattern) (df : DataFrame)
  (text : string) (case_sensitive from_start return_all : bool) (rnd : nat)
  (kwargs : list (string * spec)) (v : result) :
  snd (Search.search_text_matches re_beyond df text case_sensitive from_start
         return_all rnd kwargs) = Return v ->
  fst (Search.search_text_matches re_beyond df text case_sensitive from_start
         return_all rnd kwargs)
  = map Search.warning_msg (unknown_keys df kwargs).
Proof.
  unfold Search.search_text_matches.
  destruct (negb (forallb (has_column df) Search.required_columns));
    [discriminate|].
  destruct (Search.text_stage re_beyond (copy df) text case_sensitive
              from_start) as [f0|e]; [|discriminate].
  pose proof (search_loop_warnings df kwargs f0) as Hw.
  destruct (Search.filter_loop df kwargs f0) as [w [f|e]]; cbn [fst snd bind] in *.
  - intros _. now apply (Hw f).
  - discriminate.
Qed.

(** X3.  For such a filter set the order of the entries does not matter: on
    the same entries in another order the sampler returns the same, and the
    search ends the same way; the warnings of a search that returns are the
    same warnings, up to their order. *)
Theorem entry_order_is_irrelevant
  (re_beyond : string -> bool -> option Re.pattern) (df : DataFrame)
  (text : string) (case_sensitive from_start return_all : bool)
  (conv_id_colname : string) (rnd : nat)
  (kwargs kwargs' : list (string * spec)) :
  Permutation kwargs kwargs' ->
  kwargs_ok df kwargs = true ->
  let search := Search.search_text_matches re_beyond df text case_sensitive
                  from_start return_all rnd in
  (forall f, GetRandom.filter_loop df kwargs f
             = GetRandom.filter_loop df kwargs' f)
  /\ GetRandom.filter_subset df return_all conv_id_colname rnd kwargs
     = GetRandom.filter_subset df return_all conv_id_colname rnd kwargs'
  /\ snd (search kwargs) = snd (search kwargs')
  /\ (forall v, snd (search kwargs) = Return v ->
        Permutation (fst (search kwargs)) (fst (search kwargs'))).
Proof.
  intros Hperm Hok search.
  assert (Hok' : kwargs_ok df kwargs' = true).
  { unfold kwargs_ok in *. now rewrite <- (forallb_permutation _ Hperm). }
  assert (Hloop : forall f, GetRandom.filter_loop df kwargs f
                            = GetRandom.filter_loop df kwargs' f).
  { intros f. rewrite !sampler_loop_rowwise by assumption.
    do 2 f_equal. apply filter_ext. intros r.
    apply forallb_permutation, Hperm. }
  split; [exact Hloop|].
  split; [unfold GetRandom.filter_subset; now rewrite Hloop|].
  assert (Hsnd : snd (search kwargs) = snd (search kwargs')).
  { unfold search, Search.search_text_matches.
    destruct (negb (forallb (has_column df) Search.required_columns));
      [reflexivity|].
    destruct (Search.text_stage re_beyond (copy df) text case_sensitive
                from_start) as [f0|e]; [|reflexivity].
    pose proof (search_loop_outcome df kwargs f0) as H1.
    pose proof (search_loop_outcome df kwargs' f0) as H2.
    rewrite Hloop in H1.
    destruct (Search.filter_loop df kwargs f0) as [w r].
    destruct (Search.filter_loop df kwargs' f0) as [w' r'].
    cbn [snd] in *. congruence. }
  split; [exact Hsnd|].
  intros v Hv.
  unfold search.
  rewrite (@search_warnings_returned re_beyond df text case_sensitive
             from_start return_all rnd kwargs v Hv).
  rewrite (@search_warnings_returned re_beyond df text case_sensitive
             from_start return_all rnd kwargs' v)
    by (fold search; now rewrite <- Hsnd).
  unfold unknown_keys. apply Permutation_map, Permutation_map.
  now apply filter_permutation.
Qed.

Lemma entry_order_is_irrelevant_witness :
  GetRandom.filter_subset Examples.chats true "conv_id" 0
    [("role", SpScalar (SStr "user")); ("turns", SpTuple [Some (SInt 5)])]
  = Return (RAll [Str "b"])
  /\ GetRandom.filter_subset Examples.chats true "conv_id" 0
       [("turns", SpTuple [Some (SInt 5)]); ("role", SpScalar (SStr "user"))]
     = Return (RAll [Str "b"]).
Proof.
  assert (Hperm : Permutation
            [("role", SpScalar (SStr "user"));
             ("turns", SpTuple [Some (SInt 5)])]
            [("turns", SpTuple [Some (SInt 5)]);
             ("role", SpScalar (SStr "user"))])
    by apply perm_swap.
  destruct (@entry_order_is_irrelevant Examples.no_re Examples.chats "" true
              false true "conv_id" 0 _ _ Hperm eq_refl)
    as (_ & Hsame & _).
  split; [reflexivity|]. rewrite <- Hsame. reflexivity.
Defined.

(** ** Filtering again, and filtering in two passes *)

Lemma apply_spec_columns (d1 d2 : DataFrame) (key : string) (value : spec)
  (f : DataFrame) :
  columns d1 = columns d2 ->
  Filter.apply_spec d1 key value f = Filter.apply_spec d2 key value f.
Proof. unfold Filter.apply_spec, dtype_of. now intros ->. Qed.

Lemma sampler_loop_columns (d1 d2 : DataFrame)
  (kwargs : list (string * spec)) (f : DataFrame) :
  columns d1 = columns d2 ->
  GetRandom.filter_loop d1 kwargs f = GetRandom.filter_loop d2 kwargs f.
Proof.
  intros Hc. revert f.
  induction kwargs as [|[key value] rest IH]; intros f; [reflexivity|].
  cbn [GetRandom.filter_loop].
  rewrite (@has_column_same d1 d2 key Hc).
  rewrite (apply_spec_columns d1 d2 key value f Hc).
  destruct (negb (has_column d2 key)); [apply IH|].
  destruct (Filter.apply_spec d2 key value f); cbn [bind];
    [apply IH|reflexivity].
Qed.

Lemma sampler_loop_app (df : DataFrame) (k1 k2 : list (string * spec))
  (f : DataFrame) :
  GetRandom.filter_loop df (k1 ++ k2) f
  = (g <- GetRandom.filter_loop df k1 f ;; GetRandom.filter_loop df k2 g).
Proof.
  revert f. induction k1 as [|[key value] k1 IH]; intros f; [reflexivity|].
  cbn [app GetRandom.filter_loop].
  destruct (negb (has_column df key)); [apply IH|].
  destruct (Filter.apply_spec df key value f); cbn [bind];
    [apply IH|reflexivity].
Qed.

(** X4.  Two filter sets given at once filter as two passes do: the loop over
    the entries of both is the loop over the second run on what the loop
    over the first hands back, errors included, and the sampler called with
    both returns what it returns when it is called with the second on the
    table the first has filtered. *)
Theorem filtering_in_two_passes (df : DataFrame) (return_all : bool)
  (conv_id_colname : string) (rnd : nat) (k1 k2 : list (string * spec)) :
  (forall f,
      GetRandom.filter_loop df (k1 ++ k2) f
      = (g <- GetRandom.filter_loop df k1 f ;; GetRandom.filter_loop df k2 g))
  /\ (forall f,
        snd (Search.filter_loop df (k1 ++ k2) f)
        = (g <- snd (Search.filter_loop df k1 f) ;;
           snd (Search.filter_loop df k2 g)))
  /\ GetRandom.filter_subset df return_all conv_id_colname rnd (k1 ++ k2)
     = (g <- GetRandom.filter_loop df k1 df ;;
        GetRandom.filter_subset g return_all conv_id_colname rnd k2).
Proof.
  split; [intros f; apply sampler_loop_app|].
  split.
  - intros f. rewrite !search_loop_outcome, sampler_loop_app.
    destruct (GetRandom.filter_loop df k1 f); cbn [bind];
      [now rewrite search_loop_outcome|reflexivity].
  - unfold GetRandom.filter_subset, copy. rewrite sampler_loop_app.
    destruct (GetRandom.filter_loop df k1 df) as [g|e] eqn:E; cbn [bind];
      [|reflexivity].
    apply sampler_loop_inv in E as [Hc _].
    now rewrite (sampler_loop_columns g df k2 g Hc).
Qed.

(** X5.  Filtering is idempotent on such filter sets: the loop run again on
    what it has handed back hands back the same frame, and the sampler
    called on the filtered table with the same filter set returns what it
    returned on the table itself. *)
Theorem filtering_twice_is_filtering_once (df : DataFrame)
  (return_all : bool) (conv_id_colname : string) (rnd : nat)
  (kwargs : list (string * spec)) (g : DataFrame) :
  kwargs_ok df kwargs = true ->
  GetRandom.filter_loop df kwargs df = Return g ->
  GetRandom.filter_loop df kwargs g = Return g
  /\ GetRandom.filter_subset g return_all conv_id_colname rnd kwargs
     = GetRandom.filter_subset df return_all conv_id_colname rnd kwargs.
Proof.
  intros Hok Hrun.
  assert (Hagain : GetRandom.filter_loop df kwargs g = Return g).
  { rewrite sampler_loop_rowwise in Hrun by exact Hok.
    injection Hrun as Hg. subst g.
    rewrite sampler_loop_rowwise by exact Hok.
    unfold Filter.set_rows. cbn [rows columns].
    rewrite filter_filter. f_equal. f_equal. apply filter_ext. intros r.
    apply andb_diag. }
  split; [exact Hagain|].
  unfold GetRandom.filter_subset, copy. rewrite Hrun.
  pose proof Hrun as Hinv. apply sampler_loop_inv in Hinv as [Hc _].
  now rewrite (sampler_loop_columns g df kwargs g Hc), Hagain.
Qed.

Lemma filtering_twice_is_filtering_once_witness :
  let kwargs := [("turns", SpScalar (SInt 10)); ("role", SpList [SStr "user"])]
  in
  GetRandom.filter_loop Examples.chats kwargs
    (Filter.set_rows Examples.chats [Examples.row2])
  = Return (Filter.set_rows Examples.chats [Examples.row2])
  /\ GetRandom.filter_subset (Filter.set_rows Examples.chats [Examples.row2])
       true "conv_id" 0 kwargs
     = Return (RAll [Str "b"]).
Proof.
  intros kwargs.
  destruct (@filtering_twice_is_filtering_once Examples.chats true "conv_id"
              0%nat kwargs (Filter.set_rows Examples.chats [Examples.row2])
              eq_refl eq_refl) as [Hagain Hsame].
  split; [exact Hagain|]. rewrite Hsame. reflexivity.
Defined.

(** ** The group keys handed back *)

Lemma cell_same_iff (a b : cell) : cell_same a b = true <-> a = b.
Proof.
  destruct a as [|x|x], b as [|y|y]; cbn; split; try discriminate;
    try reflexivity.
  - intros H. apply Z.eqb_eq in H. now subst.
  - intros H. injection H as ->. apply Z.eqb_refl.
  - intros H. apply String.eqb_eq in H. now subst.
  - intros H. injection H as ->. apply String.eqb_refl.
Qed.

Lemma seen_iff (c : cell) (seen : list cell) :
  existsb (cell_same c) seen = true <-> In c seen.
Proof.
  rewrite existsb_exists. split.
  - intros (x & Hx & Hs). apply cell_same_iff in Hs. now subst.
  - intros H. exists c. split; [exact H|now apply cell_same_iff].
Qed.

Lemma unique_acc_spec (l seen : list cell) :
  NoDup (unique_acc seen l)
  /\ forall x, In x (unique_acc seen l) <-> In x l /\ ~ In x seen.
Proof.
  revert seen. induction l as [|c l IH]; intros seen; cbn [unique_acc].
  - split; [constructor|]. intros x. cbn. tauto.
  - destruct (existsb (cell_same c) seen) eqn:E.
    + apply seen_iff in E. destruct (IH seen) as [Hnd Hin].
      split; [exact Hnd|]. intros x. rewrite Hin. cbn [In].
      split; [tauto|]. intros [[<-|H] Hs]; tauto.
    + assert (Hc : ~ In c seen).
      { intros H. apply seen_iff in H. congruence. }
      destruct (IH (c :: seen)) as [Hnd Hin].
      split.
      * constructor; [|exact Hnd]. rewrite Hin. cbn [In]. tauto.
      * intros x. cbn [In]. rewrite Hin. cbn [In].
        split.
        -- intros [<-|[H Hs]]; tauto.
        -- intros [[<-|H] Hs]; [now left|].
           destruct (cell_same c x) eqn:Ecx.
           ++ apply cell_same_iff in Ecx. now left.
           ++ right. split; [exact H|]. intros [->|Hx]; [|tauto].
              assert (cell_same x x = true) by now apply cell_same_iff.
              congruence.
Qed.

Lemma unique_spec (l : list cell) :
  NoDup (unique l) /\ forall x, In x (unique l) <-> In x l.
Proof.
  destruct (unique_acc_spec l []) as [Hnd Hin].
  split; [exact Hnd|]. intros x. unfold unique. rewrite Hin. cbn. tauto.
Qed.

(** X6.  With [return_all] on, what the sampler and the search hand back is
    [None] or a list of group keys that is not empty, holds no key twice and
    holds exactly the keys of the rows that the filters have left. *)
Theorem all_group_keys_once
  (re_beyond : string -> bool -> option Re.pattern) (df : DataFrame)
  (text : string) (case_sensitive from_start : bool)
  (conv_id_colname : string) (rnd : nat) (kwargs : list (string * spec))
  (v : result) :
  (GetRandom.filter_subset df true conv_id_colname rnd kwargs = Return v ->
   exists g, GetRandom.filter_loop df kwargs df = Return g
     /\ ((v = RNone /\ empty g = true)
         \/ exists l, v = RAll l /\ l <> [] /\ NoDup l
              /\ forall c, In c l
                           <-> exists r, In r (rows g)
                                         /\ get conv_id_colname r = c))
  /\ (snd (Search.search_text_matches re_beyond df text case_sensitive
             from_start true rnd kwargs) = Return v ->
      exists f0 g,
        Search.text_stage re_beyond df text case_sensitive from_start
        = Return f0
        /\ GetRandom.filter_loop df kwargs f0 = Return g
        /\ ((v = RNone /\ empty g = true)
            \/ exists l, v = RAll l /\ l <> [] /\ NoDup l
                 /\ forall c, In c l
                              <-> exists r, In r (rows g)
                                            /\ get "conv_id" r = c)).
Proof.
  assert (Hkeys : forall (g : DataFrame) (key : string),
             empty g = false ->
             let l := unique (column key (rows g)) in
             l <> [] /\ NoDup l
             /\ forall c, In c l
                          <-> exists r, In r (rows g) /\ get key r = c).
  { intros g key Hne l. destruct (unique_spec (column key (rows g)))
      as [Hnd Hin].
    destruct (empty_false_rows g Hne) as (r & rs & Hrows).
    split.
    - unfold l. rewrite Hrows. cbn [column map]. rewrite unique_nonempty.
      discriminate.
    - split; [exact Hnd|]. intros c. unfold l. rewrite Hin.
      unfold column. rewrite in_map_iff. split.
      + intros (x & Hx & Hi). now exists x.
      + intros (x & Hi & Hx). now exists x. }
  split.
  - unfold GetRandom.filter_subset, copy.
    destruct (GetRandom.filter_loop df kwargs df) as [g|e]; cbn [bind];
      [|discriminate].
    intros H. exists g. split; [reflexivity|].
    destruct (empty g) eqn:E.
    + left. injection H as <-. now split.
    + right. unfold GetRandom.unique_convs in H.
      destruct (has_column g conv_id_colname); cbn [bind] in H;
        [|discriminate].
      injection H as <-. eexists. split; [reflexivity|]. now apply Hkeys.
  - unfold Search.search_text_matches, copy.
    destruct (negb (forallb (has_column df) Search.required_columns));
      [discriminate|].
    destruct (Search.text_stage re_beyond df text case_sensitive from_start)
      as [f0|e]; [|discriminate].
    pose proof (search_loop_outcome df kwargs f0) as Hout.
    destruct (Search.filter_loop df kwargs f0) as [w r]. cbn [snd] in *.
    subst r.
    destruct (GetRandom.filter_loop df kwargs f0) as [g|e] eqn:Eg;
      cbn [bind]; [|discriminate].
    intros H. exists f0, g. split; [reflexivity|]. split; [exact Eg|].
    unfold Search.conclude in H. destruct (empty g) eqn:E.
    + left. injection H as <-. now split.
    + right. injection H as <-. eexists. split; [reflexivity|].
      now apply Hkeys.
Qed.

Lemma all_group_keys_once_witness :
  exists g,
    GetRandom.filter_loop Examples.chats [("role", SpScalar (SStr "user"))]
      Examples.chats = Return g
    /\ NoDup [Str "a"; Str "b"; Str "c"]
    /\ rows g = [Examples.row0; Examples.row2; Examples.row3].
Proof.
  destruct (@all_group_keys_once Examples.no_re Examples.chats "" true false
              "conv_id" 0%nat [("role", SpScalar (SStr "user"))]
              (RAll [Str "a"; Str "b"; Str "c"])) as [Hsampler _].
  destruct (Hsampler eq_refl) as (g & Hg & [[H _]|(l & Hl & _ & Hnd & _)]);
    [discriminate|].
  exists g. split; [exact Hg|]. injection Hl as <-. split; [exact Hnd|].
  cbn in Hg. injection Hg as <-. reflexivity.
Defined.

Lemma conclude_cases (g : DataFrame) (rnd rnd' : nat) :
  (empty g = true
   /\ Search.conclude g true rnd' = Return RNone
   /\ Search.conclude g false rnd = Return RNone)
  \/ (empty g = false
      /\ exists c turns,
           Search.conclude g true rnd'
           = Return (RAll (unique (column "conv_id" (rows g))))
           /\ Search.conclude g false rnd = Return (RPair c turns)
           /\ In c (unique (column "conv_id" (rows g)))).
Proof.
  unfold Search.conclude. destruct (empty g) eqn:E; [left; auto|right].
  split; [reflexivity|].
  destruct (empty_false_rows g E) as (r & rs & Hrows).
  destruct (choice rnd (unique (column "conv_id" (rows g)))) as [c|e] eqn:Ec.
  - cbn [bind].
    destruct (@select_total g
                (series_eq (column "conv_id" (rows g)) (cell_value c)))
      as [m Hm].
    { apply series_eq_not_list. intros l. apply cell_value_not_list. }
    rewrite Hm. cbn [bind]. exists c, (column "turn_num" (rows m)).
    split; [reflexivity|]. split; [reflexivity|]. eapply choice_In, Ec.
  - exfalso. rewrite Hrows in Ec. cbn [column map] in Ec.
    rewrite unique_nonempty in Ec. discriminate.
Qed.

(** Two calls of the search that differ in [return_all] and in the draw
    differ in their last step only. *)
Lemma search_snd_cases
  (re_beyond : string -> bool -> option Re.pattern) (df : DataFrame)
  (text : string) (case_sensitive from_start ra ra' : bool) (rnd rnd' : nat)
  (kwargs : list (string * spec)) (P : outcome result -> Prop)
  (v : outcome result) :
  (forall g, Search.conclude g ra rnd = v -> P (Search.conclude g ra' rnd')) ->
  (forall e, v = Raise e -> P (Raise e)) ->
  snd (Search.search_text_matches re_beyond df text case_sensitive from_start
         ra rnd kwargs) = v ->
  P (snd (Search.search_text_matches re_beyond df text case_sensitive
            from_start ra' rnd' kwargs)).
Proof.
  intros Hg He. unfold Search.search_text_matches.
  destruct (negb (forallb (has_column df) Search.required_columns));
    [cbn [snd]; intros <-; now apply He|].
  destruct (Search.text_stage re_beyond (copy df) text case_sensitive
              from_start) as [f0|e]; [|cbn [snd]; intros <-; now apply He].
  destruct (Search.filter_loop df kwargs f0) as [w [g|e]]; cbn [snd bind].
  - apply Hg.
  - intros <-. now apply He.
Qed.

(** X7.  With [return_all] off the sampler and the search choose among the
    keys they list with [return_all] on: whatever is drawn, the key handed
    back is an element of that list, and [None] is handed back exactly when
    [None] is handed back with [return_all] on. *)
Theorem chosen_key_is_listed
  (re_beyond : string -> bool -> option Re.pattern) (df : DataFrame)
  (text : string) (case_sensitive from_start : bool)
  (conv_id_colname : string) (rnd rnd' : nat)
  (kwargs : list (string * spec)) :
  let sample ra k :=
    GetRandom.filter_subset df ra conv_id_colname k kwargs in
  let search ra k :=
    snd (Search.search_text_matches re_beyond df text case_sensitive
           from_start ra k kwargs) in
  (forall l, sample true rnd' = Return (RAll l) ->
     exists c, sample false rnd = Return (ROne c) /\ In c l)
  /\ (sample true rnd' = Return RNone <-> sample false rnd = Return RNone)
  /\ (forall l, search true rnd' = Return (RAll l) ->
        exists c turns, search false rnd = Return (RPair c turns) /\ In c l)
  /\ (search true rnd' = Return RNone <-> search false rnd = Return RNone).
Proof.
  intros sample search.
  assert (Hpick : forall l, l <> [] ->
            exists c, choice rnd l = Return c /\ In c l).
  { intros [|x l] Hl; [now destruct Hl|].
    destruct (choice_total rnd x l) as [c Hc].
    exists c. split; [exact Hc|]. eapply choice_In, Hc. }
  assert (Hne : forall g key, empty g = false ->
            unique (column key (rows g)) <> []).
  { intros g key E. destruct (empty_false_rows g E) as (r & rs & ->).
    cbn [column map]. rewrite unique_nonempty. discriminate. }
  split; [|split; [|split]].
  - intros l. unfold sample, GetRandom.filter_subset.
    destruct (GetRandom.filter_loop df kwargs (copy df)) as [g|e];
      cbn [bind]; [|discriminate].
    destruct (empty g) eqn:E; [discriminate|].
    unfold GetRandom.unique_convs.
    destruct (has_column g conv_id_colname); cbn [bind]; [|discriminate].
    intros H. injection H as <-.
    destruct (Hpick _ (Hne g conv_id_colname E)) as (c & -> & Hin).
    cbn [bind]. now exists c.
  - unfold sample, GetRandom.filter_subset.
    destruct (GetRandom.filter_loop df kwargs (copy df)) as [g|e];
      cbn [bind]; [|split; discriminate].
    destruct (empty g) eqn:E; [split; reflexivity|].
    unfold GetRandom.unique_convs.
    destruct (has_column g conv_id_colname); cbn [bind];
      [|split; discriminate].
    destruct (Hpick _ (Hne g conv_id_colname E)) as (c & -> & Hin).
    cbn [bind]. split; discriminate.
  - intros l. unfold search.
    apply (@search_snd_cases re_beyond df text case_sensitive from_start
             true false rnd' rnd kwargs
             (fun o => exists c turns, o = Return (RPair c turns) /\ In c l));
      [|discriminate].
    intros g. destruct (conclude_cases g rnd rnd')
      as [(_ & Ht & _)|(_ & c & turns & Ht & Hf & Hin)]; rewrite Ht.
    + discriminate.
    + intros H. injection H as <-. now exists c, turns.
  - unfold search. split.
    + apply (@search_snd_cases re_beyond df text case_sensitive from_start
               true false rnd' rnd kwargs (fun o => o = Return RNone));
        [|discriminate].
      intros g. destruct (conclude_cases g rnd rnd')
        as [(_ & Ht & Hf)|(_ & c & turns & Ht & Hf & Hin)]; rewrite Ht, Hf;
        [reflexivity|discriminate].
    + apply (@search_snd_cases re_beyond df text case_sensitive from_start
               false true rnd rnd' kwargs (fun o => o = Return RNone));
        [|discriminate].
      intros g. destruct (conclude_cases g rnd rnd')
        as [(_ & Ht & Hf)|(_ & c & turns & Ht & Hf & Hin)]; rewrite Ht, Hf;
        [reflexivity|discriminate].
Qed.

Lemma chosen_key_is_listed_witness :
  exists c,
    GetRandom.filter_subset Examples.chats false "conv_id" 5
      [("role", SpScalar (SStr "user"))] = Return (ROne c)
    /\ In c [Str "a"; Str "b"; Str "c"].
Proof.
  destruct (@chosen_key_is_listed Examples.no_re Examples.chats "" true false
              "conv_id" 5%nat 0%nat [("role", SpScalar (SStr "user"))])
    as [Hsample _].
  apply Hsample. reflexivity.
Defined.

(** ** The search as the sampler after the text match *)

(** X8.  On a table that has the three required columns the search is the
    sampler run on the rows that the text match has left, with [conv_id] for
    the group key column: both end the same way, with the same error or the
    same key or keys, whatever the draw; the search adds the turns to the
    key. *)
Theorem search_is_sampler_after_text_match
  (re_beyond : string -> bool -> option Re.pattern) (df : DataFrame)
  (text : string) (case_sensitive from_start return_all : bool) (rnd : nat)
  (kwargs : list (string * spec)) :
  (forall c, In c Search.required_columns -> has_column df c = true) ->
  (f0 <- Search.text_stage re_beyond df text case_sensitive from_start ;;
   GetRandom.filter_subset f0 return_all "conv_id" rnd kwargs)
  = (v <- snd (Search.search_text_matches re_beyond df text case_sensitive
                 from_start return_all rnd kwargs) ;;
     Return (key_only v)).
Proof.
  intros Hreq. pose proof Hreq as Hconv.
  specialize (Hconv "conv_id" (or_intror (or_introl eq_refl))).
  apply required_present_iff in Hreq.
  rewrite search_unfold_present by exact Hreq. unfold copy.
  destruct (Search.text_stage re_beyond df text case_sensitive from_start)
    as [f0|e] eqn:E0; cbn [bind]; [|reflexivity].
  unfold Search.text_stage in E0. apply select_inv in E0 as [Hc0 _].
  unfold GetRandom.filter_subset, copy.
  rewrite (sampler_loop_columns f0 df kwargs f0 Hc0).
  destruct (GetRandom.filter_loop df kwargs f0) as [g|e] eqn:Eg; cbn [bind];
    [|reflexivity].
  apply sampler_loop_inv in Eg as [Hcg _].
  unfold Search.conclude, GetRandom.unique_convs.
  destruct (empty g); [reflexivity|].
  rewrite (@has_column_same g f0 "conv_id" Hcg),
    (@has_column_same f0 df "conv_id" Hc0), Hconv.
  cbn [bind]. destruct return_all; [reflexivity|].
  destruct (choice rnd (unique (column "conv_id" (rows g)))) as [c|e];
    cbn [bind]; [|reflexivity].
  destruct (@select_total g
              (series_eq (column "conv_id" (rows g)) (cell_value c)))
    as [m ->].
  { apply series_eq_not_list. intros l. apply cell_value_not_list. }
  reflexivity.
Qed.

Lemma search_is_sampler_after_text_match_witness :
  GetRandom.filter_subset
    (Filter.set_rows Examples.chats [Examples.row0]) false "conv_id" 4
    [("turns", SpScalar (SInt 3))]
  = Return (ROne (Str "a")).
Proof.
  assert (Hreq : forall c, In c Search.required_columns ->
                           has_column Examples.chats c = true).
  { intros c [<-|[<-|[<-|[]]]]; reflexivity. }
  pose proof (@search_is_sampler_after_text_match Examples.no_re
                Examples.chats "I like" true true false 4%nat
                [("turns", SpScalar (SInt 3))] Hreq) as H.
  exact H.
Defined.

(** ** More and fewer matches *)


Lemma lower_app (a b : string) :
  PyStr.lower (a ++ b) = (PyStr.lower a ++ PyStr.lower b)%string.
Proof.
  induction a as [|c a IH]; cbn; [reflexivity|now rewrite IH].
Qed.








(** ** Specs that constrain nothing, or everything *)

Lemma sampler_none_on_no_rows (df f : DataFrame) (return_all : bool)
  (conv_id_colname : string) (rnd : nat) (kwargs : list (string * spec)) :
  GetRandom.filter_loop df kwargs df = Return f -> rows f = [] ->
  GetRandom.filter_subset df return_all conv_id_colname rnd kwargs
  = Return RNone.
Proof.
  intros Hrun Hrows. unfold GetRandom.filter_subset, copy.
  rewrite Hrun. cbn [bind]. now rewrite (empty_no_rows f Hrows).
Qed.

(** X11.  [None] as a spec means two things.  On a numeric column it is no
    constraint, as the empty tuple and the tuple [(None, None)] are: the frame
    goes through the turn unchanged, rows with missing values included.  On
    a column that is not numeric it is compared with the values, equals
    none, and no row is left: the sampler hands back [None]. *)
Theorem none_spec_by_column_type (df : DataFrame) (num obj : string)
  (return_all : bool) (conv_id_colname : string) (rnd : nat) :
  lookup num (columns df) = Some Numeric ->
  lookup obj (columns df) = Some Object ->
  (forall f value,
      In value [SpNone; SpTuple []; SpTuple [None]; SpTuple [None; None]] ->
      GetRandom.filter_loop df [(num, value)] f = Return f)
  /\ (forall value,
        In value [SpNone; SpTuple []; SpTuple [None]; SpTuple [None; None]] ->
        GetRandom.filter_subset df return_all conv_id_colname rnd
          [(num, value)]
        = GetRandom.filter_subset df return_all conv_id_colname rnd [])
  /\ (forall f, GetRandom.filter_loop df [(obj, SpNone)] f
                = Return (Filter.set_rows f []))
  /\ GetRandom.filter_subset df return_all conv_id_colname rnd
       [(obj, SpNone)]
     = Return RNone.
Proof.
  intros Hnum Hobj.
  apply dtype_of_lookup in Hnum as [Hcn Hdn].
  apply dtype_of_lookup in Hobj as [Hco Hdo].
  assert (Hfree : forall f value,
             In value [SpNone; SpTuple []; SpTuple [None];
                       SpTuple [None; None]] ->
             GetRandom.filter_loop df [(num, value)] f = Return f).
  { intros f value Hin. rewrite sampler_loop_single by exact Hcn.
    unfold Filter.apply_spec. rewrite Hdn.
    destruct Hin as [<-|[<-|[<-|[<-|[]]]]]; reflexivity. }
  assert (Hnone : forall f, GetRandom.filter_loop df [(obj, SpNone)] f
                            = Return (Filter.set_rows f [])).
  { intros f. rewrite sampler_loop_single by exact Hco.
    unfold Filter.apply_spec. rewrite Hdo. cbn [Filter.filter_object series_eq].
    unfold Filter.select. cbn [bind]. now rewrite boolean_index_none. }
  split; [exact Hfree|]. split; [|split; [exact Hnone|]].
  - intros value Hin. unfold GetRandom.filter_subset.
    now rewrite (Hfree _ _ Hin).
  - now apply (@sampler_none_on_no_rows df (Filter.set_rows df []) return_all
                 conv_id_colname rnd [(obj, SpNone)] (Hnone df)).
Qed.

Lemma none_spec_by_column_type_witness :
  GetRandom.filter_subset Examples.chats true "conv_id" 0 [("turns", SpNone)]
  = Return (RAll [Str "a"; Str "b"; Str "c"])
  /\ GetRandom.filter_subset Examples.chats true "conv_id" 0
       [("role", SpNone)]
     = Return RNone.
Proof.
  destruct (@none_spec_by_column_type Examples.chats "turns" "role" true
              "conv_id" 0%nat eq_refl eq_refl) as (_ & Hfree & _ & Hnone).
  split; [|exact Hnone].
  rewrite (Hfree SpNone (or_introl eq_refl)). reflexivity.
Defined.

(** X12.  A string where a numeric column expects a number.  As an exact
    value it equals no number: no row is left, nothing is raised, and the
    sampler hands back [None].  As a bound of a range it cannot be ordered
    against the numbers: the turn raises a [TypeError], on every frame, the
    empty one included, unless both bounds are the same string, which is the
    exact value again. *)
Theorem string_on_numeric_column (df : DataFrame) (key : string)
  (return_all : bool) (conv_id_colname : string) (rnd : nat) (s : string) :
  lookup key (columns df) = Some Numeric ->
  (forall f value,
      In value [SpScalar (SStr s); SpTuple [Some (SStr s); Some (SStr s)]] ->
      (forall r, In r (rows f) -> get key r = NA \/ exists n, get key r = Num n) ->
      GetRandom.filter_loop df [(key, value)] f
      = Return (Filter.set_rows f []))
  /\ (forall f hi, hi <> Some (SStr s) ->
        GetRandom.filter_loop df [(key, SpTuple [Some (SStr s); hi])] f
        = Raise (TypeError invalid_msg))
  /\ (forall f, GetRandom.filter_loop df [(key, SpTuple [Some (SStr s)])] f
                = Raise (TypeError invalid_msg))
  /\ (forall f lo,
        GetRandom.filter_loop df [(key, SpTuple [bound lo; Some (SStr s)])] f
        = Raise (TypeError invalid_msg))
  /\ (forall hi, hi <> Some (SStr s) ->
        GetRandom.filter_subset df return_all conv_id_colname rnd
          [(key, SpTuple [Some (SStr s); hi])]
        = Raise (TypeError invalid_msg)).
Proof.
  intros Hnum. apply dtype_of_lookup in Hnum as [Hcol Hdt].
  assert (Hlo : forall f hi, hi <> Some (SStr s) ->
             GetRandom.filter_loop df [(key, SpTuple [Some (SStr s); hi])] f
             = Raise (TypeError invalid_msg)).
  { intros f hi Hhi. rewrite sampler_loop_single by exact Hcol.
    unfold Filter.apply_spec. rewrite Hdt. unfold Filter.filter_numeric.
    cbn [Filter.parse_range Filter.elem Filter.is_none negb andb].
    destruct hi as [[z|t]|]; cbn [Filter.elem Filter.is_none negb andb
                                  Filter.py_eq scalar_eq];
      try reflexivity.
    destruct (String.eqb_spec s t) as [->|Hne]; [now destruct Hhi|].
    reflexivity. }
  split; [|split; [exact Hlo|split; [|split]]].
  - intros f value Hin Hwf. rewrite sampler_loop_single by exact Hcol.
    unfold Filter.apply_spec. rewrite Hdt. unfold Filter.filter_numeric.
    assert (Hp : Filter.parse_range value
                 = (SpScalar (SStr s), SpScalar (SStr s))).
    { destruct Hin as [<-|[<-|[]]]; reflexivity. }
    rewrite Hp. cbn [Filter.is_none negb andb Filter.py_eq scalar_eq].
    rewrite String.eqb_refl. cbn [series_eq]. rewrite select_map.
    do 2 f_equal. rewrite <- (filter_false (rows f)).
    apply filter_ext_in. intros r Hr.
    destruct (Hwf r Hr) as [->|[n ->]]; reflexivity.
  - intros f. rewrite sampler_loop_single by exact Hcol.
    unfold Filter.apply_spec. now rewrite Hdt.
  - intros f lo. rewrite sampler_loop_single by exact Hcol.
    unfold Filter.apply_spec. rewrite Hdt. unfold Filter.filter_numeric.
    destruct lo as [z|]; reflexivity.
  - intros hi Hhi. unfold GetRandom.filter_subset.
    now rewrite (Hlo _ hi Hhi).
Qed.

Lemma string_on_numeric_column_witness :
  GetRandom.filter_loop Examples.chats [("turns", SpScalar (SStr "many"))]
    Examples.chats
  = Return (Filter.set_rows Examples.chats [])
  /\ GetRandom.filter_subset Examples.chats true "conv_id" 0
       [("turns", SpTuple [Some (SStr "many"); Some (SInt 3)])]
     = Raise (TypeError invalid_msg).
Proof.
  destruct (@string_on_numeric_column Examples.chats "turns" true "conv_id"
              0%nat "many" eq_refl) as (Hexact & _ & _ & _ & Hrange).
  split.
  - apply Hexact; [now left|].
    intros r [<-|[<-|[<-|[<-|[]]]]]; right; eexists; reflexivity.
  - apply Hrange. discriminate.
Defined.

(** X13.  A list is no set of values for a numeric column.  The code
    compares the column with the list as a whole, and a list that is not as
    long as the frame that reaches this entry makes the comparison raise a
    [ValueError]; the sampler and the search raise it too.  In particular
    the empty list raises on every frame that has a row. *)
Theorem list_on_numeric_column_raises
  (re_beyond : string -> bool -> option Re.pattern) (df : DataFrame)
  (key : string) (l : list scalar) (return_all : bool)
  (conv_id_colname : string) (rnd : nat) (text : string)
  (case_sensitive from_start : bool) :
  lookup key (columns df) = Some Numeric ->
  (forall f, List.length l <> List.length (rows f) ->
     GetRandom.filter_loop df [(key, SpList l)] f
     = Raise (ValueError lengths_msg))
  /\ (List.length l <> List.length (rows df) ->
      GetRandom.filter_subset df return_all conv_id_colname rnd
        [(key, SpList l)]
      = Raise (ValueError lengths_msg))
  /\ (forall f0,
        (forall c, In c Search.required_columns -> has_column df c = true) ->
        Search.text_stage re_beyond df text case_sensitive from_start
        = Return f0 ->
        List.length l <> List.length (rows f0) ->
        snd (Search.search_text_matches re_beyond df text case_sensitive
               from_start return_all rnd [(key, SpList l)])
        = Raise (ValueError lengths_msg)).
Proof.
  intros Hnum. apply dtype_of_lookup in Hnum as [Hcol Hdt].
  assert (Hrefl : forall m : list scalar, Filter.list_eq scalar_eq m m = true).
  { induction m as [|x m IH]; [reflexivity|].
    cbn [Filter.list_eq]. now rewrite scalar_eq_refl, IH. }
  assert (Hloop : forall f, List.length l <> List.length (rows f) ->
             GetRandom.filter_loop df [(key, SpList l)] f
             = Raise (ValueError lengths_msg)).
  { intros f Hlen. rewrite sampler_loop_single by exact Hcol.
    unfold Filter.apply_spec. rewrite Hdt. unfold Filter.filter_numeric.
    cbn [Filter.parse_range Filter.is_none negb andb Filter.py_eq].
    rewrite Hrefl. cbn [series_eq]. unfold column. rewrite length_map.
    apply Nat.eqb_neq in Hlen. now rewrite Hlen. }
  split; [exact Hloop|]. split.
  - intros Hlen. unfold GetRandom.filter_subset, copy.
    now rewrite (Hloop df Hlen).
  - intros f0 Hreq Htext Hlen. apply required_present_iff in Hreq.
    rewrite search_unfold_present by exact Hreq.
    unfold copy. rewrite Htext. cbn [bind]. now rewrite (Hloop f0 Hlen).
Qed.

Lemma list_on_numeric_column_raises_witness :
  GetRandom.filter_subset Examples.chats true "conv_id" 0
    [("turns", SpList [SInt 3; SInt 10])]
  = Raise (ValueError lengths_msg).
Proof.
  destruct (@list_on_numeric_column_raises Examples.no_re Examples.chats
              "turns" [SInt 3; SInt 10] true "conv_id" 0%nat "" true false
              eq_refl) as (_ & Hsampler & _).
  apply Hsampler. cbn. lia.
Defined.

(* ================================================================= *)
(** * Lists, tuples and errors *)

(** ** One entry of a filter set, from the loop to the result *)

Lemma search_loop_single (df : DataFrame) (key : string) (value : spec)
  (f : DataFrame) :
  has_column df key = true ->
  Search.filter_loop df [(key, value)] f
  = ([], Filter.apply_spec df key value f).
Proof.
  intros H. cbn [Search.filter_loop]. rewrite H. cbn [negb].
  destruct (Filter.apply_spec df key value f); reflexivity.
Qed.

Lemma filter_comm {A : Type} (p q : A -> bool) (l : list A) :
  filter p (filter q l) = filter q (filter p l).
Proof.
  rewrite !filter_filter. apply filter_ext. intros x. apply andb_comm.
Qed.

(** The text match either raises, whatever the rows are, or keeps the rows
    that pass a test of their own. *)
Lemma text_stage_cases (re_beyond : string -> bool -> option Re.pattern)
  (cols : list (string * dtype)) (text : string)
  (case_sensitive from_start : bool) :
  (exists e, forall rs,
      Search.text_stage re_beyond (mkDF cols rs) text case_sensitive
        from_start = Raise e)
  \/ (exists t : row -> bool, forall rs,
        Search.text_stage re_beyond (mkDF cols rs) text case_sensitive
          from_start = Return (mkDF cols (filter t rs))).
Proof.
  unfold Search.text_stage, Search.text_mask, str_match, str_contains,
    dtype_of.
  cbn [columns rows].
  destruct from_start, (lookup "message" cols) as [[]|];
    try (left; eexists; intros rs; reflexivity);
    (destruct (Re.compile re_beyond _ _) as [p|];
     [|left; eexists; intros rs; reflexivity]);
    right; eexists; intros rs; unfold Filter.select, str_map;
    cbn [bind rows]; rewrite boolean_index_column; reflexivity.
Qed.

(** The sampler and the search with one entry whose turn of the loop keeps
    the rows that pass a test: they return what they return without the
    entry on the table of these rows. *)
Lemma sampler_on_kept_rows (df : DataFrame) (return_all : bool)
  (conv_id_colname : string) (rnd : nat) (key : string) (value : spec)
  (p : row -> bool) :
  has_column df key = true ->
  (forall f, Filter.apply_spec df key value f = Return (restrict f p)) ->
  GetRandom.filter_subset df return_all conv_id_colname rnd [(key, value)]
  = GetRandom.filter_subset (restrict df p) return_all conv_id_colname rnd
      [].
Proof.
  intros Hcol Hturn. unfold GetRandom.filter_subset, copy.
  rewrite sampler_loop_single, Hturn by exact Hcol. reflexivity.
Qed.

Lemma search_on_kept_rows (re_beyond : string -> bool -> option Re.pattern)
  (df : DataFrame) (text : string)
  (case_sensitive from_start return_all : bool) (rnd : nat) (key : string)
  (value : spec) (p : row -> bool) :
  has_column df key = true ->
  (forall f, Filter.apply_spec df key value f = Return (restrict f p)) ->
  Search.search_text_matches re_beyond df text case_sensitive from_start
    return_all rnd [(key, value)]
  = Search.search_text_matches re_beyond (restrict df p) text case_sensitive
      from_start return_all rnd [].
Proof.
  intros Hcol Hturn. destruct df as [cols rs].
  unfold Search.search_text_matches, copy, restrict, Filter.set_rows.
  cbn [columns rows].
  change (has_column (mkDF cols (filter p rs)))
    with (has_column (mkDF cols rs)).
  destruct (negb (forallb (has_column (mkDF cols rs))
                    Search.required_columns)); [reflexivity|].
  destruct (text_stage_cases re_beyond cols text case_sensitive from_start)
    as [[e He]|[t Ht]].
  - now rewrite !He.
  - rewrite !Ht, search_loop_single, Hturn by exact Hcol.
    cbn [Search.filter_loop]. unfold restrict, Filter.set_rows.
    cbn [columns rows]. now rewrite (filter_comm p t).
Qed.

Lemma restrict_In (f : DataFrame) (p : row -> bool) (r : row) :
  In r (rows (restrict f p)) <-> In r (rows f) /\ p r = true.
Proof. unfold restrict. cbn [rows Filter.set_rows]. apply filter_In. Qed.

(** ** Tuples for ranges, lists for sets of values *)

(** C6, as the code has it.  On a numeric column the range [(lo, None)] and
    the one-element tuple [(lo,)] filter alike, whatever [lo] is, in one
    turn of either loop and so in the sampler and in the search; and for a
    number [lo] both keep exactly the rows whose value in the column is a
    number at least [lo], in their order and with no upper bound: either
    loop hands back the frame of these rows, and the sampler and the search
    return what they return without the entry on the table of these
    rows. *)
Theorem lower_bound_only
  (re_beyond : string -> bool -> option Re.pattern) (df : DataFrame)
  (key : string) (lo : option scalar) (text : string)
  (case_sensitive from_start return_all : bool) (conv_id_colname : string)
  (rnd : nat) (pre post : list (string * spec)) :
  lookup key (columns df) = Some Numeric ->
  let pair := pre ++ (key, SpTuple [lo; None]) :: post in
  let single := pre ++ (key, SpTuple [lo]) :: post in
  (forall f, Filter.apply_spec df key (SpTuple [lo; None]) f
             = Filter.apply_spec df key (SpTuple [lo]) f)
  /\ (forall f, GetRandom.filter_loop df pair f
                = GetRandom.filter_loop df single f)
  /\ (forall f, Search.filter_loop df pair f
                = Search.filter_loop df single f)
  /\ GetRandom.filter_subset df return_all conv_id_colname rnd pair
     = GetRandom.filter_subset df return_all conv_id_colname rnd single
  /\ Search.search_text_matches re_beyond df text case_sensitive from_start
       return_all rnd pair
     = Search.search_text_matches re_beyond df text case_sensitive from_start
         return_all rnd single
  /\ (forall z, lo = Some (SInt z) ->
        let at_least := fun r => cell_ge z (get key r) in
        (forall value,
            value = SpTuple [lo; None] \/ value = SpTuple [lo] ->
            (forall f,
                GetRandom.filter_loop df [(key, value)] f
                = Return (restrict f at_least)
                /\ Search.filter_loop df [(key, value)] f
                   = ([], Return (restrict f at_least)))
            /\ GetRandom.filter_subset df return_all conv_id_colname rnd
                 [(key, value)]
               = GetRandom.filter_subset (restrict df at_least) return_all
                   conv_id_colname rnd []
            /\ Search.search_text_matches re_beyond df text case_sensitive
                 from_start return_all rnd [(key, value)]
               = Search.search_text_matches re_beyond (restrict df at_least)
                   text case_sensitive from_start return_all rnd [])
        /\ forall f r,
             In r (rows (restrict f at_least))
             <-> In r (rows f) /\ exists n, get key r = Num n /\ z <= n).
Proof.
  intros Hnum pair single.
  apply dtype_of_lookup in Hnum as [Hcol Hdt].
  assert (Hturn : forall f, Filter.apply_spec df key (SpTuple [lo; None]) f
                            = Filter.apply_spec df key (SpTuple [lo]) f).
  { intros f. unfold Filter.apply_spec. rewrite Hdt. reflexivity. }
  split; [exact Hturn|].
  split; [intros f; now apply sampler_loop_congr|].
  split; [intros f; now apply search_loop_congr|].
  split; [now apply filter_subset_congr|].
  split; [now apply search_congr|].
  intros z -> at_least.
  assert (Hrun : forall value,
             value = SpTuple [Some (SInt z); None]
             \/ value = SpTuple [Some (SInt z)] ->
             forall f, Filter.apply_spec df key value f
                       = Return (restrict f at_least)).
  { intros value Hv f.
    assert (Hpair : Filter.apply_spec df key (SpTuple [Some (SInt z); None])
                      f = Return (restrict f at_least)).
    { unfold Filter.apply_spec. rewrite Hdt. unfold Filter.filter_numeric.
      cbn. unfold Filter.select. cbn [bind].
      now rewrite boolean_index_column. }
    destruct Hv as [->| ->]; [exact Hpair|]. now rewrite <- Hturn. }
  split.
  - intros value Hv. split; [|split].
    + intros f. rewrite sampler_loop_single, search_loop_single
        by exact Hcol.
      rewrite (Hrun value Hv f). now split.
    + apply sampler_on_kept_rows; [exact Hcol|exact (Hrun value Hv)].
    + apply search_on_kept_rows; [exact Hcol|exact (Hrun value Hv)].
  - intros f r. rewrite restrict_In. unfold at_least, cell_ge.
    split.
    + intros [Hin Hge]. split; [exact Hin|].
      destruct (get key r) as [|n|s]; try discriminate.
      exists n. split; [reflexivity|now apply Z.leb_le].
    + intros [Hin (n & -> & Hle)]. split; [exact Hin|now apply Z.leb_le].
Qed.

Lemma lower_bound_only_witness :
  GetRandom.filter_subset Examples.chats true "conv_id" 0
    [("turns", SpTuple [Some (SInt 5)])]
  = Return (RAll [Str "b"])
  /\ GetRandom.filter_subset Examples.chats true "conv_id" 0
       [("turns", SpTuple [Some (SInt 5); None])]
     = Return (RAll [Str "b"])
  /\ Search.search_text_matches Examples.no_re Examples.chats "" true false
       true 0 [("turns", SpTuple [Some (SInt 5)])]
     = ([], Return (RAll [Str "b"]))
  /\ Search.search_text_matches Examples.no_re Examples.chats "" true false
       true 0 []
     = ([], Return (RAll [Str "a"; Str "b"]))
  /\ GetRandom.filter_subset Examples.chats true "conv_id" 0 []
     = Return (RAll [Str "a"; Str "b"; Str "c"])
  /\ rows (restrict Examples.chats (fun r => cell_ge 5 (get "turns" r)))
     = [Examples.row1; Examples.row2].
Proof.
  assert (Hnum : lookup "turns" (columns Examples.chats) = Some Numeric)
    by reflexivity.
  destruct (lower_bound_only Examples.no_re Examples.chats "turns"
              (Some (SInt 5)) "" true false true "conv_id" 0 [] [] Hnum)
    as (_ & _ & _ & Hsame & _ & Hkept).
  destruct (Hkept 5 eq_refl) as [Hexact _].
  destruct (Hexact (SpTuple [Some (SInt 5)]) (or_intror eq_refl))
    as (_ & Hsample & Hsearch).
  split; [rewrite Hsample; reflexivity|].
  split; [cbn [app] in Hsame; rewrite Hsame, Hsample; reflexivity|].
  split; [rewrite Hsearch; reflexivity|].
  split; [reflexivity|]. split; reflexivity.
Defined.

(** C6 as it is written fails for a list.  On the table [chats] the range
    [(5, None)] keeps the two rows with ten turns; the list [[5]] is
    compared with the column as a whole, which raises on the four rows, and
    on a frame of the one row with ten turns it is compared with that value
    and keeps nothing. *)
Lemma one_element_list_is_no_lower_bound :
  GetRandom.filter_loop Examples.chats
    [("turns", SpTuple [Some (SInt 5); None])] Examples.chats
  = Return (Filter.set_rows Examples.chats [Examples.row1; Examples.row2])
  /\ GetRandom.filter_loop Examples.chats [("turns", SpList [SInt 5])]
       Examples.chats
     = Raise (ValueError lengths_msg)
  /\ GetRandom.filter_subset Examples.chats true "conv_id" 0
       [("turns", SpList [SInt 5])]
     = Raise (ValueError lengths_msg)
  /\ Search.search_text_matches Examples.no_re Examples.chats "" true false
       true 0 [("turns", SpList [SInt 5])]
     = ([], Raise (ValueError lengths_msg))
  /\ GetRandom.filter_loop Examples.chats
       [("turns", SpTuple [Some (SInt 5); None])]
       (Filter.set_rows Examples.chats [Examples.row1])
     = Return (Filter.set_rows Examples.chats [Examples.row1])
  /\ GetRandom.filter_loop Examples.chats [("turns", SpList [SInt 5])]
       (Filter.set_rows Examples.chats [Examples.row1])
     = Return (Filter.set_rows Examples.chats []).
Proof. repeat split. Qed.

(** C7, as the code has it.  On a column that is not numeric a list keeps
    exactly the rows whose value in the column is an element of the list,
    and a bare scalar keeps exactly the rows whose value equals it, in their
    order: either loop hands back the frame of these rows, and the sampler
    and the search return what they return without the entry on the table
    of these rows.  The list [[x]] and the bare scalar [x] filter alike, in
    one turn of either loop and so in the sampler and in the search.  A
    tuple is no list: it is compared as one value and keeps no row. *)
Theorem membership_and_equality
  (re_beyond : string -> bool -> option Re.pattern) (df : DataFrame)
  (key : string) (text : string)
  (case_sensitive from_start return_all : bool) (conv_id_colname : string)
  (rnd : nat) :
  lookup key (columns df) = Some Object ->
  let exactly (value : spec) (p : row -> bool) :=
    (forall f,
        GetRandom.filter_loop df [(key, value)] f = Return (restrict f p)
        /\ Search.filter_loop df [(key, value)] f
           = ([], Return (restrict f p)))
    /\ GetRandom.filter_subset df return_all conv_id_colname rnd
         [(key, value)]
       = GetRandom.filter_subset (restrict df p) return_all conv_id_colname
           rnd []
    /\ Search.search_text_matches re_beyond df text case_sensitive
         from_start return_all rnd [(key, value)]
       = Search.search_text_matches re_beyond (restrict df p) text
           case_sensitive from_start return_all rnd [] in
  (forall l : list scalar,
      exactly (SpList l) (fun r => member l (get key r))
      /\ forall f r,
           In r (rows (restrict f (fun r => member l (get key r))))
           <-> In r (rows f)
               /\ exists x, In x l /\ get key r = scalar_cell x)
  /\ (forall x : scalar,
        exactly (SpScalar x) (fun r => cell_eq_scalar x (get key r))
        /\ forall f r,
             In r (rows (restrict f (fun r => cell_eq_scalar x (get key r))))
             <-> In r (rows f) /\ get key r = scalar_cell x)
  /\ (forall (x : scalar) (pre post : list (string * spec)),
        let listed := pre ++ (key, SpList [x]) :: post in
        let alone := pre ++ (key, SpScalar x) :: post in
        (forall f, Filter.apply_spec df key (SpList [x]) f
                   = Filter.apply_spec df key (SpScalar x) f)
        /\ (forall f, GetRandom.filter_loop df listed f
                      = GetRandom.filter_loop df alone f)
        /\ (forall f, Search.filter_loop df listed f
                      = Search.filter_loop df alone f)
        /\ GetRandom.filter_subset df return_all conv_id_colname rnd listed
           = GetRandom.filter_subset df return_all conv_id_colname rnd alone
        /\ Search.search_text_matches re_beyond df text case_sensitive
             from_start return_all rnd listed
           = Search.search_text_matches re_beyond df text case_sensitive
               from_start return_all rnd alone)
  /\ (forall t : list (option scalar), exactly (SpTuple t) (fun _ => false)).
Proof.
  intros Hobj exactly. apply dtype_of_lookup in Hobj as [Hcol Hdt].
  assert (Hexactly : forall value p,
             (forall f, Filter.apply_spec df key value f
                        = Return (restrict f p)) ->
             exactly value p).
  { intros value p Hturn. split; [|split].
    - intros f. rewrite sampler_loop_single, search_loop_single
        by exact Hcol.
      rewrite Hturn. now split.
    - now apply sampler_on_kept_rows.
    - now apply search_on_kept_rows. }
  assert (Hlist : forall l f,
             Filter.apply_spec df key (SpList l) f
             = Return (restrict f (fun r => member l (get key r)))).
  { intros l f. unfold Filter.apply_spec. rewrite Hdt.
    cbn [Filter.filter_object]. unfold isin.
    now rewrite boolean_index_column. }
  assert (Hone : forall x f,
             Filter.apply_spec df key (SpScalar x) f
             = Return (restrict f (fun r => cell_eq_scalar x (get key r)))).
  { intros x f. unfold Filter.apply_spec. rewrite Hdt.
    cbn [Filter.filter_object series_eq]. unfold Filter.select.
    cbn [bind]. now rewrite boolean_index_column. }
  split; [|split; [|split]].
  - intros l. split; [apply Hexactly, Hlist|].
    intros f r. rewrite restrict_In. unfold member.
    rewrite existsb_exists. split.
    + intros [Hin (x & Hx & Heq)]. split; [exact Hin|].
      exists x. split; [exact Hx|now apply cell_eq_scalar_iff].
    + intros [Hin (x & Hx & Heq)]. split; [exact Hin|].
      exists x. split; [exact Hx|now apply cell_eq_scalar_iff].
  - intros x. split; [apply Hexactly, Hone|].
    intros f r. rewrite restrict_In, cell_eq_scalar_iff. reflexivity.
  - intros x pre post listed alone.
    assert (Hturn : forall f, Filter.apply_spec df key (SpList [x]) f
                              = Filter.apply_spec df key (SpScalar x) f).
    { intros f. rewrite Hlist, Hone. unfold restrict. do 2 f_equal.
      apply filter_ext. intros r. unfold member. cbn [existsb].
      apply orb_false_r. }
    split; [exact Hturn|].
    split; [intros f; now apply sampler_loop_congr|].
    split; [intros f; now apply search_loop_congr|].
    split; [now apply filter_subset_congr|now apply search_congr].
  - intros t. apply Hexactly. intros f. unfold Filter.apply_spec.
    rewrite Hdt. cbn [Filter.filter_object series_eq]. unfold Filter.select.
    cbn [bind]. unfold restrict. now rewrite boolean_index_none, filter_false.
Qed.

Lemma membership_and_equality_witness :
  GetRandom.filter_subset Examples.chats true "conv_id" 0
    [("role", SpList [SStr "assistant"; SStr "system"])]
  = Return (RAll [Str "b"])
  /\ GetRandom.filter_subset Examples.chats true "conv_id" 0
       [("role", SpList [SStr "assistant"])]
     = Return (RAll [Str "b"])
  /\ GetRandom.filter_subset Examples.chats true "conv_id" 0
       [("role", SpScalar (SStr "assistant"))]
     = Return (RAll [Str "b"])
  /\ GetRandom.filter_subset Examples.chats true "conv_id" 0 []
     = Return (RAll [Str "a"; Str "b"; Str "c"])
  /\ Search.search_text_matches Examples.no_re Examples.chats "" true false
       true 0 [("role", SpScalar (SStr "user"))]
     = ([], Return (RAll [Str "a"; Str "b"]))
  /\ Search.search_text_matches Examples.no_re Examples.chats "" true false
       true 0 [("role", SpList [SStr "assistant"])]
     = ([], Return (RAll [Str "b"])).
Proof.
  assert (Hobj : lookup "role" (columns Examples.chats) = Some Object)
    by reflexivity.
  destruct (membership_and_equality Examples.no_re Examples.chats "role" ""
              true false true "conv_id" 0 Hobj)
    as (Hlist & Hscalar & Hsingle & _).
  destruct (Hlist [SStr "assistant"; SStr "system"])
    as [(_ & Hsample2 & _) _].
  destruct (Hlist [SStr "assistant"]) as [(_ & Hsample1 & Hsearch1) _].
  destruct (Hscalar (SStr "user")) as [(_ & _ & Hsearch) _].
  destruct (Hsingle (SStr "assistant") [] []) as (_ & _ & _ & Hsame & _).
  split; [rewrite Hsample2; reflexivity|].
  split; [rewrite Hsample1; reflexivity|].
  split; [cbn [app] in Hsame; rewrite <- Hsame, Hsample1; reflexivity|].
  split; [reflexivity|].
  split; [rewrite Hsearch; reflexivity|rewrite Hsearch1; reflexivity].
Defined.

(** C7 as it is written fails for a tuple.  Three rows of the table [chats]
    have the role [user], which is a member of the tuple [("user",)]: the
    tuple keeps none of them, and the sampler returns [None], while the
    list [["user"]] keeps the three. *)
Lemma tuple_is_no_set_of_values :
  map (get "role") (rows Examples.chats)
  = [Str "user"; Str "assistant"; Str "user"; Str "user"]
  /\ GetRandom.filter_loop Examples.chats
       [("role", SpTuple [Some (SStr "user")])] Examples.chats
     = Return (Filter.set_rows Examples.chats [])
  /\ GetRandom.filter_subset Examples.chats true "conv_id" 0
       [("role", SpTuple [Some (SStr "user")])]
     = Return RNone
  /\ GetRandom.filter_loop Examples.chats [("role", SpList [SStr "user"])]
       Examples.chats
     = Return (Filter.set_rows Examples.chats
                 [Examples.row0; Examples.row2; Examples.row3]).
Proof. repeat split. Qed.

(** ** The errors *)







(* ================================================================= *)
(** * Properties of [visualize.py] *)

(** ** Durations *)

Lemma string_app_assoc (a b c : string) :
  ((a ++ b) ++ c)%string = (a ++ (b ++ c))%string.
Proof. induction a as [|x a IH]; cbn; [reflexivity|now rewrite IH]. Qed.

Lemma string_app_nil (a : string) : (a ++ "")%string = a.
Proof. induction a as [|x a IH]; cbn; [reflexivity|now rewrite IH]. Qed.

Lemma read_digits (ds rest digits : string) (total : Z) :
  forallb is_digit (list_ascii_of_string ds) = true ->
  read_duration (ds ++ rest) digits total
  = read_duration rest (digits ++ ds) total.
Proof.
  revert digits. induction ds as [|c ds IH]; intros digits H.
  - cbn. now rewrite string_app_nil.
  - cbn [list_ascii_of_string forallb] in H.
    apply andb_true_iff in H as [Hc Hds].
    cbn [String.append read_duration]. rewrite Hc, (IH _ Hds).
    now rewrite string_app_assoc.
Qed.

Lemma uint_digits (d : Decimal.uint) :
  forallb is_digit (list_ascii_of_string (NilEmpty.string_of_uint d)) = true.
Proof. induction d; cbn; try reflexivity; assumption. Qed.

Lemma str_int_pos (p : positive) :
  Visualize.str_int (Z.pos p) = NilEmpty.string_of_uint (Pos.to_uint p).
Proof.
  unfold Visualize.str_int. cbn [Z.to_int NilZero.string_of_int].
  unfold NilZero.string_of_uint.
  pose proof (Unsigned.to_uint_nonnil p) as H.
  destruct (Pos.to_uint p); [now destruct H|reflexivity..].
Qed.

Lemma number_str_int (n : Z) : 0 < n -> number (Visualize.str_int n) = n.
Proof.
  destruct n as [|p|p]; try lia. intros _.
  rewrite str_int_pos. unfold number. rewrite NilEmpty.usu.
  unfold Z.of_uint. now rewrite Unsigned.of_to.
Qed.

Lemma str_int_digits (n : Z) :
  0 < n ->
  forallb is_digit (list_ascii_of_string (Visualize.str_int n)) = true.
Proof.
  destruct n as [|p|p]; try lia. intros _.
  rewrite str_int_pos. apply uint_digits.
Qed.

Lemma read_part (n : Z) (u : ascii) (rest : string) (total : Z) :
  0 < n -> is_digit u = false ->
  read_duration (render_part (n, u) ++ rest) "" total
  = read_duration rest "" (total + n * unit_seconds u).
Proof.
  intros Hn Hu. unfold render_part. cbn [fst snd].
  rewrite string_app_assoc, read_digits by now apply str_int_digits.
  cbn [String.append read_duration]. rewrite Hu.
  now rewrite number_str_int.
Qed.

Lemma read_parts (l : list (Z * ascii)) (total : Z) :
  Forall (fun p => 0 < fst p /\ is_digit (snd p) = false) l ->
  read_duration (PyStr.join ", " (map render_part l)) "" total
  = total + parts_seconds l.
Proof.
  intros H. revert total.
  induction H as [|[n u] l [Hn Hu] Hl IH]; intros total.
  - cbn. lia.
  - cbn [fst snd] in *. destruct l as [|q l].
    + cbn [map PyStr.join parts_seconds fold_right fst snd].
      rewrite <- (string_app_nil (render_part (n, u))).
      rewrite read_part by assumption. cbn. lia.
    + change (PyStr.join ", " (map render_part ((n, u) :: q :: l)))
        with (render_part (n, u)
              ++ String "," (String " "
                   (PyStr.join ", " (map render_part (q :: l)))))%string.
      rewrite read_part by assumption.
      cbn [read_duration]. 
      replace (is_digit ",") with false by reflexivity.
      replace (is_digit " ") with false by reflexivity.
      rewrite IH. cbn [parts_seconds fold_right fst snd].
      change (number "") with 0.
      change (unit_seconds ",") with 0. change (unit_seconds " ") with 0.
      fold (parts_seconds (q :: l)). cbn [parts_seconds fold_right]. lia.
Qed.

(** The parts of a duration, as [format_duration] lists them. *)
Lemma format_duration_parts (t : Z) :
  let d := t / 86400 in
  let h := t mod 86400 / 3600 in
  let m := t mod 86400 mod 3600 / 60 in
  let s := t mod 86400 mod 3600 mod 60 in
  Visualize.format_duration t
  = PyStr.join ", "
      (map render_part
         (filter (fun p => Z.ltb 0 (fst p))
                 [(d, "d"%char); (h, "h"%char); (m, "m"%char);
                  (s, "s"%char)])).
Proof.
  intros d h m s. unfold Visualize.format_duration, Visualize.append_part.
  fold d h m s. cbn [filter fst].
  destruct (Z.ltb 0 d), (Z.ltb 0 h), (Z.ltb 0 m), (Z.ltb 0 s); reflexivity.
Qed.

Lemma read_format_duration (t : Z) :
  read_duration (Visualize.format_duration t) "" 0
  = Z.max 0 (t / 86400) * 86400 + t mod 86400.
Proof.
  rewrite format_duration_parts.
  set (d := t / 86400). set (h := t mod 86400 / 3600).
  set (m := t mod 86400 mod 3600 / 60).
  set (s := t mod 86400 mod 3600 mod 60).
  rewrite read_parts.
  2:{ apply Forall_forall. intros [n u] Hin.
      apply filter_In in Hin as [Hin Hpos]. cbn [fst snd] in *.
      apply Z.ltb_lt in Hpos. split; [exact Hpos|].
      destruct Hin as [E|[E|[E|[E|[]]]]]; inversion E; reflexivity. }
  assert (Hh : 0 <= h) by (apply Z.div_pos; [apply Z.mod_pos_bound|]; lia).
  assert (Hm : 0 <= m) by (apply Z.div_pos; [apply Z.mod_pos_bound|]; lia).
  assert (Hs : 0 <= s) by (apply Z.mod_pos_bound; lia).
  assert (Hsum : t mod 86400 = h * 3600 + m * 60 + s).
  { unfold h, m, s.
    pose proof (Z.div_mod (t mod 86400) 3600 ltac:(lia)).
    pose proof (Z.div_mod (t mod 86400 mod 3600) 60 ltac:(lia)). lia. }
  rewrite Hsum. cbn [filter fst].
  destruct (Z.ltb_spec 0 d), (Z.ltb_spec 0 h), (Z.ltb_spec 0 m),
    (Z.ltb_spec 0 s); cbn [parts_seconds fold_right fst snd];
    change (unit_seconds "d") with 86400; change (unit_seconds "h") with 3600;
    change (unit_seconds "m") with 60; change (unit_seconds "s") with 1; lia.
Qed.

(** X14.  The text of a duration tells the duration: two durations of zero
    or more seconds that [format_duration] prints alike are equal. *)
Theorem format_duration_is_injective (a b : Z) :
  0 <= a -> 0 <= b ->
  Visualize.format_duration a = Visualize.format_duration b -> a = b.
Proof.
  intros Ha Hb H.
  assert (Hread : forall t, 0 <= t ->
             read_duration (Visualize.format_duration t) "" 0 = t).
  { intros t Ht. rewrite read_format_duration.
    pose proof (Z.div_mod t 86400 ltac:(lia)).
    assert (0 <= t / 86400) by (apply Z.div_pos; lia). lia. }
  rewrite <- (Hread a Ha), <- (Hread b Hb). now rewrite H.
Qed.

Lemma format_duration_is_injective_witness :
  Visualize.format_duration 93784 = "1d, 2h, 3m, 4s"
  /\ Visualize.format_duration 3600 = "1h"
  /\ (Visualize.format_duration 7 = Visualize.format_duration (3 + 4)
      -> 7 = 3 + 4).
Proof.
  split; [reflexivity|]. split; [reflexivity|].
  apply format_duration_is_injective; lia.
Defined.

Lemma join_empty (sep x : string) (l : list string) :
  PyStr.join sep (x :: l) = "" -> x = "".
Proof.
  destruct l as [|y l]; cbn [PyStr.join]; [trivial|].
  destruct x; [reflexivity|discriminate].
Qed.

Lemma render_part_nonempty (p : Z * ascii) : render_part p <> "".
Proof.
  unfold render_part. destruct (Visualize.str_int (fst p)); discriminate.
Qed.

(** X15.  What [format_duration] prints for no duration and for a negative
    one, the duration being a whole number of seconds.  The day count of a
    negative number of seconds is negative and is left out, while hours,
    minutes and seconds are taken from the remainder of the day, which is
    never negative: a negative duration prints as its remainder modulo one
    day ([-1] as [23h, 59m, 59s]).  Among the whole numbers of seconds the
    text is empty exactly for zero and for a negative whole number of
    days. *)
Theorem format_duration_of_nothing_and_less (t : Z) :
  (t < 0 ->
   Visualize.format_duration t = Visualize.format_duration (t mod 86400))
  /\ (Visualize.format_duration t = "" <-> t <= 0 /\ t mod 86400 = 0).
Proof.
  pose proof (Z.mod_pos_bound t 86400 ltac:(lia)) as Hr.
  pose proof (Z.div_mod t 86400 ltac:(lia)) as Hdm.
  split.
  - intros Hneg. rewrite !format_duration_parts.
    rewrite Z.mod_mod by lia.
    rewrite (Z.div_small (t mod 86400) 86400) by lia.
    assert (Hd : Z.ltb 0 (t / 86400) = false).
    { apply Z.ltb_ge. assert (t / 86400 < 0) by (apply Z.div_lt_upper_bound; lia).
      lia. }
    cbn [filter fst]. now rewrite Hd.
  - rewrite format_duration_parts.
    set (d := t / 86400). set (h := t mod 86400 / 3600).
    set (m := t mod 86400 mod 3600 / 60).
    set (s := t mod 86400 mod 3600 mod 60).
    assert (Hh : 0 <= h) by (apply Z.div_pos; lia).
    assert (Hm : 0 <= m)
      by (apply Z.div_pos; [apply Z.mod_pos_bound|]; lia).
    assert (Hs : 0 <= s) by (apply Z.mod_pos_bound; lia).
    assert (Hsum : t mod 86400 = h * 3600 + m * 60 + s).
    { unfold h, m, s.
      pose proof (Z.div_mod (t mod 86400) 3600 ltac:(lia)).
      pose proof (Z.div_mod (t mod 86400 mod 3600) 60 ltac:(lia)). lia. }
    fold d in Hdm. split.
    + intros H.
      destruct (filter (fun p => Z.ltb 0 (fst p))
                  [(d, "d"%char); (h, "h"%char); (m, "m"%char);
                   (s, "s"%char)]) as [|p l] eqn:E.
      * cbn [filter fst] in E.
        destruct (Z.ltb_spec 0 d), (Z.ltb_spec 0 h), (Z.ltb_spec 0 m),
          (Z.ltb_spec 0 s); try discriminate. lia.
      * cbn [map] in H. apply join_empty in H.
        now destruct (render_part_nonempty p).
    + intros [Hle Hz]. rewrite Hz in *.
      assert (h = 0 /\ m = 0 /\ s = 0) as (-> & -> & ->) by lia.
      assert (Hd : Z.ltb 0 d = false) by (apply Z.ltb_ge; lia).
      cbn [filter fst]. now rewrite Hd.
Qed.

Lemma format_duration_of_nothing_and_less_witness :
  Visualize.format_duration (-1) = "23h, 59m, 59s"
  /\ Visualize.format_duration (-1) = Visualize.format_duration 86399
  /\ Visualize.format_duration (-172800) = "".
Proof.
  destruct (format_duration_of_nothing_and_less (-1)) as [Hneg _].
  destruct (format_duration_of_nothing_and_less (-172800)) as [_ Hempty].
  split; [reflexivity|]. split; [apply Hneg; lia|].
  apply Hempty. split; [lia|reflexivity].
Defined.


(** ** The bubbles *)

Import Visualize.

Lemma replace_char_app (old : ascii) (new a b : string) :
  replace_char old new (a ++ b)
  = (replace_char old new a ++ replace_char old new b)%string.
Proof.
  induction a as [|c a IH]; [reflexivity|].
  cbn [String.append replace_char]. destruct (Ascii.eqb c old).
  - now rewrite IH, string_app_assoc.
  - cbn [String.append]. now rewrite IH.
Qed.

Lemma escape_text_cons (c : ascii) (s : string) :
  escape_text (String c s)
  = ((if Ascii.eqb c "<" then "&lt;"
      else if Ascii.eqb c ">" then "&gt;"
      else if Ascii.eqb c Re.newline then "<br>"
      else String c "") ++ escape_text s)%string.
Proof.
  unfold escape_text. cbn [replace_char].
  destruct (Ascii.eqb_spec c "<") as [->|H1]; [reflexivity|].
  cbn [replace_char].
  destruct (Ascii.eqb_spec c ">") as [->|H2]; [reflexivity|].
  cbn [replace_char].
  destruct (Ascii.eqb_spec c Re.newline) as [->|H3]; reflexivity.
Qed.

Lemma escape_text_escaped (text : string) : escaped_html (escape_text text).
Proof.
  induction text as [|c text IH]; [constructor|].
  rewrite escape_text_cons.
  destruct (Ascii.eqb_spec c "<") as [->|H1].
  - cbn [String.append].
    repeat (apply escaped_char; [discriminate|discriminate|discriminate|]).
    exact IH.
  - destruct (Ascii.eqb_spec c ">") as [->|H2].
    + cbn [String.append].
      repeat (apply escaped_char; [discriminate|discriminate|discriminate|]).
      exact IH.
    + destruct (Ascii.eqb_spec c Re.newline) as [->|H3].
      * now apply escaped_br.
      * cbn [String.append]. now apply escaped_char.
Qed.

Lemma turn_bubble
  (to_datetime : value -> res (option Z)) (markdown : value -> res string)
  (re_template : string -> res string) (conv : ConvFrame) (source : cell)
  (search_phrase : option string) (a u : string) (now now' : clock)
  (n : Z) (r : list (string * value)) (html : string) :
  turn to_datetime markdown re_template conv source search_phrase a u now n r
  = Ok (now', html) ->
  exists timing_html language_label message_html,
    html = bubble_of conv source search_phrase a u n r timing_html
             language_label message_html
    /\ language_label_of (get_or_none conv r "language") = Ok language_label
    /\ (is_assistant (at_key r "role") = false ->
        timing_html = "" /\ escaped_html message_html
        /\ exists text, at_key r "message" = VStr text
             /\ (marked search_phrase (VStr text) = false ->
                 message_html = escape_text text))
    /\ (is_source source "wc" = false -> timing_html = "").
Proof.
  intros H. unfold turn, item in H.
  destruct (in_columns conv "role"); cbn [bindr] in H; [|discriminate].
  destruct (in_columns conv "message"); cbn [bindr] in H; [|discriminate].
  destruct (if is_source source "wc" then _ else _) as [[clk timing_info]|e]
    eqn:Etime in H; cbn [bindr] in H; [|discriminate].
  destruct (language_label_of _) as [label|e] eqn:El in H; cbn [bindr] in H;
    [|discriminate].
  destruct (highlight re_template search_phrase (at_key r "message"))
    as [[c m]|e] eqn:Eh; cbn [bindr] in H; [|discriminate].
  assert (Hc : c = marked search_phrase (at_key r "message")
               /\ (c = false -> m = at_key r "message")).
  { unfold highlight, marked in *.
    destruct (given search_phrase) as [p|].
    - destruct (at_key r "message") as [| | | |text]; try discriminate.
      destruct (found p text).
      + destruct (if has_backslash _ then _ else _) as [new|e]; cbn in Eh;
          [|discriminate].
        injection Eh as <- <-. split; [reflexivity|discriminate].
      + injection Eh as <- <-. now split.
    - injection Eh as <- <-. now split. }
  destruct Hc as [-> Hm].
  assert (Htext : forall t, m = VStr t ->
            exists text, at_key r "message" = VStr text).
  { intros t ->. unfold highlight in Eh.
    destruct (given search_phrase) as [p|].
    - destruct (at_key r "message") as [| | | |text]; try discriminate.
      now exists text.
    - injection Eh as _ E. now exists t. }
  assert (Hnowc : is_source source "wc" = false -> timing_info = "").
  { intros Hs. rewrite Hs in Etime. now injection Etime as _ <-. }
  unfold bubble_of, bubble_with.
  destruct (is_assistant (at_key r "role")).
  - destruct (markdown m) as [mh|e]; cbn [bindr] in H; [|discriminate].
    injection H as <- <-. do 3 eexists.
    split; [reflexivity|]. split; [exact El|]. split; [discriminate|].
    intros Hs. now rewrite (Hnowc Hs).
  - destruct m as [| | | |t]; try discriminate.
    injection H as <- <-. do 3 eexists.
    split; [reflexivity|]. split; [exact El|]. split.
    + intros _. split; [reflexivity|]. split; [apply escape_text_escaped|].
      destruct (Htext t eq_refl) as [text Ht]. exists text.
      split; [exact Ht|]. intros Hno. rewrite Ht in Hm.
      specialize (Hm Hno). now injection Hm as ->.
    + reflexivity.
Qed.

Lemma turns_from_turn
  (to_datetime : value -> res (option Z)) (markdown : value -> res string)
  (re_template : string -> res string) (conv : ConvFrame) (source : cell)
  (search_phrase : option string) (a u : string)
  (rs : list (list (string * value))) :
  forall (now : clock) (n : Z) (l : list string),
    turns_from to_datetime markdown re_template conv source search_phrase a u
      now n rs = Ok l ->
    List.length l = List.length rs
    /\ forall i r, nth_error rs i = Some r ->
         exists now_i now_i' html,
           nth_error l i = Some html
           /\ turn to_datetime markdown re_template conv source search_phrase
                a u now_i (n + Z.of_nat i) r = Ok (now_i', html).
Proof.
  induction rs as [|r0 rs IH]; intros now n l H; cbn [turns_from] in H.
  - injection H as <-. split; [reflexivity|]. intros [|i] r Hr; discriminate.
  - destruct (turn _ _ _ _ _ _ _ _ now n r0) as [[now1 html0]|e] eqn:Et;
      cbn [bindr] in H; [|discriminate].
    destruct (turns_from _ _ _ _ _ _ _ _ now1 (n + 1) rs) as [rest|e] eqn:Er;
      cbn [bindr] in H; [|discriminate].
    injection H as <-. destruct (IH _ _ _ Er) as [Hlen Hnth].
    split; [cbn [List.length]; now rewrite Hlen|].
    intros [|i] r Hr; cbn [nth_error] in *.
    + injection Hr as <-. exists now, now1, html0.
      split; [reflexivity|]. now rewrite Z.add_0_r.
    + destruct (Hnth i r Hr) as (ni & ni' & html & Hl & Ht).
      exists ni, ni', html. split; [exact Hl|].
      now replace (n + Z.of_nat (S i)) with (n + 1 + Z.of_nat i) by lia.
Qed.

(** The bubbles of a conversation, one by one. *)
Lemma chat_bubbles_turns
  (read_file : string -> option string) (b64encode : string -> string)
  (to_datetime : value -> res (option Z)) (markdown : value -> res string)
  (re_template : string -> res string) (conv : ConvFrame) (source : cell)
  (search_phrase : option string) (l : list string) :
  chat_bubbles read_file b64encode to_datetime markdown re_template conv
    source search_phrase = Ok l ->
  exists a u,
    svg_to_base64 read_file b64encode assistant_avatar_path = Ok a
    /\ svg_to_base64 read_file b64encode user_avatar_path = Ok u
    /\ List.length l = List.length (conv_rows conv)
    /\ forall i r, nth_error (conv_rows conv) i = Some r ->
         exists timing_html language_label message_html,
           nth_error l i
           = Some (bubble_of conv source search_phrase a u
                     (Z.of_nat i + 1) r timing_html language_label
                     message_html)
           /\ language_label_of (get_or_none conv r "language")
              = Ok language_label
           /\ (is_assistant (at_key r "role") = false ->
               timing_html = "" /\ escaped_html message_html
               /\ exists text, at_key r "message" = VStr text
                    /\ (marked search_phrase (VStr text) = false ->
                        message_html = escape_text text))
           /\ (is_source source "wc" = false -> timing_html = "").
Proof.
  unfold chat_bubbles. intros H.
  destruct (svg_to_base64 _ _ assistant_avatar_path) as [a|e];
    cbn [bindr] in H; [|discriminate].
  destruct (svg_to_base64 _ _ user_avatar_path) as [u|e];
    cbn [bindr] in H; [|discriminate].
  exists a, u. split; [reflexivity|]. split; [reflexivity|].
  destruct (turns_from_turn _ _ _ _ _ _ _ _ _ _ _ H) as [Hlen Hnth].
  split; [exact Hlen|]. intros i r Hr.
  destruct (Hnth i r Hr) as (ni & ni' & html & Hl & Ht).
  destruct (turn_bubble _ _ _ _ _ _ _ _ _ _ _ Ht)
    as (t & lab & m & -> & Hlab & Hh & Hw).
  exists t, lab, m. rewrite Hl. split; [f_equal; f_equal; lia|].
  split; [exact Hlab|]. split; assumption.
Qed.

Section Pages.

Variable read_file : string -> option string.
Variable b64encode : string -> string.
Variable json_loads : string -> res conv_data.
Variable json_normalize : list (list (string * value)) -> ConvFrame.
Variable to_datetime_cell : cell -> res (option Z).
Variable format_cell : DataFrame -> string -> cell -> string.
Variable to_datetime : value -> res (option Z).
Variable markdown : value -> res string.
Variable re_template : string -> res string.
Variable str_accessor : list value -> bool.
Variable can_write : string -> bool.
Variable write_file : string -> string -> option (error * string).

Local Abbreviation avatar := (svg_to_base64 read_file b64encode).
Local Abbreviation bubbles :=
  (chat_bubbles read_file b64encode to_datetime markdown re_template).
Local Abbreviation bubbles_html :=
  (generate_chat_bubbles read_file b64encode to_datetime markdown
     re_template).
Local Abbreviation metadata :=
  (format_conversation_metadata to_datetime_cell format_cell).
Local Abbreviation unpack := (unpack_conversation json_loads json_normalize).
Local Abbreviation page_of :=
  (full_html_of read_file b64encode json_loads json_normalize
     to_datetime_cell format_cell to_datetime markdown re_template
     str_accessor).
Local Abbreviation print_or_save :=
  (print_or_save_convo read_file b64encode json_loads json_normalize
     to_datetime_cell format_cell to_datetime markdown re_template
     str_accessor can_write write_file).

(** X16. When [generate_chat_bubbles] comes to an end, both avatars were
    read, and the conversation has one bubble for each of its rows, in their
    order: the bubble of row [i] carries the number [i + 1], the class, the
    avatar and the colour of the role of the row (assistant or anyone
    else), a red frame exactly when the message holds the search phrase,
    and the label of the language of the row. *)
Theorem one_bubble_per_turn (conv : ConvFrame) (source : cell)
  (search_phrase : option string) (l : list string) :
  bubbles conv source search_phrase = Ok l ->
  exists a u,
    avatar assistant_avatar_path = Ok a
    /\ avatar user_avatar_path = Ok u
    /\ List.length l = List.length (conv_rows conv)
    /\ forall i r, nth_error (conv_rows conv) i = Some r ->
         exists timing_html language_label message_html,
           nth_error l i
           = Some (bubble_of conv source search_phrase a u
                     (Z.of_nat i + 1) r timing_html language_label
                     message_html)
           /\ language_label_of (get_or_none conv r "language")
              = Ok language_label.
Proof.
  intros H.
  destruct (chat_bubbles_turns _ _ _ _ _ _ _ _ H)
    as (a & u & Ha & Hu & Hlen & Hnth).
  exists a, u. split; [exact Ha|]. split; [exact Hu|]. split; [exact Hlen|].
  intros i r Hr.
  destruct (Hnth i r Hr) as (t & lab & m & Hl & Hlab & _).
  exists t, lab, m. split; assumption.
Qed.

(** X17. The message of anyone but the assistant is shown as text: in its
    bubble every [<] and [>] of the message is replaced, the only tags are
    the [<br>] that stand for the line breaks, and there is no line of
    timing.  The replacement comes after the highlighting, so the markup
    that highlights a search phrase is shown as text as well.  A message
    that is no text does not come this far. *)
Theorem human_messages_are_escaped (conv : ConvFrame) (source : cell)
  (search_phrase : option string) (l : list string) (i : nat)
  (r : list (string * value)) :
  bubbles conv source search_phrase = Ok l ->
  nth_error (conv_rows conv) i = Some r ->
  is_assistant (at_key r "role") = false ->
  exists u language_label text message_html,
    avatar user_avatar_path = Ok u
    /\ at_key r "message" = VStr text
    /\ nth_error l i
       = Some (bubble "human-turn" (str_int (Z.of_nat i + 1)) (avatar_img u)
                 "#474747"
                 (if marked search_phrase (VStr text) then red_border
                  else "")
                 "" language_label
                 (if is_source source "wc" then flags_of conv r else "")
                 message_html)
    /\ escaped_html message_html
    /\ (marked search_phrase (VStr text) = false ->
        message_html = escape_text text).
Proof.
  intros H Hr Hrole.
  destruct (chat_bubbles_turns _ _ _ _ _ _ _ _ H)
    as (a & u & _ & Hu & _ & Hnth).
  destruct (Hnth i r Hr) as (t & lab & m & Hl & _ & Hh & _).
  destruct (Hh Hrole) as (-> & Hesc & text & Ht & Hplain).
  exists u, lab, text, m. split; [exact Hu|]. split; [exact Ht|].
  unfold bubble_of, bubble_with in Hl. rewrite Hrole, Ht in Hl.
  split; [exact Hl|]. split; assumption.
Qed.

Lemma turn_outside_wc (to_datetime' : value -> res (option Z))
  (conv : ConvFrame) (source : cell) (search_phrase : option string)
  (a u : string) (now : clock) (n : Z) (r : list (string * value)) :
  is_source source "wc" = false ->
  turn to_datetime markdown re_template conv source search_phrase a u now n r
  = turn to_datetime' markdown re_template conv source search_phrase a u now
      n r.
Proof. intros Hs. unfold turn. now rewrite Hs. Qed.

Lemma turns_outside_wc (to_datetime' : value -> res (option Z))
  (conv : ConvFrame) (source : cell) (search_phrase : option string)
  (a u : string) (rs : list (list (string * value))) :
  is_source source "wc" = false ->
  forall now n,
    turns_from to_datetime markdown re_template conv source search_phrase a
      u now n rs
    = turns_from to_datetime' markdown re_template conv source search_phrase
        a u now n rs.
Proof.
  intros Hs. induction rs as [|r rs IH]; intros now n; [reflexivity|].
  cbn [turns_from]. rewrite turn_outside_wc with (to_datetime' := to_datetime') by exact Hs.
  destruct (turn to_datetime' _ _ _ _ _ _ _ _ _ _) as [[now' html]|e];
    cbn [bindr]; [|reflexivity].
  now rewrite IH.
Qed.

(** X18. The lines of timing and the flags (toxic, redacted) are for the
    source [wc] alone: for any other source the time stamps are never
    read, so the bubbles are the same whatever [pd.to_datetime] would say of
    them, and every bubble has an empty line of timing and no flags. *)
Theorem timing_and_flags_are_for_wc
  (to_datetime' : value -> res (option Z)) (conv : ConvFrame)
  (source : cell) (search_phrase : option string) :
  is_source source "wc" = false ->
  bubbles_html conv source search_phrase
  = generate_chat_bubbles read_file b64encode to_datetime' markdown
      re_template conv source search_phrase
  /\ forall l, bubbles conv source search_phrase = Ok l ->
       forall i r, nth_error (conv_rows conv) i = Some r ->
         exists a u language_label message_html,
           let role := at_key r "role" in
           nth_error l i
           = Some (bubble
                     (if is_assistant role then "agent-turn"
                      else "human-turn")
                     (str_int (Z.of_nat i + 1))
                     (avatar_img (if is_assistant role then a else u))
                     (if is_assistant role then "#2A2A2A" else "#474747")
                     (if marked search_phrase (at_key r "message")
                      then red_border else "")
                     "" language_label "" message_html).
Proof.
  intros Hs. split.
  - unfold generate_chat_bubbles, chat_bubbles.
    destruct (avatar assistant_avatar_path) as [a|e]; [|reflexivity].
    destruct (avatar user_avatar_path) as [u|e]; [|reflexivity].
    cbn [bindr]. now rewrite turns_outside_wc with (to_datetime' := to_datetime') by exact Hs.
  - intros l H i r Hr.
    destruct (chat_bubbles_turns _ _ _ _ _ _ _ _ H)
      as (a & u & _ & _ & _ & Hnth).
    destruct (Hnth i r Hr) as (t & lab & m & Hl & _ & _ & Hw).
    rewrite (Hw Hs) in Hl. unfold bubble_of, bubble_with in Hl.
    rewrite Hs in Hl. now exists a, u, lab, m.
Qed.

Lemma zip_with_map {A B C : Type} (g : A -> B -> C) (h : A -> B)
  (l : list A) :
  zip_with g l (map h l) = map (fun x => g x (h x)) l.
Proof.
  induction l as [|x l IH]; [reflexivity|]. cbn [map zip_with].
  now rewrite IH.
Qed.

Lemma positions_above (mask : list bool) :
  forall from k, k < from -> existsb (Z.eqb k) (positions from mask) = false.
Proof.
  induction mask as [|b mask IH]; intros from k Hk; [reflexivity|].
  cbn [positions]. destruct b.
  - cbn [existsb]. rewrite IH by lia.
    replace (k =? from) with false by (symmetry; apply Z.eqb_neq; lia).
    reflexivity.
  - apply IH. lia.
Qed.

Lemma positions_nth (mask : list bool) :
  forall from i,
    existsb (Z.eqb (from + Z.of_nat i)) (positions from mask)
    = nth i mask false.
Proof.
  induction mask as [|b mask IH]; intros from i.
  - now destruct i.
  - cbn [positions]. destruct i as [|i].
    + cbn [nth]. rewrite Z.add_0_r. destruct b.
      * cbn [existsb]. now rewrite Z.eqb_refl.
      * apply positions_above. lia.
    + cbn [nth].
      replace (from + Z.of_nat (S i)) with (from + 1 + Z.of_nat i) by lia.
      destruct b.
      * cbn [existsb]. rewrite IH.
        replace (from + 1 + Z.of_nat i =? from) with false
          by (symmetry; apply Z.eqb_neq; lia).
        reflexivity.
      * apply IH.
Qed.

Lemma positions_length (mask : list bool) :
  forall from,
    List.length (positions from mask)
    = List.length (filter (fun b => b) mask).
Proof.
  induction mask as [|b mask IH]; intros from; [reflexivity|].
  cbn [positions filter]. destruct b; cbn [List.length]; now rewrite IH.
Qed.

(** What the search of [print_or_save_convo] leaves behind: the rows with
    one more entry each, and the turns at which the phrase is found. *)
Lemma search_marks_rows (conv conv' : ConvFrame)
  (search_phrase : option string) (count : Z) (turns : list Z) :
  search_marks str_accessor conv search_phrase = Ok (conv', count, turns) ->
  count = Z.of_nat (List.length turns)
  /\ List.length (conv_rows conv') = List.length (conv_rows conv)
  /\ forall i r', nth_error (conv_rows conv') i = Some r' ->
       marked search_phrase (at_key r' "message") = counted turns i
       /\ exists r, nth_error (conv_rows conv) i = Some r
            /\ at_key r' "message" = at_key r "message"
            /\ at_key r' "role" = at_key r "role".
Proof.
  unfold search_marks, marked. destruct (given search_phrase) as [p|].
  - unfold contains_search_mask.
    destruct (in_columns conv "message"); [|discriminate].
    destruct (str_accessor _); [|discriminate].
    cbn [bindr]. intros H. injection H as <- <- <-.
    split; [now rewrite positions_length|].
    unfold set_contains_search. cbn [conv_rows].
    rewrite map_map, zip_with_map.
    split; [now rewrite length_map|].
    intros i r' Hr'. rewrite nth_error_map in Hr'.
    destruct (nth_error (conv_rows conv) i) as [r|] eqn:Er; [|discriminate].
    injection Hr' as <-.
    assert (Hm : at_key (("contains_search",
                           VBool match at_key r "message" with
                                 | VStr text => found p text
                                 | _ => false
                                 end) :: r) "message"
                 = at_key r "message") by reflexivity.
    rewrite Hm. split.
    + unfold counted.
      rewrite (positions_nth _ 0 i : existsb (Z.eqb (Z.of_nat i)) _ = _).
      rewrite (nth_error_nth _ _ false (map_nth_error _ i _ Er)).
      reflexivity.
    + exists r. split; [reflexivity|]. split; reflexivity.
  - intros H. injection H as <- <- <-.
    split; [reflexivity|]. split; [reflexivity|].
    intros i r' Hr'. split; [reflexivity|].
    exists r'. now split.
Qed.

(** X19. The search of [print_or_save_convo] and the bubbles agree: the
    count is the number of the turns that the search lists, and the bubbles
    framed in red are those of the listed turns, the turn listed as [t]
    being the bubble with the number [t + 1]. *)
Theorem framed_bubbles_are_the_counted_turns (conv conv' : ConvFrame)
  (source : cell) (search_phrase : option string) (count : Z)
  (turns : list Z) (l : list string) :
  search_marks str_accessor conv search_phrase = Ok (conv', count, turns) ->
  bubbles conv' source search_phrase = Ok l ->
  count = Z.of_nat (List.length turns)
  /\ List.length l = List.length (conv_rows conv)
  /\ exists a u,
       forall i r', nth_error (conv_rows conv') i = Some r' ->
         exists timing_html language_label message_html,
           nth_error l i
           = Some (bubble_with (counted turns i) conv' source a u
                     (Z.of_nat i + 1) r' timing_html language_label
                     message_html).
Proof.
  intros Hs Hb.
  destruct (search_marks_rows _ _ Hs) as (Hcount & Hlen & Hrows).
  destruct (chat_bubbles_turns _ _ _ _ _ _ _ _ Hb)
    as (a & u & _ & _ & Hl & Hnth).
  split; [exact Hcount|]. split; [now rewrite Hl|].
  exists a, u. intros i r' Hr'.
  destruct (Hnth i r' Hr') as (t & lab & m & Hi & _).
  destruct (Hrows i r' Hr') as [Hmark _].
  exists t, lab, m. unfold bubble_of in Hi. now rewrite Hmark in Hi.
Qed.


(** ** The search phrase *)

Lemma found_contains (phrase text : string) :
  found phrase text
  = PyStr.contains (PyStr.lower phrase) (PyStr.lower text).
Proof.
  unfold found, escaped. rewrite parse_escape.
  apply (search_from_lits false true).
Qed.

Lemma given_some (phrase : string) :
  phrase <> "" -> given (Some phrase) = Some phrase.
Proof.
  intros H. unfold given. now apply String.eqb_neq in H as ->.
Qed.

(** X20. The search phrase of the bubbles is a text, not a pattern, and its
    case does not count.  For a phrase and a message of Latin-1 characters,
    which the strings here are, a message is marked exactly when, both put
    in lower case, it holds the phrase somewhere.  With a phrase, a message
    that is no text (a missing one) is not marked, and the turn raises
    [TypeError]. *)
Theorem phrase_is_sought_as_text (phrase : string) :
  phrase <> "" ->
  (forall text,
     marked (Some phrase) (VStr text) = true
     <-> exists before rest,
           PyStr.lower text
           = (before ++ PyStr.lower phrase ++ rest)%string)
  /\ (forall message, (forall text, message <> VStr text) ->
        marked (Some phrase) message = false
        /\ highlight re_template (Some phrase) message
           = Err (Builtin (TypeError not_text_msg))).
Proof.
  intros Hp. split.
  - intros text. unfold marked. rewrite (given_some Hp), found_contains.
    apply contains_iff.
  - intros message Hm. unfold marked, highlight. rewrite (given_some Hp).
    destruct message as [| | | |text]; try (now split).
    now destruct (Hm text).
Qed.

Lemma lower_length (s : string) :
  String.length (PyStr.lower s) = String.length s.
Proof. induction s as [|c s IH]; cbn; [reflexivity|now rewrite IH]. Qed.

Lemma lits_length (s : string) : List.length (lits s) = String.length s.
Proof.
  unfold lits. rewrite length_map.
  induction s as [|c s IH]; cbn; [reflexivity|now rewrite IH].
Qed.

Lemma sub_from_skip (r : list Re.atom) (new m rest : string) :
  sub_from r new (String.length m) (m ++ rest) = sub_from r new 0 rest.
Proof.
  induction m as [|c m IH]; [now destruct rest|]. cbn. exact IH.
Qed.

Lemma sub_from_none (phrase new s : string) :
  found phrase s = false -> sub_from (lits phrase) new 0 s = s.
Proof.
  rewrite found_contains. induction s as [|c s IH]; [reflexivity|].
  cbn [PyStr.lower PyStr.contains]. intros H.
  apply orb_false_iff in H as [Hh Ht]. cbn [sub_from].
  rewrite (match_here_lits false false phrase (String c s) :
             Re.match_here true (lits phrase) false (String c s) = _).
  cbn [fold_case PyStr.lower]. rewrite Hh. now rewrite (IH Ht).
Qed.

Lemma has_backslash_app (a b : string) :
  has_backslash (a ++ b) = has_backslash a || has_backslash b.
Proof.
  unfold has_backslash. induction a as [|c a IH]; [reflexivity|].
  cbn [String.append list_ascii_of_string existsb]. now rewrite IH, orb_assoc.
Qed.

(** X21. Highlighting writes the phrase as it was typed in the place of
    what it matched: a message that begins with the phrase in any case, and
    does not hold it again after that, becomes the phrase itself in its
    markup, followed by the rest of the message. *)
Theorem highlight_writes_the_phrase_as_typed (phrase m rest : string) :
  phrase <> "" -> has_backslash phrase = false ->
  PyStr.lower m = PyStr.lower phrase ->
  found phrase rest = false ->
  highlight re_template (Some phrase) (VStr (m ++ rest))
  = Ok (true, VStr (strong phrase ++ rest)).
Proof.
  intros Hp Hb Hm Hrest. unfold highlight. rewrite (given_some Hp).
  assert (Hfound : found phrase (m ++ rest) = true).
  { rewrite found_contains. apply contains_iff. exists ""%string.
    exists (PyStr.lower rest). now rewrite lower_app, Hm. }
  rewrite Hfound.
  assert (Hstrong : has_backslash (strong phrase) = false).
  { unfold strong. cbn [cat].
    rewrite !has_backslash_app, Hb. reflexivity. }
  rewrite Hstrong. cbn [bindr]. do 3 f_equal.
  unfold escaped. rewrite parse_escape.
  assert (Hlen : String.length m = String.length phrase).
  { now rewrite <- (lower_length m), Hm, lower_length. }
  destruct m as [|c m].
  { destruct phrase; [now destruct Hp|discriminate]. }
  cbn [String.append sub_from].
  rewrite (match_here_lits false false phrase (String c (m ++ rest)) :
             Re.match_here true (lits phrase) false _ = _).
  cbn [fold_case].
  change (String c (m ++ rest)) with (String c m ++ rest)%string.
  rewrite lower_app, Hm, startswith_append.
  rewrite lits_length, <- Hlen. cbn [String.length].
  replace (S (String.length m) - 1)%nat with (String.length m) by lia.
  rewrite sub_from_skip, sub_from_none by exact Hrest.
  reflexivity.
Qed.

(** ** The page *)

Lemma rows_of_filter (df : DataFrame) (conv_id : cell) :
  has_column df "conv_id" = true ->
  rows_of df conv_id
  = Ok (set_rows df (filter (in_group conv_id) (rows df))).
Proof.
  intros Hc. unfold rows_of, select. rewrite Hc.
  destruct (@series_eq_not_list (column "conv_id" (rows df))
              (cell_value conv_id)) as [m Hm].
  { intros l. apply cell_value_not_list. }
  pose proof (series_eq_cell_value conv_id (rows df)) as Hf.
  rewrite Hm in *. cbn [bind lift]. now rewrite Hf.
Qed.

Lemma bubbles_need_avatars (conv : ConvFrame) (source : cell)
  (search_phrase : option string) :
  read_file assistant_avatar_path = None
  \/ read_file user_avatar_path = None ->
  exists path,
    bubbles_html conv source search_phrase = Err (OSError path)
    /\ (path = assistant_avatar_path \/ path = user_avatar_path).
Proof.
  unfold generate_chat_bubbles, chat_bubbles, svg_to_base64.
  destruct (read_file assistant_avatar_path) as [a|].
  - intros [H|H]; [discriminate|]. rewrite H.
    exists user_avatar_path. split; [reflexivity|now right].
  - intros _. exists assistant_avatar_path. split; [reflexivity|now left].
Qed.

Lemma page_has_bubbles (df : ChatTable) (conv_id : cell) (row : DataFrame)
  (search_phrase : option string) (html : string) :
  page_of df conv_id row search_phrase = Ok html ->
  exists conv source info_html chat_html,
    metadata (table df) conv_id source search_phrase
      (snd (fst conv)) (snd conv) = Ok info_html
    /\ bubbles_html (fst (fst conv)) source search_phrase = Ok chat_html
    /\ html = page info_html chat_html.
Proof.
  unfold full_html_of. destruct (rows row) as [|first rest]; [discriminate|].
  destruct (row_item row first "source") as [source|e]; [|discriminate].
  cbn [bindr].
  destruct (unpack df conv_id) as [conv_df|e]; [|discriminate].
  cbn [bindr].
  destruct (search_marks str_accessor conv_df search_phrase)
    as [[[conv' count] turns]|e]; [|discriminate].
  cbn [bindr].
  destruct (metadata _ _ _ _ _ _) as [info|e] eqn:Ei; [|discriminate].
  cbn [bindr].
  destruct (bubbles_html _ _ _) as [chat|e] eqn:Ec; [|discriminate].
  cbn [bindr]. intros H. injection H as <-.
  exists (conv', count, turns), source, info, chat.
  split; [exact Ei|]. split; [exact Ec|reflexivity].
Qed.

(** X22. The two avatars are files at fixed paths, read before anything
    else: when one of them cannot be opened, [generate_chat_bubbles] raises
    the error of that file for every conversation, the empty one included,
    and [print_or_save_convo] never shows, writes or prints a page; all it
    can still do is to say that a conversation was not found. *)
Theorem nothing_is_shown_without_the_avatars :
  read_file assistant_avatar_path = None
  \/ read_file user_avatar_path = None ->
  (forall conv source search_phrase,
     exists path,
       bubbles_html conv source search_phrase = Err (OSError path)
       /\ (path = assistant_avatar_path \/ path = user_avatar_path))
  /\ forall df conv_id do_print save save_path search_phrase,
       print_or_save df conv_id do_print save save_path search_phrase
       = (mkEffects [not_found_html] [] [], Ok tt)
       \/ exists e,
            print_or_save df conv_id do_print save save_path search_phrase
            = (no_effects, Err e).
Proof.
  intros Hno. split; [intros; now apply bubbles_need_avatars|].
  intros df conv_id do_print save save_path search_phrase.
  unfold print_or_save_convo.
  destruct (rows_of (table df) conv_id) as [row|e]; [|right; eauto].
  destruct (empty row); [now left|].
  destruct (page_of df conv_id row search_phrase) as [html|e] eqn:E;
    [|right; eauto].
  destruct (page_has_bubbles _ _ _ _ E)
    as (conv & source & info & chat & _ & Hchat & _).
  destruct (bubbles_need_avatars (fst (fst conv)) source search_phrase Hno)
    as (path & Hpath & _).
  rewrite Hpath in Hchat. discriminate.
Qed.

Lemma no_group_of_none (rs : list row) : filter (in_group NA) rs = [].
Proof. induction rs as [|r rs IH]; [reflexivity|exact IH]. Qed.

(** X23. A conversation that the table does not have: [unpack_conversation]
    raises [ValueError] with the identifier in its message,
    [format_conversation_metadata] raises [IndexError], and
    [print_or_save_convo] shows that no conversation was found, writes and
    prints nothing and comes to its end, whatever it was asked to do.  A
    missing identifier ([None]) is such a conversation in every table. *)
Theorem conversation_that_is_not_there (df : ChatTable) (conv_id : cell) :
  has_column (table df) "conv_id" = true ->
  filter (in_group conv_id) (rows (table df)) = [] ->
  unpack df conv_id
  = Err (Builtin (ValueError
      (cat ["No conversation found with conv_id: "; str_py conv_id])))
  /\ (forall source search_phrase search_count search_turns,
        metadata (table df) conv_id source search_phrase search_count
          search_turns = Err (Builtin IndexError))
  /\ (forall do_print save save_path search_phrase,
        print_or_save df conv_id do_print save save_path search_phrase
        = (mkEffects [not_found_html] [] [], Ok tt))
  /\ filter (in_group NA) (rows (table df)) = [].
Proof.
  intros Hc Hnone.
  pose proof (@rows_of_filter (table df) conv_id Hc) as Hrows. rewrite Hnone in Hrows.
  split; [|split; [|split]].
  - unfold unpack_conversation. rewrite Hrows. reflexivity.
  - intros. unfold format_conversation_metadata. rewrite Hrows. reflexivity.
  - intros. unfold print_or_save_convo. rewrite Hrows. reflexivity.
  - apply no_group_of_none.
Qed.


(** ** The metadata *)

(** X25. [format_conversation_metadata] reads the columns of the first row
    of the conversation in a fixed order and raises [KeyError] at the first
    one that the table lacks; for a source other than [wc] it needs seven
    columns, and [views] as the eighth for [sg], and with them it comes to
    its end whatever the cells hold.  For [wc] it comes to its end only
    when the table has the eleven columns of that source. *)
Theorem metadata_reads_its_columns_in_order (df : DataFrame)
  (conv_id source : cell) (search_phrase : option string)
  (search_count : Z) (search_turns : list Z) (first : row)
  (rest : list row) :
  has_column df "conv_id" = true ->
  filter (in_group conv_id) (rows df) = first :: rest ->
  (is_source source "wc" = false ->
   match first_missing df (if is_source source "sg" then sg_columns
                           else plain_columns) with
   | Some key =>
       metadata df conv_id source search_phrase search_count search_turns
       = Err (Builtin (KeyError key))
   | None =>
       exists html,
         metadata df conv_id source search_phrase search_count search_turns
         = Ok html
   end)
  /\ (is_source source "wc" = true ->
      forall html,
        metadata df conv_id source search_phrase search_count search_turns
        = Ok html ->
        first_missing df wc_columns = None).
Proof.
  intros Hc Hrows.
  unfold format_conversation_metadata. rewrite (@rows_of_filter df conv_id Hc), Hrows.
  cbn [bindr set_rows rows].
  unfold languages_str, shown, row_item, first_missing, sg_columns,
    plain_columns, wc_columns.
  cbn [find app].
  split.
  - intros Hwc. rewrite Hwc.
    destruct (is_source source "sg"); cbn [find app].
    + destruct (has_column df "user_id"); cbn [negb bindr]; [|reflexivity].
      destruct (has_column df "user_freq"); cbn [negb bindr];
        [|reflexivity].
      destruct (has_column df "model"); cbn [negb bindr]; [|reflexivity].
      destruct (has_column df "turns"); cbn [negb bindr]; [|reflexivity].
      destruct (has_column df "code_turns"); cbn [negb bindr];
        [|reflexivity].
      destruct (has_column df "n_languages"); cbn [negb bindr];
        [|reflexivity].
      destruct (cell_eq_scalar (SInt 1) (get "n_languages" first));
        (destruct (has_column df "language"); cbn [negb bindr];
         [|reflexivity]);
        (destruct (has_column df "views"); cbn [negb bindr];
         [eexists; reflexivity|reflexivity]).
    + destruct (has_column df "user_id"); cbn [negb bindr]; [|reflexivity].
      destruct (has_column df "user_freq"); cbn [negb bindr];
        [|reflexivity].
      destruct (has_column df "model"); cbn [negb bindr]; [|reflexivity].
      destruct (has_column df "turns"); cbn [negb bindr]; [|reflexivity].
      destruct (has_column df "code_turns"); cbn [negb bindr];
        [|reflexivity].
      destruct (has_column df "n_languages"); cbn [negb bindr];
        [|reflexivity].
      destruct (cell_eq_scalar (SInt 1) (get "n_languages" first));
        (destruct (has_column df "language"); cbn [negb bindr];
         [eexists; reflexivity|reflexivity]).
  - intros Hwc html. rewrite Hwc.
    destruct (has_column df "user_id"); cbn [negb bindr]; [|discriminate].
    destruct (has_column df "user_freq"); cbn [negb bindr]; [|discriminate].
    destruct (has_column df "model"); cbn [negb bindr]; [|discriminate].
    destruct (has_column df "time_last"); cbn [negb bindr]; [|discriminate].
    destruct (to_datetime_cell _) as [last|e]; cbn [bindr]; [|discriminate].
    destruct (has_column df "time_first"); cbn [negb bindr];
      [|discriminate].
    destruct (to_datetime_cell _) as [start|e]; cbn [bindr]; [|discriminate].
    destruct (duration_between last start) as [d|e]; cbn [bindr];
      [|discriminate].
    destruct (has_column df "turns"); cbn [negb bindr]; [|discriminate].
    destruct (has_column df "code_turns"); cbn [negb bindr];
      [|discriminate].
    destruct (has_column df "toxic_turns"); cbn [negb bindr];
      [|discriminate].
    destruct (has_column df "redacted_turns"); cbn [negb bindr];
      [|discriminate].
    destruct (has_column df "n_languages"); cbn [negb bindr];
      [|discriminate].
    destruct (cell_eq_scalar (SInt 1) (get "n_languages" first));
      (destruct (has_column df "language"); cbn [negb bindr];
       [reflexivity|discriminate]).
Qed.

Lemma turns_empty_phrase (conv : ConvFrame) (source : cell) (a u : string)
  (rs : list (list (string * value))) :
  forall now n,
    turns_from to_datetime markdown re_template conv source (Some "") a u
      now n rs
    = turns_from to_datetime markdown re_template conv source None a u now n
        rs.
Proof.
  induction rs as [|r rs IH]; intros now n; [reflexivity|].
  cbn [turns_from].
  change (turn to_datetime markdown re_template conv source (Some "") a u
            now n r)
    with (turn to_datetime markdown re_template conv source None a u now n
            r).
  destruct (turn _ _ _ _ _ _ _ _ _ _ _) as [[now' html]|e]; cbn [bindr];
    [|reflexivity].
  now rewrite IH.
Qed.

(** X26. An empty search phrase is no search phrase: with it
    [print_or_save_convo] does, shows and writes what it does without
    one. *)
Theorem empty_phrase_is_no_phrase (df : ChatTable) (conv_id : cell)
  (do_print save : bool) (save_path : string) :
  print_or_save df conv_id do_print save save_path (Some "")
  = print_or_save df conv_id do_print save save_path None.
Proof.
  unfold print_or_save_convo.
  destruct (rows_of (table df) conv_id) as [row|e]; [|reflexivity].
  destruct (empty row); [reflexivity|].
  assert (Hpage : page_of df conv_id row (Some "")
                  = page_of df conv_id row None).
  { unfold full_html_of.
    destruct (rows row) as [|first rest]; [reflexivity|].
    destruct (row_item row first "source") as [source|e]; [|reflexivity].
    cbn [bindr].
    destruct (unpack df conv_id) as [conv_df|e]; [|reflexivity].
    cbn [bindr].
    change (search_marks str_accessor conv_df (Some ""))
      with (search_marks str_accessor conv_df None).
    destruct (search_marks str_accessor conv_df None)
      as [[[conv' count] turns]|e]; [|reflexivity].
    cbn [bindr].
    change (metadata (table df) conv_id source (Some "") count turns)
      with (metadata (table df) conv_id source None count turns).
    destruct (metadata (table df) conv_id source None count turns)
      as [info|e]; [|reflexivity].
    cbn [bindr]. unfold generate_chat_bubbles, chat_bubbles.
    destruct (avatar assistant_avatar_path) as [a|e]; [|reflexivity].
    destruct (avatar user_avatar_path) as [u|e]; [|reflexivity].
    cbn [bindr]. now rewrite turns_empty_phrase. }
  now rewrite Hpage.
Qed.

(** X27. [unpack_conversation] reads the cell of the first row that has the
    identifier and no other row.  A cell that holds a list of turns gives
    the frame of the list; a cell that holds a text gives what the value of
    the text as JSON gives in its place, and the error of [json.loads] when
    it is no JSON; anything that is no list in the end raises
    [ValueError]. *)
Theorem unpack_reads_the_first_match (df : ChatTable) (conv_id : cell)
  (before rest : list row) (first : row) :
  has_column (table df) "conv_id" = true ->
  has_column (table df) "conversation" = true ->
  rows (table df) = before ++ first :: rest ->
  filter (in_group conv_id) before = [] ->
  in_group conv_id first = true ->
  let unexpected :=
    Err (Builtin (ValueError
      (cat ["Unexpected data format in conversation for conv_id: ";
            str_py conv_id]))) in
  let framed data :=
    match data with
    | JList l => Ok (json_normalize l)
    | _ => unexpected
    end in
  unpack df conv_id
  = match conversation_of df (label first) with
    | JText s =>
        match json_loads s with
        | Ok data => framed data
        | Err e => Err e
        end
    | data => framed data
    end.
Proof.
  intros Hc Hconv Hrows Hbefore Hfirst unexpected framed.
  unfold unpack_conversation.
  rewrite (@rows_of_filter (table df) conv_id Hc), Hrows, filter_app, Hbefore.
  cbn [app filter]. rewrite Hfirst. cbn [bindr].
  unfold empty, has_column in *. cbn [rows set_rows columns].
  destruct (columns (table df)) as [|c cs]; [discriminate|].
  destruct (lookup "conversation" (c :: cs)); [|discriminate].
  cbn [negb].
  destruct (conversation_of df (label first)) as [s|l|]; cbn [bindr];
    [|reflexivity|reflexivity].
  destruct (json_loads s) as [[s'|l|]|e]; reflexivity.
Qed.


(** ** The clock of the turns *)

(** What a turn does to the clock, and the line of its timing. *)
Lemma turn_clock (conv : ConvFrame) (source : cell)
  (search_phrase : option string) (a u : string) (now now' : clock)
  (n : Z) (r : list (string * value)) (html : string) :
  turn to_datetime markdown re_template conv source search_phrase a u now n r
  = Ok (now', html) ->
  exists timing_info language_label message_html,
    (if is_source source "wc"
     then timing to_datetime conv r (at_key r "role") now
     else Ok (now, "")) = Ok (now', timing_info)
    /\ html = bubble_of conv source search_phrase a u n r
                (if is_assistant (at_key r "role")
                 then if String.eqb timing_info "" then ""
                      else timing_div timing_info
                 else "")
                language_label message_html.
Proof.
  intros H. unfold turn, item in H.
  destruct (in_columns conv "role"); cbn [bindr] in H; [|discriminate].
  destruct (in_columns conv "message"); cbn [bindr] in H; [|discriminate].
  destruct (if is_source source "wc" then _ else _) as [[clk timing_info]|e]
    eqn:Etime in H; cbn [bindr] in H; [|discriminate].
  destruct (language_label_of _) as [label|e] in H; cbn [bindr] in H;
    [|discriminate].
  destruct (highlight re_template search_phrase (at_key r "message"))
    as [[c m]|e] eqn:Eh; cbn [bindr] in H; [|discriminate].
  assert (Hc : c = marked search_phrase (at_key r "message")).
  { unfold highlight, marked in *.
    destruct (given search_phrase) as [p|].
    - destruct (at_key r "message") as [| | | |text]; try discriminate.
      destruct (found p text).
      + destruct (if has_backslash _ then _ else _) as [new|e]; cbn in Eh;
          [|discriminate].
        now injection Eh as <- <-.
      + now injection Eh as <- <-.
    - now injection Eh as <- <-. }
  subst c. rewrite Etime. unfold bubble_of, bubble_with.
  destruct (is_assistant (at_key r "role")).
  - destruct (markdown m) as [mh|e]; cbn [bindr] in H; [|discriminate].
    injection H as <- <-. do 3 eexists. split; reflexivity.
  - destruct m as [| | | |t]; try discriminate.
    injection H as <- <-. do 3 eexists. split; reflexivity.
Qed.

Lemma since_last_turn_nonempty (text : string) :
  String.eqb (text ++ " since last turn") "" = false.
Proof. now destruct text. Qed.

(** From an assistant turn on, over the turns of anyone else, up to the next
    assistant turn. *)
Lemma turns_up_to_the_next (conv : ConvFrame) (source : cell)
  (search_phrase : option string) (a u : string)
  (r2 : list (string * value)) (after : list (list (string * value)))
  (t1 t2 : Z) (between : list (list (string * value))) :
  is_source source "wc" = true ->
  in_columns conv "timestamp" = true ->
  is_assistant (at_key r2 "role") = true ->
  to_datetime (at_key r2 "timestamp") = Ok (Some t2) ->
  Forall (fun r => is_assistant (at_key r "role") = false) between ->
  forall now n l,
    initial_timestamp now <> None ->
    last_timestamp now = Some (Some t1) ->
    turns_from to_datetime markdown re_template conv source search_phrase a
      u now n (between ++ r2 :: after) = Ok l ->
    exists language_label message_html,
      nth_error l (List.length between)
      = Some (bubble_of conv source search_phrase a u
                (n + Z.of_nat (List.length between)) r2
                (timing_div
                   (cat [format_duration (t2 - t1); " since last turn"]))
                language_label message_html).
Proof.
  intros Hwc Hts Hr2 Ht2 Hbetween.
  induction Hbetween as [|r between Hr _ IH]; intros now n l Hinit Hlast H;
    cbn [app turns_from] in H.
  - destruct (turn _ _ _ _ _ _ _ _ now n r2) as [[now1 html]|e] eqn:Et;
      cbn [bindr] in H; [|discriminate].
    destruct (turns_from _ _ _ _ _ _ _ _ now1 (n + 1) after) as [rest|e];
      cbn [bindr] in H; [|discriminate].
    injection H as <-.
    destruct (turn_clock _ _ _ _ _ _ _ _ Et) as (info & lab & m & Hc & ->).
    rewrite Hwc in Hc. unfold timing in Hc.
    rewrite Hr2, Hts, Ht2 in Hc. cbn [andb bindr] in Hc.
    destruct (initial_timestamp now) as [initial|]; [|now destruct Hinit].
    rewrite Hlast in Hc. cbn [duration_between bindr] in Hc.
    injection Hc as _ <-.
    rewrite Hr2.
    change (cat [format_duration (t2 - t1); " since last turn"])
      with (format_duration (t2 - t1) ++ " since last turn")%string.
    rewrite since_last_turn_nonempty. cbn [List.length nth_error].
    rewrite Z.add_0_r. now exists lab, m.
  - destruct (turn _ _ _ _ _ _ _ _ now n r) as [[now1 html]|e] eqn:Et;
      cbn [bindr] in H; [|discriminate].
    destruct (turns_from _ _ _ _ _ _ _ _ now1 (n + 1) _) as [rest|e] eqn:Er;
      cbn [bindr] in H; [|discriminate].
    injection H as <-.
    destruct (turn_clock _ _ _ _ _ _ _ _ Et) as (info & lab & m & Hc & _).
    rewrite Hwc in Hc. unfold timing in Hc. rewrite Hr in Hc.
    cbn [andb] in Hc. injection Hc as <- _.
    destruct (IH now (n + 1) rest Hinit Hlast Er) as (lab' & m' & Hn).
    exists lab', m'. cbn [List.length nth_error]. rewrite Hn.
    do 2 f_equal. lia.
Qed.

Lemma turns_from_the_first (conv : ConvFrame) (source : cell)
  (search_phrase : option string) (a u : string)
  (r1 r2 : list (string * value))
  (between after : list (list (string * value))) (t1 t2 : Z)
  (before : list (list (string * value))) :
  is_source source "wc" = true ->
  in_columns conv "timestamp" = true ->
  is_assistant (at_key r1 "role") = true ->
  is_assistant (at_key r2 "role") = true ->
  to_datetime (at_key r1 "timestamp") = Ok (Some t1) ->
  to_datetime (at_key r2 "timestamp") = Ok (Some t2) ->
  Forall (fun r => is_assistant (at_key r "role") = false) between ->
  forall now n l,
    (initial_timestamp now <> None -> last_timestamp now <> None) ->
    turns_from to_datetime markdown re_template conv source search_phrase a
      u now n (before ++ r1 :: between ++ r2 :: after) = Ok l ->
    let i := (List.length before + 1 + List.length between)%nat in
    exists language_label message_html,
      nth_error l i
      = Some (bubble_of conv source search_phrase a u (n + Z.of_nat i) r2
                (timing_div
                   (cat [format_duration (t2 - t1); " since last turn"]))
                language_label message_html).
Proof.
  intros Hwc Hts Hr1 Hr2 Ht1 Ht2 Hbetween.
  induction before as [|r before IH]; intros now n l Hnow H i;
    cbn [app turns_from] in H.
  - destruct (turn _ _ _ _ _ _ _ _ now n r1) as [[now1 html]|e] eqn:Et;
      cbn [bindr] in H; [|discriminate].
    destruct (turns_from _ _ _ _ _ _ _ _ now1 (n + 1) _) as [rest|e] eqn:Er;
      cbn [bindr] in H; [|discriminate].
    injection H as <-.
    destruct (turn_clock _ _ _ _ _ _ _ _ Et) as (info & lab & m & Hc & _).
    rewrite Hwc in Hc. unfold timing in Hc.
    rewrite Hr1, Hts, Ht1 in Hc. cbn [andb bindr] in Hc.
    assert (Hnow1 : initial_timestamp now1 <> None
                    /\ last_timestamp now1 = Some (Some t1)).
    { destruct (initial_timestamp now) as [initial|] eqn:Ei.
      - destruct (last_timestamp now) as [last|] eqn:El.
        + destruct (duration_between (Some t1) last) as [text|e];
            cbn [bindr] in Hc; [|discriminate].
          injection Hc as <- _. now split.
        + destruct Hnow; [discriminate|reflexivity].
      - injection Hc as <- _. now split. }
    destruct Hnow1 as [Hinit Hlast].
    destruct (@turns_up_to_the_next conv source search_phrase a u r2 after
                t1 t2 between Hwc Hts Hr2 Ht2 Hbetween now1 (n + 1) rest
                Hinit Hlast Er)
      as (lab' & m' & Hn).
    exists lab', m'. subst i. cbn [List.length Nat.add nth_error].
    rewrite Hn. do 2 f_equal. lia.
  - destruct (turn _ _ _ _ _ _ _ _ now n r) as [[now1 html]|e] eqn:Et;
      cbn [bindr] in H; [|discriminate].
    destruct (turns_from _ _ _ _ _ _ _ _ now1 (n + 1) _) as [rest|e] eqn:Er;
      cbn [bindr] in H; [|discriminate].
    injection H as <-.
    assert (Hnow1 : initial_timestamp now1 <> None ->
                    last_timestamp now1 <> None).
    { destruct (turn_clock _ _ _ _ _ _ _ _ Et) as (info & lab & m & Hc & _).
      rewrite Hwc in Hc. unfold timing in Hc.
      destruct (is_assistant (at_key r "role") && in_columns conv "timestamp").
      - destruct (to_datetime (at_key r "timestamp")) as [cur|e];
          cbn [bindr] in Hc; [|discriminate Hc].
        destruct (initial_timestamp now) as [initial|].
        + destruct (last_timestamp now) as [last|]; [|discriminate Hc].
          destruct (duration_between cur last) as [text|e];
            cbn [bindr] in Hc; [|discriminate Hc].
          injection Hc as <- _. intros _. discriminate.
        + injection Hc as <- _. intros _. discriminate.
      - injection Hc as <- _. exact Hnow. }
    destruct (IH now1 (n + 1) rest Hnow1 Er) as (lab' & m' & Hn).
    exists lab', m'. subst i. cbn [List.length Nat.add nth_error].
    rewrite Hn. do 2 f_equal. lia.
Qed.

(** X28. For the source [wc] the line of timing of an assistant turn gives
    the time since the turn of the assistant before it, whatever the turns
    of anyone else between the two hold.  The line is there even when no
    time has passed. *)
Theorem time_is_counted_between_assistant_turns (conv : ConvFrame)
  (source : cell) (search_phrase : option string)
  (before between after : list (list (string * value)))
  (r1 r2 : list (string * value)) (t1 t2 : Z) (l : list string) :
  is_source source "wc" = true ->
  in_columns conv "timestamp" = true ->
  conv_rows conv = before ++ r1 :: between ++ r2 :: after ->
  is_assistant (at_key r1 "role") = true ->
  is_assistant (at_key r2 "role") = true ->
  Forall (fun r => is_assistant (at_key r "role") = false) between ->
  to_datetime (at_key r1 "timestamp") = Ok (Some t1) ->
  to_datetime (at_key r2 "timestamp") = Ok (Some t2) ->
  bubbles conv source search_phrase = Ok l ->
  let i := (List.length before + 1 + List.length between)%nat in
  exists a u language_label message_html,
    nth_error l i
    = Some (bubble_of conv source search_phrase a u (Z.of_nat i + 1) r2
              (timing_div
                 (cat [format_duration (t2 - t1); " since last turn"]))
              language_label message_html).
Proof.
  intros Hwc Hts Hrows Hr1 Hr2 Hbetween Ht1 Ht2 H i.
  unfold chat_bubbles in H.
  destruct (avatar assistant_avatar_path) as [a|e]; cbn [bindr] in H;
    [|discriminate].
  destruct (avatar user_avatar_path) as [u|e]; cbn [bindr] in H;
    [|discriminate].
  rewrite Hrows in H.
  assert (Hnow : initial_timestamp (mkClock None None) <> None ->
                 last_timestamp (mkClock None None) <> None)
    by (intros Hn; now destruct Hn).
  destruct (@turns_from_the_first conv source search_phrase a u r1 r2
              between after t1 t2 before Hwc Hts Hr1 Hr2 Ht1 Ht2 Hbetween
              (mkClock None None) 1 l Hnow H)
    as (lab & m & Hn).
  exists a, u, lab, m. fold i in Hn. rewrite Hn. do 2 f_equal. lia.
Qed.


End Pages.

(** ** The theorems at work *)

Lemma one_bubble_per_turn_witness :
  exists l,
    Demo.bubbles Demo.talk (Str "wc") (Some "hi") = Ok l
    /\ List.length l = 4%nat.
Proof.
  destruct (Demo.bubbles Demo.talk (Str "wc") (Some "hi")) as [l|e] eqn:E;
    [|vm_compute in E; discriminate E].
  exists l. split; [reflexivity|].
  destruct (@one_bubble_per_turn Demo.read_file Demo.b64encode
              Demo.to_datetime Demo.markdown Demo.re_template Demo.talk
              (Str "wc") (Some "hi") l E) as (a & u & _ & _ & Hlen & _).
  exact Hlen.
Defined.

Lemma human_messages_are_escaped_witness :
  exists l message_html,
    Demo.bubbles Demo.talk (Str "lm") None = Ok l
    /\ escaped_html message_html
    /\ message_html = "&lt;b&gt;Hi&lt;/b&gt; there".
Proof.
  destruct (Demo.bubbles Demo.talk (Str "lm") None) as [l|e] eqn:E;
    [|vm_compute in E; discriminate E].
  destruct (@human_messages_are_escaped Demo.read_file Demo.b64encode
              Demo.to_datetime Demo.markdown Demo.re_template Demo.talk
              (Str "lm") None l 0%nat (Demo.said "user" "<b>Hi</b> there" 0)
              E eq_refl eq_refl)
    as (u & lab & text & m & _ & Ht & _ & Hesc & Hplain).
  exists l, m. split; [reflexivity|]. split; [exact Hesc|].
  cbv in Ht. injection Ht as <-. apply Hplain. reflexivity.
Defined.

Lemma timing_and_flags_are_for_wc_witness :
  generate_chat_bubbles Demo.read_file Demo.b64encode Demo.to_datetime
    Demo.markdown Demo.re_template Demo.talk (Str "lm") None
  = generate_chat_bubbles Demo.read_file Demo.b64encode
      (fun _ => Err (LibraryError "ParserError")) Demo.markdown
      Demo.re_template Demo.talk (Str "lm") None.
Proof.
  exact (proj1 (@timing_and_flags_are_for_wc Demo.read_file Demo.b64encode
                  Demo.to_datetime Demo.markdown Demo.re_template
                  (fun _ => Err (LibraryError "ParserError")) Demo.talk
                  (Str "lm") None eq_refl)).
Defined.

Lemma framed_bubbles_are_the_counted_turns_witness :
  exists conv' l,
    search_marks Demo.str_accessor Demo.talk (Some "hi")
    = Ok (conv', 3, [0; 2; 3])
    /\ Demo.bubbles conv' (Str "lm") (Some "hi") = Ok l
    /\ List.length l = 4%nat.
Proof.
  exists (set_contains_search Demo.talk [true; false; true; true]).
  destruct (Demo.bubbles
              (set_contains_search Demo.talk [true; false; true; true])
              (Str "lm") (Some "hi")) as [l|e] eqn:E;
    [|vm_compute in E; discriminate E].
  exists l.
  assert (Hs : search_marks Demo.str_accessor Demo.talk (Some "hi")
               = Ok (set_contains_search Demo.talk
                       [true; false; true; true], 3, [0; 2; 3]))
    by reflexivity.
  split; [exact Hs|]. split; [reflexivity|].
  destruct (@framed_bubbles_are_the_counted_turns Demo.read_file
              Demo.b64encode Demo.to_datetime Demo.markdown Demo.re_template
              Demo.str_accessor Demo.talk _ (Str "lm") (Some "hi") 3
              [0; 2; 3] l Hs E) as (_ & Hlen & _).
  exact Hlen.
Defined.

Lemma phrase_is_sought_as_text_witness :
  exists before rest,
    PyStr.lower "Oh HI there" = (before ++ PyStr.lower "hi" ++ rest)%string.
Proof.
  assert (Hp : "hi"%string <> ""%string) by discriminate.
  apply (proj1 (@phrase_is_sought_as_text Demo.re_template "hi" Hp)).
  reflexivity.
Defined.

Lemma highlight_writes_the_phrase_as_typed_witness :
  highlight Demo.re_template (Some "hi") (VStr "Hi!")
  = Ok (true, VStr "<strong style='color: red;'>hi</strong>!").
Proof.
  assert (Hp : "hi"%string <> ""%string) by discriminate.
  exact (@highlight_writes_the_phrase_as_typed Demo.re_template "hi" "Hi"
           "!" Hp eq_refl eq_refl eq_refl).
Defined.

Lemma nothing_is_shown_without_the_avatars_witness :
  exists path,
    generate_chat_bubbles Demo.no_file Demo.b64encode Demo.to_datetime
      Demo.markdown Demo.re_template Demo.talk (Str "lm") None
    = Err (OSError path)
    /\ (path = assistant_avatar_path \/ path = user_avatar_path).
Proof.
  apply (proj1 (@nothing_is_shown_without_the_avatars Demo.no_file
                  Demo.b64encode Demo.json_loads Demo.json_normalize
                  Demo.to_datetime_cell Demo.format_cell Demo.to_datetime
                  Demo.markdown Demo.re_template Demo.str_accessor
                  Demo.can_write Demo.write_file (or_introl eq_refl))).
Defined.

Lemma conversation_that_is_not_there_witness :
  Demo.unpack Demo.chat_table (Str "z")
  = Err (Builtin (ValueError "No conversation found with conv_id: z"))
  /\ Demo.print_or_save Demo.chat_table (Str "z") true true
       default_save_path None
     = (mkEffects [not_found_html] [] [], Ok tt).
Proof.
  destruct (@conversation_that_is_not_there Demo.read_file Demo.b64encode
              Demo.json_loads Demo.json_normalize Demo.to_datetime_cell
              Demo.format_cell Demo.to_datetime Demo.markdown
              Demo.re_template Demo.str_accessor Demo.can_write
              Demo.write_file
              Demo.chat_table (Str "z") eq_refl eq_refl)
    as (Hunpack & _ & Hprint & _).
  split; [exact Hunpack|apply Hprint].
Defined.


Lemma metadata_reads_its_columns_in_order_witness :
  (exists html,
     Demo.metadata (table Demo.chat_table) (Str "a") (Str "lm") None 0 []
     = Ok html)
  /\ Demo.metadata (table Demo.chat_table) (Str "a") (Str "sg") None 0 []
     = Err (Builtin (KeyError "views")).
Proof.
  split.
  - exact (proj1 (@metadata_reads_its_columns_in_order Demo.to_datetime_cell
                    Demo.format_cell (table Demo.chat_table) (Str "a")
                    (Str "lm") None 0 [] (Demo.entry 0 "a" "lm")
                    [Demo.entry 2 "a" "wc"] eq_refl eq_refl) eq_refl).
  - exact (proj1 (@metadata_reads_its_columns_in_order Demo.to_datetime_cell
                    Demo.format_cell (table Demo.chat_table) (Str "a")
                    (Str "sg") None 0 [] (Demo.entry 0 "a" "lm")
                    [Demo.entry 2 "a" "wc"] eq_refl eq_refl) eq_refl).
Defined.

Lemma unpack_reads_the_first_match_witness :
  Demo.unpack Demo.chat_table (Str "b") = Ok (Demo.json_normalize []).
Proof.
  exact (@unpack_reads_the_first_match Demo.json_loads Demo.json_normalize
           Demo.chat_table (Str "b") [Demo.entry 0 "a" "lm"]
           [Demo.entry 2 "a" "wc"] (Demo.entry 1 "b" "lm") eq_refl eq_refl
           eq_refl eq_refl eq_refl).
Defined.

Lemma time_is_counted_between_assistant_turns_witness :
  exists l a u language_label message_html,
    Demo.bubbles Demo.talk (Str "wc") None = Ok l
    /\ nth_error l 3
       = Some (bubble_of Demo.talk (Str "wc") None a u 4
                 (Demo.said "assistant" "Hi!" 75)
                 (timing_div "1m, 5s since last turn") language_label
                 message_html).
Proof.
  destruct (Demo.bubbles Demo.talk (Str "wc") None) as [l|e] eqn:E;
    [|vm_compute in E; discriminate E].
  assert (Hbetween :
            Forall (fun r => is_assistant (at_key r "role") = false)
              [Demo.said "user" "say hi again" 20])
    by (repeat constructor).
  destruct (@time_is_counted_between_assistant_turns Demo.read_file
              Demo.b64encode Demo.to_datetime Demo.markdown Demo.re_template
              Demo.talk (Str "wc") None [Demo.said "user" "<b>Hi</b> there" 0]
              [Demo.said "user" "say hi again" 20] []
              (Demo.said "assistant" "Hello" 10)
              (Demo.said "assistant" "Hi!" 75) 10 75 l eq_refl eq_refl
              eq_refl eq_refl eq_refl Hbetween eq_refl eq_refl E)
    as (a & u & lab & m & Hn).
  exists l, a, u, lab, m. split; [reflexivity|exact Hn].
Defined.
